(** * tcp-over-udp: a stop-and-wait file transfer over UDP

    A shallow embedding of [src/include/udp.h], [src/sender.c] and
    [src/receiver.c].

    - [Wire]: the constants of [udp.h], C integer conversions, the byte
      layout of [struct Header], [memcpy] and [recvfrom] on byte buffers.
    - [Sender]: [establish_connection], [checkAck], the loop of [rsend],
      [getFileSize], the whole of [rsend], and [main].
    - [Receiver]: [send_packet_ack], [establish_connection], the loop of
      [rrecv], the whole of [rrecv], and [main].
    - [Datagram]: the handshake messages and the data acks as bytes, and
      what each [recvfrom] makes of a datagram.
    - [Transfer]: both data loops run against each other over a network
      that may lose and duplicate datagrams.  The receiver runs on the
      datagrams that arrive: its [recvfrom] is taken to wait for the next
      one, and not to fail or time out meanwhile; and a transfer starts
      with no datagram waiting at the sender's socket.
    - [Integrity]: the invariant that ties such a run to the source file.
    - [Scenario]: concrete files, datagrams and networks.

    The properties follow the definitions: wire format, the sender's
    buffer, the receiver's loop, the handshake, retries, the [lastPacket]
    flag, whole transfers, stop-and-wait over a lossy network, a network
    that loses nothing, the loss of the last ack and of the handshake's
    Ack, failures the sender outlasts, the handshake loops in general,
    the order of writes, retransmissions, the target, how the two
    processes end, and a target of zero bytes.

    Every call into the operating system ([socket], [bind], [fopen],
    [stat], [setsockopt], [sendto], [recvfrom], [rand], [atoll]) is an
    input of the model: each loop consumes one record of results per
    iteration, and a loop whose inputs are used up is [Pending] (blocked
    in its next call).  [exit(n)] is an outcome carrying [n].  One rule
    of the system is written out, for [Sender.rsend_loop_os]: a receive
    timeout of a second or more is refused by [setsockopt].  The
    write-rate throttle of [rrecv] only decides whether an iteration ends
    with [sleep(1)]; time is not modelled.

    ABI: the usual one for the programs' targets (x86-64 / AArch64 Linux):
    [int] and [uint32_t] are 32 bits, [long long], [unsigned long long]
    and [size_t] are 64 bits, integers are little-endian, and
    [struct Header] is laid out as 4 + 4 + 1 bytes followed by 3 bytes of
    tail padding. *)

From Stdlib Require Import ZArith List Bool Lia Sorted.
From Stdlib Require Import Strings.Byte.
Import ListNotations.
Open Scope Z_scope.

(* ------------------------------------------------------------------ *)
(** ** Wire format and C arithmetic *)

Module Wire.

Definition byte := Byte.byte.

(** The macros of [udp.h]. *)
Definition FALSE : Z := 0.
Definition TRUE : Z := 1.
Definition MAX_BUFFER_SIZE : Z := 8192.
Definition DEFAULT_TIMEOUT : Z := 100000.
Definition MAX_RETRIES : Z := 3.
Definition MAX_ACK_SIZE : Z := 4.
Definition SYN_ACK_DEFAULT_TIMEOUT_MILLISEC : Z := 100000.
Definition SYN_ACK_MAX_TIMEOUT_MILLISEC : Z := 1600.

(** [sizeof(struct Header)], [sizeof(struct Syn)], [sizeof(struct Ack)],
    [sizeof(struct SynAck)]. *)
Definition HEADER_SIZE : Z := 12.
Definition SYN_SIZE : Z := 4.
Definition ACK_SIZE : Z := 4.
Definition SYNACK_SIZE : Z := 8.

(** Conversion to [uint32_t], to [unsigned long long] / [size_t], and to
    [int] (two's complement wrap-around). *)
Definition u32 (z : Z) : Z := z mod 2 ^ 32.
Definition u64 (z : Z) : Z := z mod 2 ^ 64.
Definition s32 (z : Z) : Z := (z + 2 ^ 31) mod 2 ^ 32 - 2 ^ 31.

Definition byte_of_Z (z : Z) : byte :=
  match Byte.of_N (Z.to_N (z mod 256)) with
  | Some b => b
  | None => x00
  end.

Definition Z_of_byte (b : byte) : Z := Z.of_N (Byte.to_N b).

(** A [uint32_t] in memory: four bytes, least significant first. *)
Definition put_u32 (v : Z) : list byte :=
  [ byte_of_Z v; byte_of_Z (v / 2 ^ 8); byte_of_Z (v / 2 ^ 16);
    byte_of_Z (v / 2 ^ 24) ].

Definition get_u32 (off : nat) (buf : list byte) : Z :=
  Z_of_byte (nth off buf x00)
  + 2 ^ 8 * Z_of_byte (nth (off + 1) buf x00)
  + 2 ^ 16 * Z_of_byte (nth (off + 2) buf x00)
  + 2 ^ 24 * Z_of_byte (nth (off + 3) buf x00).

(** [struct Header]. [lastPacket] is a [u_char]. *)
Record Header := mkHeader {
  sequenceNumber : Z;
  messageLength : Z;
  lastPacket : Z
}.

(** The object representation of a [struct Header] ([memcpy(packet,
    &header, HEADER_SIZE)]).  The three padding bytes are indeterminate in
    C; no code reads them, the model makes them zero. *)
Definition encode_header (h : Header) : list byte :=
  put_u32 (sequenceNumber h) ++ put_u32 (messageLength h)
  ++ [byte_of_Z (lastPacket h); x00; x00; x00].

(** [memcpy(&header, packet, HEADER_SIZE)] followed by reading the fields. *)
Definition decode_header (buf : list byte) : Header :=
  {| sequenceNumber := get_u32 0 buf;
     messageLength := get_u32 4 buf;
     lastPacket := Z_of_byte (nth 8 buf x00) |}.

(** [memcpy(dst + off, src, length src)] on a buffer that is long enough;
    the buffer never grows. *)
Definition memcpy (dst : list byte) (off : nat) (src : list byte) : list byte :=
  firstn (length dst) (firstn off dst ++ src ++ skipn (off + length src) dst).

(** The length of a buffer or datagram as a C integer. *)
Definition len (l : list byte) : Z := Z.of_nat (length l).

(** [recvfrom(sockfd, buf, size, ...)] when datagram [d] is delivered: the
    datagram, cut at [size], lies over the old contents [stale] of [buf];
    the call returns the number of bytes it stored. *)
Definition recv_into (size : nat) (stale d : list byte) : list byte :=
  firstn size (d ++ skipn (length d) stale).

Definition recv_size (size : nat) (d : list byte) : nat :=
  Nat.min (length d) size.

(** [EXIT_SUCCESS] of [stdlib.h]. *)
Definition EXIT_SUCCESS : Z := 0.

(** How a run of [main] ends: [return code], a call of [exit(code)], or not
    yet (the process is blocked in a call whose result the inputs do not
    give). *)
Inductive process_end :=
| Returned (code : Z)
| CalledExit (code : Z)
| Running.

End Wire.

(* ------------------------------------------------------------------ *)
(** ** The sender, [src/sender.c] *)

Module Sender.
Import Wire.

(** *** [establish_connection] *)

(** What [recvfrom(sockfd, &syn_ack, sizeof(struct SynAck), ...)] returned:
    [-1] with [errno] [EAGAIN] / [EWOULDBLOCK], [-1] with another [errno],
    or a size [>= 0] together with the two fields of [syn_ack] as they
    stand after the call. *)
Inductive hs_recv :=
| HsTimeout
| HsError
| HsData (recv_size : nat) (sequenceNumber ackNumber : Z).

(** One iteration's results: [setsockopt(...) >= 0], [rand()], [recvfrom]. *)
Record hs_env := mkHsEnv {
  hs_setsockopt_ok : bool;
  hs_rand : Z;
  hs_recvfrom : hs_recv
}.

(** Datagrams handed to [sendto] during the handshake. *)
Inductive hs_sent :=
| SentSyn (sequenceNumber : Z)
| SentAck (ackNumber : Z).

Inductive hs_outcome :=
| Established (_sequenceNumber : Z)   (* [return], with the global it set *)
| HsExited (code : Z)                 (* [exit(code)] *)
| HsPending (timeout : Z).            (* still looping, with this [timeout] *)

(** [if (timeout < SYN_ACK_MAX_TIMEOUT_MILLISEC) timeout *= 2;] *)
Definition backoff (timeout : Z) : Z :=
  if timeout <? SYN_ACK_MAX_TIMEOUT_MILLISEC then s32 (timeout * 2) else timeout.

(** The [while (TRUE)] loop of [establish_connection], lines 98-152. *)
Fixpoint establish_connection_loop (env : list hs_env) (timeout : Z)
  : list hs_sent * hs_outcome :=
  match env with
  | [] => ([], HsPending timeout)
  | e :: env' =>
      if negb (hs_setsockopt_ok e) then ([], HsExited 1)
      else
        let syn_sequenceNumber := u32 (hs_rand e) in
        let _sequenceNumber := s32 syn_sequenceNumber in
        match hs_recvfrom e with
        | HsData recv_size sn _ =>
            if (0 <? Z.of_nat recv_size) && (Z.of_nat recv_size =? SYNACK_SIZE)
            then ([SentSyn syn_sequenceNumber; SentAck (u32 (sn + 1))],
                  Established _sequenceNumber)
            else
              let (sent, out) := establish_connection_loop env' timeout in
              (SentSyn syn_sequenceNumber :: sent, out)
        | HsTimeout =>
            let (sent, out) := establish_connection_loop env' (backoff timeout) in
            (SentSyn syn_sequenceNumber :: sent, out)
        | HsError => ([SentSyn syn_sequenceNumber], HsExited 1)
        end
  end.

Definition establish_connection (env : list hs_env) : list hs_sent * hs_outcome :=
  establish_connection_loop env SYN_ACK_DEFAULT_TIMEOUT_MILLISEC.

(** *** [checkAck] *)

(** What [recvfrom(sockfd, ack, MAX_ACK_SIZE, ...)] returned: [-1] with
    [EAGAIN] / [EWOULDBLOCK], [-1] with another [errno], or a size [>= 0]
    together with the [uint32_t] that [memcpy] then reads out of [ack]. *)
Inductive recv_result :=
| RecvTimeout
| RecvError
| RecvAck (receivedSequenceNumber : Z).

(** The variables of [rsend] that its loop reads and writes: the global
    [_sequenceNumber] (an [int]), [totalBytesSent], [timeout], [retries],
    the send buffer [packet] and the unread rest of the source file. *)
Record State := mkState {
  _sequenceNumber : Z;
  totalBytesSent : Z;
  timeout : Z;
  retries : Z;
  packet : list byte;
  file : list byte
}.

Inductive iter_result :=
| Next (st : State)
| Exit (code : Z).

(** The two failure branches share this update: the timeout is doubled,
    the retry counter is incremented, and [checkAck] returns. *)
Definition retry (st : State) : State :=
  {| _sequenceNumber := _sequenceNumber st;
     totalBytesSent := totalBytesSent st;
     timeout := s32 (timeout st * 2);
     retries := s32 (retries st + 1);
     packet := packet st;
     file := file st |}.

(** [checkAck], lines 173-220. *)
Definition checkAck (r : recv_result) (bytesSentThisTime : Z) (st : State)
  : iter_result :=
  match r with
  | RecvTimeout =>
      if retries st <? MAX_RETRIES then Next (retry st) else Exit 1
  | RecvError => Exit 1
  | RecvAck receivedSequenceNumber =>
      if negb (receivedSequenceNumber =? u32 (_sequenceNumber st))
      then Next (retry st)
      else
        Next {| _sequenceNumber := s32 (_sequenceNumber st + 1);
                totalBytesSent :=
                  u64 (totalBytesSent st + u64 (bytesSentThisTime - HEADER_SIZE));
                timeout := DEFAULT_TIMEOUT;
                retries := 0;
                packet := packet st;
                file := file st |}
  end.

(** *** The loop of [rsend] *)

(** Lines 305-325: [fread] the next chunk and rebuild [packet].  ([fread]
    returns a count, so the test [bytesRead < 0] of line 306 never fires.) *)
Definition read_chunk (bytesToTransfer : Z) (st : State) : State :=
  let packet_data := firstn (Z.to_nat MAX_BUFFER_SIZE) (file st) in
  let bytesRead := len packet_data in
  let header :=
    {| sequenceNumber := u32 (_sequenceNumber st);
       messageLength := u32 bytesRead;
       lastPacket :=
         if u64 (totalBytesSent st + MAX_BUFFER_SIZE) >? bytesToTransfer
         then TRUE else FALSE |} in
  {| _sequenceNumber := _sequenceNumber st;
     totalBytesSent := totalBytesSent st;
     timeout := timeout st;
     retries := retries st;
     packet :=
       memcpy (memcpy (packet st) (Z.to_nat HEADER_SIZE) packet_data)
              0 (encode_header header);
     file := skipn (Z.to_nat MAX_BUFFER_SIZE) (file st) |}.

(** One iteration's results: [setsockopt(...) >= 0], the value of
    [sendto], and [recvfrom] inside [checkAck]. *)
Record iter_env := mkIterEnv {
  setsockopt_ok : bool;
  sendto_ret : Z;
  ack_recvfrom : recv_result
}.

(** The send buffer of an iteration, after the [if (retries == 0)] block. *)
Definition prepare (bytesToTransfer : Z) (st : State) : State :=
  if retries st =? 0 then read_chunk bytesToTransfer st else st.

(** What [sendto(sockfd, packet, HEADER_SIZE + MAX_BUFFER_SIZE, ...)] is
    given. *)
Definition datagram_of (st : State) : list byte :=
  firstn (Z.to_nat (HEADER_SIZE + MAX_BUFFER_SIZE)) (packet st).

(** The body of the [while] loop, lines 295-335: the datagrams handed
    to the transport and how the iteration ends. *)
Definition rsend_iter (bytesToTransfer : Z) (e : iter_env) (st : State)
  : list (list byte) * iter_result :=
  if negb (setsockopt_ok e) then ([], Exit 1)
  else
    let st1 := prepare bytesToTransfer st in
    let bytesSentThisTime := sendto_ret e in
    if bytesSentThisTime <? 0 then ([], Exit 1)
    else ([datagram_of st1], checkAck (ack_recvfrom e) bytesSentThisTime st1).

Inductive outcome :=
| Finished (st : State)      (* the loop ended, the file and socket are closed *)
| Exited (code : Z)          (* [exit(code)] *)
| Pending (st : State)       (* still in the data loop *)
| Connecting (timeout : Z).  (* still in the handshake *)

(** [while (totalBytesSent < bytesToTransfer)], lines 293-336. *)
Fixpoint rsend_loop (bytesToTransfer : Z) (env : list iter_env) (st : State)
  {struct env} : list (list byte) * outcome :=
  if totalBytesSent st <? bytesToTransfer then
    match env with
    | [] => ([], Pending st)
    | e :: env' =>
        match rsend_iter bytesToTransfer e st with
        | (sent, Next st') =>
            let (sent', out) := rsend_loop bytesToTransfer env' st' in
            (sent ++ sent', out)
        | (sent, Exit code) => (sent, Exited code)
        end
    end
  else ([], Finished st).

(** The state at loop entry, lines 282-291. [packet0] is what the
    uninitialised array [packet] happens to hold. *)
Definition init (_sequenceNumber : Z) (packet0 source : list byte) : State :=
  {| _sequenceNumber := _sequenceNumber;
     totalBytesSent := 0;
     timeout := DEFAULT_TIMEOUT;
     retries := 0;
     packet := packet0;
     file := source |}.

(** Lines 274-277: the target is capped at the file's size. *)
Definition cap (source : list byte) (bytesToTransfer : Z) : Z :=
  if len source <? bytesToTransfer then len source else bytesToTransfer.

(** [rsend] from the opened file on: the handshake's datagrams, the data
    datagrams, and the outcome. *)
Definition rsend (source : list byte) (bytesToTransfer : Z)
  (hs : list hs_env) (env : list iter_env) (packet0 : list byte)
  : list hs_sent * list (list byte) * outcome :=
  match establish_connection hs with
  | (hsent, Established seq) =>
      let (sent, out) :=
        rsend_loop (cap source bytesToTransfer) env (init seq packet0 source) in
      (hsent, sent, out)
  | (hsent, HsExited code) => (hsent, [], Exited code)
  | (hsent, HsPending t) => (hsent, [], Connecting t)
  end.

(** Two everyday iterations: [setsockopt] worked, the datagram was handed
    over whole, and then either an ack arrived that carries [v], or
    [recvfrom] timed out. *)
Definition acked_with (v : Z) : iter_env :=
  mkIterEnv true (HEADER_SIZE + MAX_BUFFER_SIZE) (RecvAck v).

Definition timed_out : iter_env :=
  mkIterEnv true (HEADER_SIZE + MAX_BUFFER_SIZE) RecvTimeout.

(** *** The loop of [rsend] with the system's [SO_RCVTIMEO] rule *)

(** What [setsockopt(sockfd, SOL_SOCKET, SO_RCVTIMEO, &tv, sizeof(tv))]
    of line 297 makes of [tv.tv_usec = timeout] beside [tv.tv_sec = 0]:
    Linux and the BSDs take a [tv_usec] from 0 to 999999 and refuse any
    other with [EDOM]. *)
Definition setsockopt_accepts (tv_usec : Z) : bool :=
  (0 <=? tv_usec) && (tv_usec <? 1000000).

(** [timeout] after [retries] doublings of [DEFAULT_TIMEOUT]. *)
Definition timeout_after (retries : Z) : Z := DEFAULT_TIMEOUT * 2 ^ retries.

(** [while (totalBytesSent < bytesToTransfer)], lines 293-336, on such a
    system: a [timeout] the system refuses makes the [setsockopt] of line
    297 fail, whatever the iteration's inputs would have been, and the
    process ends by the [exit(1)] of line 300.  ([setsockopt_ok] stays an
    input: the call may fail for other reasons.) *)
Fixpoint rsend_loop_os (bytesToTransfer : Z) (env : list iter_env) (st : State)
  {struct env} : list (list byte) * outcome :=
  if totalBytesSent st <? bytesToTransfer then
    if negb (setsockopt_accepts (timeout st)) then ([], Exited 1)
    else
      match env with
      | [] => ([], Pending st)
      | e :: env' =>
          match rsend_iter bytesToTransfer e st with
          | (sent, Next st') =>
              let (sent', out) := rsend_loop_os bytesToTransfer env' st' in
              (sent ++ sent', out)
          | (sent, Exit code) => (sent, Exited code)
          end
      end
  else ([], Finished st).

(** A transient failure of the packet numbered [n]: the datagram was
    handed over, and [recvfrom] timed out or delivered an ack that
    carries another number. *)
Definition transient_failure (n : Z) (e : iter_env) : bool :=
  setsockopt_ok e && (0 <=? sendto_ret e)
  && match ack_recvfrom e with
     | RecvTimeout => true
     | RecvError => false
     | RecvAck v => negb (v =? n)
     end.

(** The inputs of a transfer each of whose packets meets some transient
    failures before its ack arrives: [bursts] lists the failures packet by
    packet, and the first packet carries the number [n]. *)
Fixpoint answered_after (n : Z) (bursts : list (list iter_env))
  : list iter_env :=
  match bursts with
  | [] => []
  | failures :: bursts' =>
      failures ++ acked_with (u32 n) :: answered_after (n + 1) bursts'
  end.

(** No packet meets more than [MAX_RETRIES] failures, and each of them is
    a transient failure of its packet. *)
Fixpoint outlastable (n : Z) (bursts : list (list iter_env)) : bool :=
  match bursts with
  | [] => true
  | failures :: bursts' =>
      (Z.of_nat (length failures) <=? MAX_RETRIES)
      && forallb (transient_failure (u32 n)) failures
      && outlastable (n + 1) bursts'
  end.

(** An iteration of [establish_connection] that goes round again:
    [setsockopt] worked, and [recvfrom] timed out or returned a size other
    than [sizeof(struct SynAck)]. *)
Definition no_reply (e : hs_env) : bool :=
  hs_setsockopt_ok e
  && match hs_recvfrom e with
     | HsTimeout => true
     | HsError => false
     | HsData recv_size _ _ => negb (Z.of_nat recv_size =? SYNACK_SIZE)
     end.

(** *** [getFileSize], the whole of [rsend], and [main] *)

(** [getFileSize], lines 57-68.  [stat] is what [stat(filename, &st)] gave:
    [Some st_size], or [None] when it failed. *)
Definition getFileSize (stat : option Z) : Z :=
  match stat with
  | Some st_size => st_size
  | None => -1
  end.

(** Lines 274-277.  [getFileSize] is called twice; its [long long] is
    converted to [unsigned long long], for the comparison and by the
    assignment. *)
Definition capped (stat_first stat_second : option Z) (bytesToTransfer : Z) : Z :=
  if u64 (getFileSize stat_first) <? bytesToTransfer
  then u64 (getFileSize stat_second)
  else bytesToTransfer.

(** What the calls of lines 247-277 return: [socket], whether
    [gethostbyname] found the host, the bytes of the stream [fopen] opened
    ([None]: it returned [NULL]), and the two [stat]s. *)
Record setup_env := mkSetupEnv {
  socket_ret : Z;
  gethostbyname_ok : bool;
  fopen : option (list byte);
  stat_first : option Z;
  stat_second : option Z
}.

(** [rsend], lines 241-340, from its first line. *)
Definition rsend_whole (su : setup_env) (bytesToTransfer : Z)
  (hs : list hs_env) (env : list iter_env) (packet0 : list byte)
  : list hs_sent * list (list byte) * outcome :=
  if socket_ret su <? 0 then ([], [], Exited 1)
  else if negb (gethostbyname_ok su) then ([], [], Exited 1)
  else
    match fopen su with
    | None => ([], [], Exited 1)
    | Some source =>
        let bytesToTransfer :=
          capped (stat_first su) (stat_second su) bytesToTransfer in
        match establish_connection hs with
        | (hsent, Established seq) =>
            let (sent, out) :=
              rsend_loop bytesToTransfer env (init seq packet0 source) in
            (hsent, sent, out)
        | (hsent, HsExited code) => (hsent, [], Exited code)
        | (hsent, HsPending t) => (hsent, [], Connecting t)
        end
    end.

(** [main], lines 349-370.  [atoll_argv4] is the value of
    [atoll(argv[4])], a [long long]; the port only reaches [sendto]'s
    address. *)
Definition main (argc : Z) (atoll_argv4 : Z) (su : setup_env)
  (hs : list hs_env) (env : list iter_env) (packet0 : list byte)
  : list hs_sent * list (list byte) * process_end :=
  if negb (argc =? 5) then ([], [], CalledExit 1)
  else
    let bytesToTransfer := u64 atoll_argv4 in
    match rsend_whole su bytesToTransfer hs env packet0 with
    | (hsent, sent, Finished _) => (hsent, sent, Returned EXIT_SUCCESS)
    | (hsent, sent, Exited code) => (hsent, sent, CalledExit code)
    | (hsent, sent, Pending _) => (hsent, sent, Running)
    | (hsent, sent, Connecting _) => (hsent, sent, Running)
    end.

End Sender.

(* ------------------------------------------------------------------ *)
(** ** The receiver, [src/receiver.c] *)

Module Receiver.
Import Wire.

(** *** [establish_connection] *)

(** What a [recvfrom] into a [struct Syn] or a [struct Ack] returned:
    [-1] with [EAGAIN] / [EWOULDBLOCK], [-1] with another [errno], or a
    size [>= 0] together with the struct's one [uint32_t] field as it
    stands after the call. *)
Inductive hs_recv :=
| HsTimeout
| HsError
| HsData (recv_size : nat) (field : Z).

(** One iteration of the outer loop: [setsockopt(...) >= 0] and the
    [recvfrom] that listens for a Syn. *)
Record listen_env := mkListenEnv {
  ls_setsockopt_ok : bool;
  ls_recvfrom : hs_recv
}.

Inductive hs_sent :=
| SentSynAck (sequenceNumber ackNumber : Z).

Inductive hs_outcome :=
| Established
| HsExited (code : Z)
| HsPending (timeout : Z).

(** [if (timeout < SYN_ACK_MAX_TIMEOUT_MILLISEC) timeout *= 2;] *)
Definition backoff (timeout : Z) : Z :=
  if timeout <? SYN_ACK_MAX_TIMEOUT_MILLISEC then s32 (timeout * 2) else timeout.

(** The inner [while (TRUE)], lines 123-161: send the SynAck, listen for
    the Ack.  The test of line 134 compares the Ack with
    [syn_ack.ackNumber].  (This loop updates [timeout] but never hands it
    to [setsockopt].)  Every iteration begins with the [sendto] of line
    126, ahead of the [recvfrom] of line 130: a loop whose inputs are used
    up has sent its SynAck once more and waits in [recvfrom]. *)
Fixpoint await_ack (syn_ack_sequenceNumber syn_ack_ackNumber : Z)
  (env : list hs_recv) (timeout : Z) : list hs_sent * hs_outcome :=
  let syn_ack := SentSynAck syn_ack_sequenceNumber syn_ack_ackNumber in
  match env with
  | [] => ([syn_ack], HsPending timeout)
  | r :: env' =>
      match r with
      | HsData recv_size ack_ackNumber =>
          if (0 <? Z.of_nat recv_size) && (ack_ackNumber =? syn_ack_ackNumber)
          then ([syn_ack], Established)
          else
            let (sent, out) :=
              await_ack syn_ack_sequenceNumber syn_ack_ackNumber env' timeout in
            (syn_ack :: sent, out)
      | HsTimeout =>
          let (sent, out) :=
            await_ack syn_ack_sequenceNumber syn_ack_ackNumber env'
                      (backoff timeout) in
          (syn_ack :: sent, out)
      | HsError => ([syn_ack], HsExited 1)
      end
  end.

(** The outer [while (TRUE)], lines 96-182.  [rand] is the value of the
    one call of [rand()], [acks] what the inner loop's [recvfrom]s return. *)
Fixpoint establish_connection_loop (listen : list listen_env) (rand : Z)
  (acks : list hs_recv) (timeout : Z) : list hs_sent * hs_outcome :=
  match listen with
  | [] => ([], HsPending timeout)
  | e :: listen' =>
      if negb (ls_setsockopt_ok e) then ([], HsExited 1)
      else
        match ls_recvfrom e with
        | HsData bytes_received syn_sequenceNumber =>
            if 0 <? Z.of_nat bytes_received
            then await_ack (u32 rand) (u32 (syn_sequenceNumber + 1)) acks
                           SYN_ACK_DEFAULT_TIMEOUT_MILLISEC
            else establish_connection_loop listen' rand acks timeout
        | HsTimeout =>
            establish_connection_loop listen' rand acks (backoff timeout)
        | HsError => ([], HsExited 1)
        end
  end.

Definition establish_connection (listen : list listen_env) (rand : Z)
  (acks : list hs_recv) : list hs_sent * hs_outcome :=
  establish_connection_loop listen rand acks SYN_ACK_DEFAULT_TIMEOUT_MILLISEC.

(** *** The loop of [rrecv] *)

(** [int packetSize = MAX_BUFFER_SIZE + HEADER_SIZE;] *)
Definition packetSize : Z := MAX_BUFFER_SIZE + HEADER_SIZE.

(** One iteration's inputs: what the fresh array [packet] happens to hold
    ([stale]), the datagram [recvfrom] delivers ([None]: it returned a
    negative value), and whether the [sendto] of [send_packet_ack]
    succeeded. *)
Record recv_env := mkRecvEnv {
  stale : list byte;
  recvfrom : option (list byte);
  ack_sendto_ok : bool
}.

(** [packet] after [recvfrom(sockfd, packet, packetSize, ...)]: the
    datagram, cut at [packetSize], over the array's old contents. *)
Definition received (stale d : list byte) : list byte :=
  firstn (Z.to_nat packetSize) (d ++ skipn (length d) stale).

(** The value [recvfrom] returns for a delivered datagram. *)
Definition bytesReceived_of (d : list byte) : Z := Z.min (len d) packetSize.

(** What the receiver does that the outside can see. *)
Inductive event :=
| SendAck (sequenceNumber : Z)    (* [send_packet_ack]'s datagram *)
| FWrite (bytes : list byte).     (* [fwrite] to the destination file *)

(** The global [_latestSequenceNumber] and the local [bytesWritten]. *)
Record State := mkState {
  _latestSequenceNumber : Z;
  bytesWritten : Z
}.

Inductive iter_result :=
| Continue (st : State)
| Break
| Exit (code : Z).

(** [packet_data], lines 268-269: [messageLength] bytes from
    [packet + HEADER_SIZE].  This is what the C code copies as long as
    [messageLength <= MAX_BUFFER_SIZE]; for a larger one line 269 reads
    past the end of [packet], which C leaves undefined, and the model,
    which stops at the array's end, says nothing about the program. *)
Definition packet_data_of (packet : list byte) : list byte :=
  firstn (Z.to_nat (messageLength (decode_header packet)))
         (skipn (Z.to_nat HEADER_SIZE) packet).

(** [send_packet_ack], lines 60-67: the datagram is the bare sequence
    number; when its [sendto] fails the process ends with [EXIT_FAILURE]. *)
Definition send_packet_ack (sendto_ok : bool) (sequenceNumber : Z)
  : list event + Z :=
  if sendto_ok then inl [SendAck sequenceNumber] else inr 1.

(** The body of the [while (TRUE)] loop, lines 250-296, without the
    [sleep] of the write-rate throttle. *)
Definition rrecv_iter (e : recv_env) (st : State) : list event * iter_result :=
  match recvfrom e with
  | None => ([], Exit 1)
  | Some d =>
      let bytesReceived := bytesReceived_of d in
      if bytesReceived =? 0 then ([], Continue st)
      else
        let packet := received (stale e) d in
        let header := decode_header packet in
        match send_packet_ack (ack_sendto_ok e) (sequenceNumber header) with
        | inr code => ([], Exit code)
        | inl acked =>
            if sequenceNumber header <=? _latestSequenceNumber st
            then (acked, Continue st)
            else if lastPacket header =? TRUE
            then (acked ++ [FWrite (packet_data_of packet)], Break)
            else (acked ++ [FWrite (packet_data_of packet)],
                  Continue
                    {| _latestSequenceNumber := sequenceNumber header;
                       bytesWritten := u64 (bytesWritten st + bytesReceived) |})
        end
  end.

Inductive outcome :=
| Finished               (* left the loop by [break]; file and socket closed *)
| Exited (code : Z)      (* [exit(code)] *)
| Pending (st : State)   (* still in the data loop *)
| Connecting (timeout : Z).

(** The [while (TRUE)] loop: the events of each iteration it ran, in
    order, and the outcome. *)
Fixpoint rrecv_loop (env : list recv_env) (st : State)
  : list (list event) * outcome :=
  match env with
  | [] => ([], Pending st)
  | e :: env' =>
      match rrecv_iter e st with
      | (evs, Continue st') =>
          let (trace, out) := rrecv_loop env' st' in (evs :: trace, out)
      | (evs, Break) => ([evs], Finished)
      | (evs, Exit code) => ([evs], Exited code)
      end
  end.

(** The state at loop entry: the global's initialiser (line 43) and
    [bytesWritten = 0] (line 246). *)
Definition init : State :=
  {| _latestSequenceNumber := 0; bytesWritten := 0 |}.

(** [rrecv] from the opened file on. *)
Definition rrecv (listen : list listen_env) (rand : Z) (acks : list hs_recv)
  (env : list recv_env) : list hs_sent * list (list event) * outcome :=
  match establish_connection listen rand acks with
  | (hsent, Established) =>
      let (trace, out) := rrecv_loop env init in (hsent, trace, out)
  | (hsent, HsExited code) => (hsent, [], Exited code)
  | (hsent, HsPending t) => (hsent, [], Connecting t)
  end.

(** The bytes an iteration, and a run, wrote to the destination file. *)
Definition written_by (evs : list event) : list byte :=
  flat_map (fun ev => match ev with FWrite bs => bs | SendAck _ => [] end) evs.

Definition written (trace : list (list event)) : list byte :=
  flat_map written_by trace.

(** The number of [fwrite] calls among an iteration's events. *)
Definition fwrites (evs : list event) : nat :=
  length (filter (fun ev => match ev with FWrite _ => true | SendAck _ => false end) evs).

(** The acks among an iteration's events. *)
Definition acks_of (evs : list event) : list Z :=
  flat_map (fun ev => match ev with SendAck n => [n] | FWrite _ => [] end) evs.

(** The header the loop reads in an iteration that gets past its first
    two tests: a datagram arrived, and it was not empty. *)
Definition header_of (e : recv_env) : option Header :=
  match recvfrom e with
  | Some d =>
      if bytesReceived_of d =? 0 then None
      else Some (decode_header (received (stale e) d))
  | None => None
  end.

Definition seq_of (e : recv_env) : option Z :=
  option_map sequenceNumber (header_of e).

(** How many [fwrite]s a run made in the iterations whose datagram carried
    sequence number [N]; [trace] lists the iterations' events in the order
    of [env]. *)
Fixpoint fwrites_of_seq (N : Z) (env : list recv_env)
  (trace : list (list event)) : nat :=
  match env, trace with
  | e :: env', evs :: trace' =>
      Nat.add
        (match seq_of e with
         | Some n => if n =? N then fwrites evs else O
         | None => O
         end)
        (fwrites_of_seq N env' trace')
  | _, _ => O
  end.

(** The sequence numbers of the iterations that called [fwrite], in the
    order of the run. *)
Fixpoint written_seqs (env : list recv_env) (trace : list (list event))
  : list Z :=
  match env, trace with
  | e :: env', evs :: trace' =>
      match seq_of e with
      | Some n => if Nat.ltb 0 (fwrites evs) then [n] else []
      | None => []
      end ++ written_seqs env' trace'
  | _, _ => []
  end.

(** An iteration of the outer loop of [establish_connection] that goes
    round again: [setsockopt] worked, and [recvfrom] timed out or returned
    0. *)
Definition silent (e : listen_env) : bool :=
  ls_setsockopt_ok e
  && match ls_recvfrom e with
     | HsTimeout => true
     | HsError => false
     | HsData bytes_received _ => negb (0 <? Z.of_nat bytes_received)
     end.

(** An iteration of the inner loop that goes round again: [recvfrom] timed
    out, returned 0, or stored a number other than [syn_ack_ackNumber]. *)
Definition unanswered (syn_ack_ackNumber : Z) (r : hs_recv) : bool :=
  match r with
  | HsTimeout => true
  | HsError => false
  | HsData recv_size ack_ackNumber =>
      negb ((0 <? Z.of_nat recv_size) && (ack_ackNumber =? syn_ack_ackNumber))
  end.

(** *** The whole of [rrecv], and [main] *)

(** What the calls of lines 211-238 return: [socket], [bind], and whether
    [fopen] opened the destination file for writing, which empties it. *)
Record setup_env := mkSetupEnv {
  socket_ret : Z;
  bind_ret : Z;
  fopen_ok : bool
}.

(** [rrecv], lines 206-301, from its first line.  [writeRate] only
    decides whether an iteration ends with [sleep(1)]. *)
Definition rrecv_whole (su : setup_env) (writeRate : Z)
  (listen : list listen_env) (rand : Z) (acks : list hs_recv)
  (env : list recv_env) : list hs_sent * list (list event) * outcome :=
  if socket_ret su <? 0 then ([], [], Exited 1)
  else if bind_ret su <? 0 then ([], [], Exited 1)
  else if negb (fopen_ok su) then ([], [], Exited 1)
  else rrecv listen rand acks env.

Definition ended (r : list hs_sent * list (list event) * outcome)
  : list hs_sent * list (list event) * process_end :=
  match r with
  | (hsent, trace, Finished) => (hsent, trace, Returned EXIT_SUCCESS)
  | (hsent, trace, Exited code) => (hsent, trace, CalledExit code)
  | (hsent, trace, Pending _) => (hsent, trace, Running)
  | (hsent, trace, Connecting _) => (hsent, trace, Running)
  end.

(** [main], lines 311-338.  [argv[1]] goes to [atoi] before [argc] is
    looked at: with [argc < 2] that is a null pointer or past the end of
    [argv], and C gives the call no meaning ([None]).  [atoll_argv3] is the
    value of [atoll(argv[3])]. *)
Definition main (argc : Z) (atoll_argv3 : Z) (su : setup_env)
  (listen : list listen_env) (rand : Z) (acks : list hs_recv)
  (env : list recv_env)
  : option (list hs_sent * list (list event) * process_end) :=
  if argc <? 2 then None
  else if argc =? 4
  then Some (ended (rrecv_whole su (u64 atoll_argv3) listen rand acks env))
  else if argc =? 3
  then Some (ended (rrecv_whole su 0 listen rand acks env))
  else Some ([], [], CalledExit 1).

End Receiver.

(* ------------------------------------------------------------------ *)
(** ** Datagrams as bytes *)

Module Datagram.
Import Wire.

(** What [sendto] is given: the object representation of a [struct Syn]
    or [struct Ack] (sender), of a [struct SynAck] (receiver), and of the
    [uint32_t] of [send_packet_ack]. *)
Definition of_hs_sent (m : Sender.hs_sent) : list byte :=
  match m with
  | Sender.SentSyn sequenceNumber => put_u32 sequenceNumber
  | Sender.SentAck ackNumber => put_u32 ackNumber
  end.

Definition of_syn_ack (m : Receiver.hs_sent) : list byte :=
  match m with
  | Receiver.SentSynAck sequenceNumber ackNumber =>
      put_u32 sequenceNumber ++ put_u32 ackNumber
  end.

Definition of_packet_ack (sequenceNumber : Z) : list byte :=
  put_u32 sequenceNumber.

(** What each [recvfrom] makes of a delivered datagram [d]; [stale] is
    what the struct or array held before.

    [sender.c] line 121, into a [struct SynAck]: *)
Definition at_initiator (stale d : list byte) : Sender.hs_recv :=
  let syn_ack := recv_into (Z.to_nat SYNACK_SIZE) stale d in
  Sender.HsData (recv_size (Z.to_nat SYNACK_SIZE) d)
                (get_u32 0 syn_ack) (get_u32 4 syn_ack).

(** [sender.c] lines 180 and 206, into [char ack[MAX_ACK_SIZE]]: *)
Definition at_checkAck (stale d : list byte) : Sender.recv_result :=
  Sender.RecvAck (get_u32 0 (recv_into (Z.to_nat MAX_ACK_SIZE) stale d)).

(** [receiver.c] lines 109 and 130, into a [struct Syn] or a
    [struct Ack]: *)
Definition at_responder (stale d : list byte) : Receiver.hs_recv :=
  Receiver.HsData (recv_size (Z.to_nat SYN_SIZE) d)
                  (get_u32 0 (recv_into (Z.to_nat SYN_SIZE) stale d)).

End Datagram.

(* ------------------------------------------------------------------ *)
(** ** Both data loops over a lossy, duplicating network *)

Module Transfer.
Import Wire.

(** What the network does during one iteration of the sender: how many
    copies of its datagram reach the receiver (0: lost, 2 and more:
    duplicated), and how many of the acks then on their way to the sender
    are lost before its [recvfrom]. *)
Record round := mkRound {
  copies : nat;
  acks_lost : nat
}.

Record result := mkResult {
  sent : list (list byte);                  (* the sender's data datagrams *)
  trace : list (list Receiver.event);       (* the receiver's iterations *)
  sender_outcome : Sender.outcome;
  receiver_outcome : Receiver.outcome
}.

(** [n] copies of datagram [d] arrive at a receiver that is still in its
    loop; one that has left it receives nothing more.  The receiver's
    [recvfrom] is taken to wait for every arrival.  (The socket keeps the
    receive timeout of the handshake, 100 ms: a [recvfrom] that waits
    longer fails, and the process ends with [exit(1)].  The runs in which
    that happens are not among those described here.) *)
Definition arrive (n : nat) (d : list byte) (rs : Receiver.outcome)
  : list (list Receiver.event) * Receiver.outcome :=
  match rs with
  | Receiver.Pending st =>
      Receiver.rrecv_loop
        (repeat (Receiver.mkRecvEnv [] (Some d) true) n) st
  | _ => ([], rs)
  end.

(** The sender's [recvfrom] in [checkAck]: the oldest ack that got
    through, or a timeout. *)
Definition next_ack (acks : list Z) : Sender.recv_result :=
  match acks with
  | [] => Sender.RecvTimeout
  | a :: _ => Sender.RecvAck a
  end.

(** The loop of [rsend] against the loop of [rrecv], one sender iteration
    per round: the datagram goes out, its copies arrive and are answered,
    the answers queue up behind the acks already [in_flight], some of the
    oldest are lost, and the sender's [checkAck] reads the next one.  The
    network neither reorders nor alters datagrams. *)
Fixpoint run (bytesToTransfer : Z) (net : list round) (ss : Sender.State)
  (rs : Receiver.outcome) (in_flight : list Z) {struct net} : result :=
  if Sender.totalBytesSent ss <? bytesToTransfer then
    match net with
    | [] => mkResult [] [] (Sender.Pending ss) rs
    | r :: net' =>
        let d := Sender.datagram_of (Sender.prepare bytesToTransfer ss) in
        let '(evs, rs') := arrive (copies r) d rs in
        let acks :=
          skipn (acks_lost r) (in_flight ++ flat_map Receiver.acks_of evs) in
        let e := Sender.mkIterEnv true (len d) (next_ack acks) in
        match Sender.rsend_iter bytesToTransfer e ss with
        | (out, Sender.Next ss') =>
            let res := run bytesToTransfer net' ss' rs' (tl acks) in
            mkResult (out ++ sent res) (evs ++ trace res)
                     (sender_outcome res) (receiver_outcome res)
        | (out, Sender.Exit code) => mkResult out evs (Sender.Exited code) rs'
        end
    end
  else mkResult [] [] (Sender.Finished ss) rs.

(** A transfer after a completed handshake that left the sender with
    initial sequence number [isn] and nothing waiting at its socket: the
    responder sent its SynAck once, and the initiator has read it.  (A
    SynAck sent a second time would wait there, and [checkAck] would read
    its first field as an ack: [run] with that number in flight.) *)
Definition transfer (source : list byte) (bytesToTransfer isn : Z)
  (packet0 : list byte) (net : list round) : result :=
  run (Sender.cap source bytesToTransfer) net
      (Sender.init isn packet0 source) (Receiver.Pending Receiver.init) [].

(** A network that delivers everything once. *)
Definition ideal (n : nat) : list round := repeat (mkRound 1 0) n.

(** A round in which the packet is lost, and one in which the packet
    arrives and its ack is lost. *)
Definition packet_lost : round := mkRound 0 0.
Definition ack_lost : round := mkRound 1 1.

End Transfer.

(* ------------------------------------------------------------------ *)
(** ** What ties a run of the two loops to the source file *)

Module Integrity.
Import Wire.

Section Invariants.

Variables (source : list byte) (isn c : Z).

(** The [j]-th chunk of the source. *)
Definition chunk (j : nat) : list byte :=
  firstn (Z.to_nat MAX_BUFFER_SIZE)
         (skipn (Z.to_nat MAX_BUFFER_SIZE * j) source).

(** [d] is the datagram of chunk [j]: full size, numbered [isn + j],
    carrying the chunk, flagged last exactly when line 316 says so. *)
Definition is_packet (j : nat) (d : list byte) : Prop :=
  len d = HEADER_SIZE + MAX_BUFFER_SIZE
  /\ sequenceNumber (decode_header d) = isn + Z.of_nat j
  /\ Receiver.packet_data_of d = chunk j
  /\ (lastPacket (decode_header d) =? TRUE)
     = (c <? MAX_BUFFER_SIZE * (Z.of_nat j + 1)).

(** The sender has had [j] chunks acknowledged; [rounds] iterations are
    left to run. *)
Definition sender_inv (j : nat) (st : Sender.State) (rounds : nat) : Prop :=
  Sender._sequenceNumber st = isn + Z.of_nat j
  /\ Sender.totalBytesSent st = MAX_BUFFER_SIZE * Z.of_nat j
  /\ len (Sender.packet st) = HEADER_SIZE + MAX_BUFFER_SIZE
  /\ 0 <= Sender.retries st
  /\ Sender.retries st + Z.of_nat rounds < 2 ^ 31
  /\ (j = O \/ MAX_BUFFER_SIZE * (Z.of_nat j - 1) < c)
  /\ (Sender.retries st = 0
      /\ Sender.file st = skipn (Z.to_nat MAX_BUFFER_SIZE * j) source
      \/ Sender.retries st <> 0
         /\ is_packet j (Sender.packet st)
         /\ Sender.file st = skipn (Z.to_nat MAX_BUFFER_SIZE * (j + 1)) source).

(** The receiver has written [m] chunks, [m] being [j] or [j + 1]. *)
Definition receiver_inv (j m : nat) (rs : Receiver.outcome) : Prop :=
  (j <= m <= j + 1)%nat
  /\ (m = (j + 1)%nat -> MAX_BUFFER_SIZE * Z.of_nat j < c)
  /\ ((exists st,
          rs = Receiver.Pending st
          /\ Receiver._latestSequenceNumber st
             = (if Nat.eqb m 0 then 0 else isn + Z.of_nat m - 1)
          /\ MAX_BUFFER_SIZE * Z.of_nat m <= c)
      \/ rs = Receiver.Finished
         /\ (1 <= m)%nat /\ c < MAX_BUFFER_SIZE * Z.of_nat m).

(** The acks on their way to the sender: none is ahead of the outstanding
    packet, and one for it means the receiver has written it. *)
Definition acks_inv (j m : nat) (in_flight : list Z) : Prop :=
  Forall (fun a => a <= isn + Z.of_nat j) in_flight
  /\ (In (isn + Z.of_nat j) in_flight -> m = (j + 1)%nat).

End Invariants.

End Integrity.

(* ------------------------------------------------------------------ *)
(** ** Concrete runs *)

Module Scenario.
Import Wire.

(** A send buffer, or a receive array, that holds zeros. *)
Definition zero_buffer : list byte :=
  repeat x00 (Z.to_nat (HEADER_SIZE + MAX_BUFFER_SIZE)).

Definition abc : list byte := [x61; x62; x63].

(** A fresh sender about to send the three-byte file, from sequence
    number 1. *)
Definition three_byte_sender : Sender.State :=
  Sender.init 1 zero_buffer abc.

(** The first datagram of a sender that starts at sequence number [isn]. *)
Definition first_datagram (isn : Z) (source : list byte) (target : Z) : list byte :=
  Sender.datagram_of
    (Sender.prepare target (Sender.init isn zero_buffer source)).

(** A datagram arrives at the receiver, whose ack can be sent. *)
Definition arrival (d : list byte) : Receiver.recv_env :=
  Receiver.mkRecvEnv zero_buffer (Some d) true.

(** The first (and not the last) packet of a 9000-byte file, numbered 5;
    and two more arrivals of that packet. *)
Definition packet_five : Receiver.recv_env :=
  arrival (first_datagram 5 (repeat x61 (Z.to_nat 9000)) 9000).

Definition twice_more : list Receiver.recv_env := [packet_five; packet_five].

(** The only packet of the three-byte file, sent with sequence number 0,
    and the same sent with sequence number 3. *)
Definition packet_zero : Receiver.recv_env :=
  arrival (first_datagram 0 abc 3).

Definition packet_three : Receiver.recv_env :=
  arrival (first_datagram 3 abc 3).

(** Packet 5 is accepted; then packet 3 arrives, twice. *)
Definition five_then_three_twice : list Receiver.recv_env :=
  [packet_five; packet_three; packet_three].

(** A handshake in which the Syn carried 41, the responder drew 41 too,
    and the Ack 42 arrived. *)
Definition heard_syn_41 : list Receiver.listen_env :=
  [Receiver.mkListenEnv true (Receiver.HsData 4 41)].

(** The array [packet] still holds an earlier datagram (sequence number 5,
    two payload bytes) when a one-byte datagram arrives. *)
Definition old_packet : list byte :=
  encode_header (mkHeader 5 2 0) ++ [x68; x69]
  ++ repeat x00 (Z.to_nat (MAX_BUFFER_SIZE - 2)).

Definition one_byte : Receiver.recv_env :=
  Receiver.mkRecvEnv old_packet (Some [x07]) true.

(** Ten bytes of source, of which five are to be transferred. *)
Definition ten_bytes : list byte :=
  [x30; x31; x32; x33; x34; x35; x36; x37; x38; x39].

Definition five : Z := 5.

(** A source of exactly one full chunk, all of it to be transferred; its
    one datagram goes out and its ack, 1, comes back. *)
Definition one_chunk : list byte := repeat x61 (Z.to_nat MAX_BUFFER_SIZE).

Definition one_chunk_acked : list Sender.iter_env := [Sender.acked_with 1].

(** A network that loses the first ack, duplicates the retransmitted
    packet, loses the next packet and then delivers one. *)
Definition lossy : list Transfer.round :=
  [Transfer.mkRound 1 1; Transfer.mkRound 2 0; Transfer.mkRound 0 0;
   Transfer.mkRound 1 0].

(** The example of the specification: a source of 10000 bytes (here the
    bytes 0, 1, ..., 255, 0, 1, ...), all of it to be transferred. *)
Definition ten_thousand : list byte :=
  map (fun i => byte_of_Z (Z.of_nat i)) (seq 0 (Z.to_nat 10000)).

(** A fresh sender about to send that source, from sequence number 1;
    and three iterations of it: a timeout, then the acks 1 and 2. *)
Definition ten_thousand_sender : Sender.State :=
  Sender.init 1 zero_buffer ten_thousand.

Definition timeout_then_acks : list Sender.iter_env :=
  [Sender.timed_out; Sender.acked_with 1; Sender.acked_with 2].

(** A network that delivers a packet and loses its ack, and then lets
    nothing through. *)
Definition last_ack_lost : list Transfer.round :=
  [Transfer.ack_lost; Transfer.packet_lost; Transfer.packet_lost;
   Transfer.packet_lost].

(** Four transient failures of packet 1: a timeout, the ack 9, a timeout,
    the ack 9. *)
Definition four_failures : list Sender.iter_env :=
  [Sender.timed_out; Sender.acked_with 9; Sender.timed_out;
   Sender.acked_with 9].

(** The failures two packets meet before their acks: the first a timeout,
    the second a timeout, a stale ack and another timeout. *)
Definition failures_before_acks : list (list Sender.iter_env) :=
  [[Sender.timed_out];
   [Sender.timed_out; Sender.acked_with 1; Sender.timed_out]].

(** Two attempts of the initiator that bring no SynAck (a timeout, a
    datagram of four bytes), and one that brings eight bytes. *)
Definition vain_attempts : list Sender.hs_env :=
  [Sender.mkHsEnv true 7 Sender.HsTimeout;
   Sender.mkHsEnv true 8 (Sender.HsData 4 0 0)].

Definition answered : Sender.hs_env :=
  Sender.mkHsEnv true 9 (Sender.HsData 8 5 0).

(** A responder that hears nothing at first and then the Syn 41; while it
    waits for the Ack, a timeout and the Syn again. *)
Definition quiet_start : list Receiver.listen_env :=
  [Receiver.mkListenEnv true Receiver.HsTimeout].

Definition syn_41 : Receiver.listen_env :=
  Receiver.mkListenEnv true (Receiver.HsData 4 41).

Definition before_the_ack : list Receiver.hs_recv :=
  [Receiver.HsTimeout; Receiver.HsData 4 41].

End Scenario.

(* ------------------------------------------------------------------ *)
(** ** Properties *)

Import Wire.

(** *** Bytes and header layout *)

Lemma Z_of_byte_range (b : byte) : 0 <= Z_of_byte b < 256.
Proof.
  unfold Z_of_byte. pose proof (Byte.to_N_bounded b) as Hb. lia.
Qed.

Lemma Z_of_byte_of_Z (z : Z) : Z_of_byte (byte_of_Z z) = z mod 256.
Proof.
  assert (Hr : 0 <= z mod 256 < 256) by (apply Z.mod_pos_bound; lia).
  unfold byte_of_Z, Z_of_byte.
  destruct (Byte.of_N (Z.to_N (z mod 256))) as [b|] eqn:E.
  - apply Byte.to_of_N in E. rewrite E. apply Z2N.id. lia.
  - apply Byte.of_N_None_iff in E. lia.
Qed.

Lemma u32_split (v : Z) :
  v mod 256 + 2 ^ 8 * ((v / 2 ^ 8) mod 256) + 2 ^ 16 * ((v / 2 ^ 16) mod 256)
  + 2 ^ 24 * ((v / 2 ^ 24) mod 256) = u32 v.
Proof.
  unfold u32.
  change (2 ^ 32) with (256 * (256 * (256 * 256))).
  rewrite (Z.rem_mul_r v 256) by lia.
  rewrite (Z.rem_mul_r (v / 256) 256) by lia.
  rewrite (Z.rem_mul_r (v / 256 / 256) 256) by lia.
  rewrite !Z.div_div by lia.
  change (2 ^ 8) with 256. change (2 ^ 16) with (256 * 256).
  change (2 ^ 24) with (256 * 256 * 256). lia.
Qed.

Lemma get_u32_range (off : nat) (buf : list byte) : 0 <= get_u32 off buf < 2 ^ 32.
Proof.
  unfold get_u32.
  pose proof (Z_of_byte_range (nth off buf x00)).
  pose proof (Z_of_byte_range (nth (off + 1) buf x00)).
  pose proof (Z_of_byte_range (nth (off + 2) buf x00)).
  pose proof (Z_of_byte_range (nth (off + 3) buf x00)).
  lia.
Qed.

Lemma encode_header_length (h : Header) :
  length (encode_header h) = Z.to_nat HEADER_SIZE.
Proof. reflexivity. Qed.

(** Decoding reads back what was encoded, each field at its C type. *)
Lemma decode_encode_header (h : Header) (rest : list byte) :
  decode_header (encode_header h ++ rest)
  = {| sequenceNumber := u32 (sequenceNumber h);
       messageLength := u32 (messageLength h);
       lastPacket := lastPacket h mod 256 |}.
Proof.
  unfold decode_header, get_u32, encode_header, put_u32. cbn [app nth Nat.add].
  rewrite !Z_of_byte_of_Z, !u32_split. reflexivity.
Qed.

(** X3: a header whose fields fit their C types survives the trip through the
    wire format, whatever follows it in the datagram. *)
Theorem header_roundtrip (h : Header) (rest : list byte) :
  0 <= sequenceNumber h < 2 ^ 32 ->
  0 <= messageLength h < 2 ^ 32 ->
  0 <= lastPacket h < 256 ->
  decode_header (encode_header h ++ rest) = h.
Proof.
  intros Hs Hm Hl. rewrite decode_encode_header. unfold u32.
  rewrite !Z.mod_small by assumption. now destruct h.
Qed.

(** [header_roundtrip] for a header numbered 0x12345678, followed by three
    payload bytes. *)
Lemma header_roundtrip_witness :
  decode_header (encode_header (mkHeader 305419896 8192 1) ++ Scenario.abc)
  = mkHeader 305419896 8192 1.
Proof.
  apply (header_roundtrip (mkHeader 305419896 8192 1) Scenario.abc);
    cbn [sequenceNumber messageLength lastPacket]; lia.
Defined.

(** [memcpy] keeps the buffer's size, writes [src] at [off] and leaves
    every other byte alone. *)
Lemma memcpy_length (dst : list byte) (off : nat) (src : list byte) :
  length (memcpy dst off src) = length dst.
Proof.
  unfold memcpy. rewrite length_firstn, !length_app, length_firstn, length_skipn.
  lia.
Qed.

Lemma memcpy_fits (dst : list byte) (off : nat) (src : list byte) :
  (off + length src <= length dst)%nat ->
  memcpy dst off src = firstn off dst ++ src ++ skipn (off + length src) dst.
Proof.
  intros Hfit. unfold memcpy. apply firstn_all2.
  rewrite !length_app, length_firstn, length_skipn. lia.
Qed.

Lemma memcpy_nth_after (dst : list byte) (off : nat) (src : list byte) (i : nat) :
  (off + length src <= length dst)%nat ->
  (off + length src <= i)%nat ->
  nth i (memcpy dst off src) x00 = nth i dst x00.
Proof.
  intros Hfit Hi. rewrite memcpy_fits by exact Hfit.
  rewrite app_nth2 by (rewrite length_firstn; lia).
  rewrite app_nth2 by (rewrite length_firstn; lia).
  rewrite length_firstn, nth_skipn. f_equal. lia.
Qed.

(** *** The sender's buffer *)

Lemma chunk_length (source : list byte) :
  0 <= len (firstn (Z.to_nat MAX_BUFFER_SIZE) source) <= MAX_BUFFER_SIZE.
Proof.
  unfold len, MAX_BUFFER_SIZE. rewrite length_firstn. lia.
Qed.

Lemma read_chunk_packet_length (bytesToTransfer : Z) (st : Sender.State) :
  length (Sender.packet (Sender.read_chunk bytesToTransfer st))
  = length (Sender.packet st).
Proof.
  unfold Sender.read_chunk. cbn [Sender.packet]. now rewrite !memcpy_length.
Qed.

Lemma prepare_packet_length (bytesToTransfer : Z) (st : Sender.State) :
  length (Sender.packet (Sender.prepare bytesToTransfer st))
  = length (Sender.packet st).
Proof.
  unfold Sender.prepare. destruct (Sender.retries st =? 0).
  - apply read_chunk_packet_length.
  - reflexivity.
Qed.

Lemma checkAck_packet (r : Sender.recv_result) (n : Z) (st st' : Sender.State) :
  Sender.checkAck r n st = Sender.Next st' ->
  Sender.packet st' = Sender.packet st /\ Sender.file st' = Sender.file st.
Proof.
  unfold Sender.checkAck. intros H.
  destruct r as [| |v].
  - destruct (Sender.retries st <? MAX_RETRIES); inversion H; subst; auto.
  - discriminate.
  - destruct (negb (v =? u32 (Sender._sequenceNumber st)));
      inversion H; subst; auto.
Qed.

Lemma rsend_iter_cases_sent (bytesToTransfer : Z) (e : Sender.iter_env)
  (st : Sender.State) :
  Sender.rsend_iter bytesToTransfer e st = ([], Sender.Exit 1)
  \/ 0 <= Sender.sendto_ret e
     /\ Sender.rsend_iter bytesToTransfer e st
        = ([Sender.datagram_of (Sender.prepare bytesToTransfer st)],
           Sender.checkAck (Sender.ack_recvfrom e) (Sender.sendto_ret e)
                           (Sender.prepare bytesToTransfer st)).
Proof.
  unfold Sender.rsend_iter.
  destruct (negb (Sender.setsockopt_ok e)); [now left|].
  destruct (Z.ltb_spec (Sender.sendto_ret e) 0); [now left | now right].
Qed.

Lemma rsend_iter_cases (bytesToTransfer : Z) (e : Sender.iter_env)
  (st : Sender.State) :
  Sender.rsend_iter bytesToTransfer e st = ([], Sender.Exit 1)
  \/ Sender.rsend_iter bytesToTransfer e st
     = ([Sender.datagram_of (Sender.prepare bytesToTransfer st)],
        Sender.checkAck (Sender.ack_recvfrom e) (Sender.sendto_ret e)
                        (Sender.prepare bytesToTransfer st)).
Proof.
  destruct (rsend_iter_cases_sent bytesToTransfer e st) as [E|[_ E]];
    [now left | now right].
Qed.

Lemma rsend_iter_packet_length (bytesToTransfer : Z) (e : Sender.iter_env)
  (st st' : Sender.State) (sent : list (list byte)) :
  Sender.rsend_iter bytesToTransfer e st = (sent, Sender.Next st') ->
  length (Sender.packet st') = length (Sender.packet st).
Proof.
  intros H. destruct (rsend_iter_cases bytesToTransfer e st) as [E|E];
    rewrite E in H; [discriminate|].
  inversion H as [[Hs Hc]]. apply checkAck_packet in Hc as [Hp _].
  rewrite Hp. apply prepare_packet_length.
Qed.

Lemma datagram_of_full (st : Sender.State) :
  len (Sender.packet st) = HEADER_SIZE + MAX_BUFFER_SIZE ->
  Sender.datagram_of st = Sender.packet st.
Proof.
  intros Hl. unfold Sender.datagram_of. apply firstn_all2.
  unfold len in Hl. lia.
Qed.

(** The buffer [read_chunk] builds: header, chunk, then the old bytes. *)
Lemma read_chunk_packet (bytesToTransfer : Z) (st : Sender.State) :
  len (Sender.packet st) = HEADER_SIZE + MAX_BUFFER_SIZE ->
  exists h,
    messageLength h = len (firstn (Z.to_nat MAX_BUFFER_SIZE) (Sender.file st))
    /\ sequenceNumber h = u32 (Sender._sequenceNumber st)
    /\ lastPacket h
       = (if u64 (Sender.totalBytesSent st + MAX_BUFFER_SIZE) >? bytesToTransfer
          then TRUE else FALSE)
    /\ Sender.packet (Sender.read_chunk bytesToTransfer st)
       = encode_header h
         ++ skipn (Z.to_nat HEADER_SIZE)
              (memcpy (Sender.packet st) (Z.to_nat HEADER_SIZE)
                 (firstn (Z.to_nat MAX_BUFFER_SIZE) (Sender.file st))).
Proof.
  intros Hl.
  pose proof (chunk_length (Sender.file st)) as Hc.
  eexists (mkHeader _ _ _). cbn [messageLength sequenceNumber lastPacket].
  split; [|split; [reflexivity|split; [reflexivity|]]].
  2:{ unfold Sender.read_chunk. cbn [Sender.packet].
      rewrite memcpy_fits.
      - reflexivity.
      - rewrite memcpy_length, encode_header_length.
        unfold len, HEADER_SIZE, MAX_BUFFER_SIZE in *. lia. }
  unfold u32. rewrite Z.mod_small; [reflexivity|].
  split; [apply Hc|].
  apply Z.le_lt_trans with MAX_BUFFER_SIZE; [apply Hc | reflexivity].
Qed.

Lemma datagram_length (bytesToTransfer : Z) (st : Sender.State) :
  len (Sender.packet st) = HEADER_SIZE + MAX_BUFFER_SIZE ->
  len (Sender.datagram_of (Sender.prepare bytesToTransfer st))
  = HEADER_SIZE + MAX_BUFFER_SIZE.
Proof.
  intros Hl.
  assert (Hp : len (Sender.packet (Sender.prepare bytesToTransfer st))
               = HEADER_SIZE + MAX_BUFFER_SIZE)
    by (unfold len; rewrite prepare_packet_length; exact Hl).
  now rewrite datagram_of_full.
Qed.

Lemma rsend_loop_sizes (bytesToTransfer : Z) (env : list Sender.iter_env) :
  forall st,
    len (Sender.packet st) = HEADER_SIZE + MAX_BUFFER_SIZE ->
    Forall (fun d => len d = HEADER_SIZE + MAX_BUFFER_SIZE)
           (fst (Sender.rsend_loop bytesToTransfer env st)).
Proof.
  induction env as [|e env IH]; intros st Hl; cbn [Sender.rsend_loop];
    destruct (Sender.totalBytesSent st <? bytesToTransfer); try constructor.
  destruct (rsend_iter_cases bytesToTransfer e st) as [E|E].
  - rewrite E. constructor.
  - pose proof (rsend_iter_packet_length bytesToTransfer e st) as Hinv.
    rewrite E in *.
    destruct (Sender.checkAck _ _ _) as [st'|code].
    + specialize (IH st'). specialize (Hinv st' _ eq_refl).
      destruct (Sender.rsend_loop bytesToTransfer env st') as [sent' out].
      cbn [fst app] in *. constructor.
      * now apply datagram_length.
      * apply IH. unfold len in *. now rewrite Hinv.
    + cbn [fst]. constructor; [now apply datagram_length | constructor].
Qed.

(** C9: every datagram the sender's loop hands to [sendto] is
    [HEADER_SIZE + MAX_BUFFER_SIZE] bytes long whatever [messageLength] its
    header carries, the buffer keeps that size from one iteration to the
    next, and every byte of the datagram past the header and the
    [messageLength] payload bytes is the byte the send buffer already held
    at that place before the iteration. *)
Theorem rsend_datagram_fixed_size (bytesToTransfer : Z) (st : Sender.State) :
  len (Sender.packet st) = HEADER_SIZE + MAX_BUFFER_SIZE ->
  (forall env,
      Forall (fun d => len d = HEADER_SIZE + MAX_BUFFER_SIZE)
             (fst (Sender.rsend_loop bytesToTransfer env st)))
  /\ (forall e d r,
        Sender.rsend_iter bytesToTransfer e st = ([d], r) ->
        len d = HEADER_SIZE + MAX_BUFFER_SIZE
        /\ (forall st', r = Sender.Next st' ->
              len (Sender.packet st') = HEADER_SIZE + MAX_BUFFER_SIZE)
        /\ (forall i,
              HEADER_SIZE + messageLength (decode_header d) <= Z.of_nat i ->
              nth i d x00 = nth i (Sender.packet st) x00)).
Proof.
  intros Hl. split.
  - intros env. now apply rsend_loop_sizes.
  - intros e d r H.
    pose proof (rsend_iter_packet_length bytesToTransfer e st) as Hinv.
    destruct (rsend_iter_cases bytesToTransfer e st) as [E|E];
      rewrite E in *; [discriminate|].
    injection H as Hd Hr.
    split; [rewrite <- Hd; now apply datagram_length|]. split.
    + intros st' Hst'. rewrite Hst' in Hr. rewrite Hr in Hinv.
      unfold len in *. now rewrite (Hinv st' _ eq_refl).
    + intros i. rewrite <- Hd.
      rewrite datagram_of_full
        by (unfold len; rewrite prepare_packet_length; exact Hl).
      unfold Sender.prepare. destruct (Sender.retries st =? 0); [|reflexivity].
      destruct (read_chunk_packet bytesToTransfer st Hl)
        as (h & Hlen & _ & _ & Hpk).
      rewrite Hpk, decode_encode_header. cbn [messageLength].
      pose proof (chunk_length (Sender.file st)) as Hc.
      rewrite Hlen. unfold u32. rewrite Z.mod_small
        by (split; [apply Hc|];
            apply Z.le_lt_trans with MAX_BUFFER_SIZE; [apply Hc|reflexivity]).
      intros Hi.
      rewrite app_nth2 by (rewrite encode_header_length; unfold HEADER_SIZE in *; lia).
      rewrite nth_skipn, encode_header_length.
      replace (Z.to_nat HEADER_SIZE + (i - Z.to_nat HEADER_SIZE))%nat with i
        by (unfold HEADER_SIZE in *; lia).
      apply memcpy_nth_after; unfold len, HEADER_SIZE, MAX_BUFFER_SIZE in *; lia.
Qed.

(** [rsend_datagram_fixed_size] for a fresh sender of the three-byte file,
    whose buffer holds 8204 zeros. *)
Lemma rsend_datagram_fixed_size_witness :
  (forall env,
      Forall (fun d => len d = HEADER_SIZE + MAX_BUFFER_SIZE)
             (fst (Sender.rsend_loop 3 env Scenario.three_byte_sender)))
  /\ (forall e d r,
        Sender.rsend_iter 3 e Scenario.three_byte_sender = ([d], r) ->
        len d = HEADER_SIZE + MAX_BUFFER_SIZE
        /\ (forall st', r = Sender.Next st' ->
              len (Sender.packet st') = HEADER_SIZE + MAX_BUFFER_SIZE)
        /\ (forall i,
              HEADER_SIZE + messageLength (decode_header d) <= Z.of_nat i ->
              nth i d x00 = nth i (Sender.packet Scenario.three_byte_sender) x00)).
Proof.
  apply (rsend_datagram_fixed_size 3 Scenario.three_byte_sender).
  vm_compute. reflexivity.
Defined.

(** *** The receiver's loop *)

(** An iteration on a non-empty datagram whose ack goes out. *)
Lemma rrecv_iter_header (e : Receiver.recv_env) (st : Receiver.State) (h : Header) :
  Receiver.header_of e = Some h ->
  Receiver.ack_sendto_ok e = true ->
  exists d,
    Receiver.recvfrom e = Some d
    /\ h = decode_header (Receiver.received (Receiver.stale e) d)
    /\ Receiver.rrecv_iter e st
       = if sequenceNumber h <=? Receiver._latestSequenceNumber st
         then ([Receiver.SendAck (sequenceNumber h)], Receiver.Continue st)
         else if lastPacket h =? TRUE
         then ([Receiver.SendAck (sequenceNumber h);
                Receiver.FWrite
                  (Receiver.packet_data_of
                     (Receiver.received (Receiver.stale e) d))],
               Receiver.Break)
         else ([Receiver.SendAck (sequenceNumber h);
                Receiver.FWrite
                  (Receiver.packet_data_of
                     (Receiver.received (Receiver.stale e) d))],
               Receiver.Continue
                 {| Receiver._latestSequenceNumber := sequenceNumber h;
                    Receiver.bytesWritten :=
                      u64 (Receiver.bytesWritten st
                           + Receiver.bytesReceived_of d) |}).
Proof.
  unfold Receiver.header_of, Receiver.rrecv_iter. intros Hh Hok.
  destruct (Receiver.recvfrom e) as [d|]; [|discriminate].
  destruct (Receiver.bytesReceived_of d =? 0); [discriminate|].
  injection Hh as <-. rewrite Hok. cbn [Receiver.send_packet_ack app].
  exists d. repeat split.
Qed.

(** Without a header (no datagram, or an empty one) nothing is written. *)
Lemma rrecv_iter_no_header (e : Receiver.recv_env) (st : Receiver.State) :
  Receiver.header_of e = None ->
  Receiver.rrecv_iter e st = ([], Receiver.Exit 1)
  \/ Receiver.rrecv_iter e st = ([], Receiver.Continue st).
Proof.
  unfold Receiver.header_of, Receiver.rrecv_iter. intros Hh.
  destruct (Receiver.recvfrom e) as [d|]; [|now left].
  destruct (Receiver.bytesReceived_of d =? 0); [now right|discriminate].
Qed.

(** When the ack's [sendto] fails the iteration ends in [exit]. *)
Lemma rrecv_iter_ack_failed (e : Receiver.recv_env) (st : Receiver.State) :
  Receiver.ack_sendto_ok e = false ->
  Receiver.rrecv_iter e st = ([], Receiver.Exit 1)
  \/ Receiver.rrecv_iter e st = ([], Receiver.Continue st).
Proof.
  unfold Receiver.rrecv_iter. intros Hok.
  destruct (Receiver.recvfrom e) as [d|]; [|now left].
  destruct (Receiver.bytesReceived_of d =? 0); [now right|].
  rewrite Hok. now left.
Qed.

(** The highest accepted sequence number never goes down. *)
Lemma rrecv_iter_latest_mono (e : Receiver.recv_env) (st st' : Receiver.State)
  (evs : list Receiver.event) :
  Receiver.rrecv_iter e st = (evs, Receiver.Continue st') ->
  Receiver._latestSequenceNumber st <= Receiver._latestSequenceNumber st'.
Proof.
  intros H.
  destruct (Receiver.header_of e) as [h|] eqn:Hh.
  - destruct (Receiver.ack_sendto_ok e) eqn:Hok.
    + destruct (rrecv_iter_header e st h Hh Hok) as (d & _ & _ & E).
      rewrite E in H.
      destruct (sequenceNumber h <=? Receiver._latestSequenceNumber st) eqn:Hle.
      * injection H as _ <-. lia.
      * destruct (lastPacket h =? TRUE); [discriminate|].
        injection H as _ <-. cbn. lia.
    + destruct (rrecv_iter_ack_failed e st Hok) as [E|E]; rewrite E in H;
        [discriminate | injection H as _ <-; lia].
  - destruct (rrecv_iter_no_header e st Hh) as [E|E]; rewrite E in H;
      [discriminate | injection H as _ <-; lia].
Qed.

(** An iteration on a datagram numbered at or below the highest accepted
    number writes nothing. *)
Lemma rrecv_iter_stale_no_write (e : Receiver.recv_env) (st : Receiver.State) (N : Z) :
  Receiver.seq_of e = Some N ->
  N <= Receiver._latestSequenceNumber st ->
  Receiver.fwrites (fst (Receiver.rrecv_iter e st)) = O.
Proof.
  unfold Receiver.seq_of. intros Hs Hle.
  destruct (Receiver.header_of e) as [h|] eqn:Hh; [|discriminate].
  injection Hs as Hs.
  destruct (Receiver.ack_sendto_ok e) eqn:Hok.
  - destruct (rrecv_iter_header e st h Hh Hok) as (d & _ & _ & E).
    rewrite E, Hs. destruct (Z.leb_spec N (Receiver._latestSequenceNumber st));
      [reflexivity | lia].
  - destruct (rrecv_iter_ack_failed e st Hok) as [E|E]; now rewrite E.
Qed.

Lemma rrecv_loop_no_rewrite (N : Z) (env : list Receiver.recv_env) :
  forall st,
    N <= Receiver._latestSequenceNumber st ->
    Receiver.fwrites_of_seq N env (fst (Receiver.rrecv_loop env st)) = O.
Proof.
  induction env as [|e env IH]; intros st Hle; [reflexivity|].
  cbn [Receiver.rrecv_loop].
  assert (Hhere :
            match Receiver.seq_of e with
            | Some n =>
                if n =? N then Receiver.fwrites (fst (Receiver.rrecv_iter e st))
                else O
            | None => O
            end = O).
  { destruct (Receiver.seq_of e) as [n|] eqn:Hs; [|reflexivity].
    destruct (Z.eqb_spec n N) as [->|]; [|reflexivity].
    now apply (rrecv_iter_stale_no_write e st N). }
  pose proof (rrecv_iter_latest_mono e st) as Hmono.
  destruct (Receiver.rrecv_iter e st) as [evs [st'| |code]].
  - specialize (IH st'). specialize (Hmono st' evs eq_refl).
    destruct (Receiver.rrecv_loop env st') as [trace out].
    cbn [fst Receiver.fwrites_of_seq] in *. rewrite Hhere, IH; [reflexivity|lia].
  - cbn [fst Receiver.fwrites_of_seq] in *. rewrite Hhere.
    now destruct env.
  - cbn [fst Receiver.fwrites_of_seq] in *. rewrite Hhere.
    now destruct env.
Qed.

(** Every iteration the loop runs on a non-empty datagram, with a working
    [sendto], starts by acknowledging the datagram's sequence number. *)
Lemma rrecv_loop_acks_first (env : list Receiver.recv_env) :
  forall st k e evs n,
    nth_error env k = Some e ->
    nth_error (fst (Receiver.rrecv_loop env st)) k = Some evs ->
    Receiver.seq_of e = Some n ->
    Receiver.ack_sendto_ok e = true ->
    hd_error evs = Some (Receiver.SendAck n).
Proof.
  induction env as [|e0 env IH]; intros st k e evs n He Hevs Hs Hok.
  - destruct k; discriminate.
  - cbn [Receiver.rrecv_loop] in Hevs. destruct k as [|k].
    + injection He as ->.
      assert (Hd : hd_error (fst (Receiver.rrecv_iter e st))
                   = Some (Receiver.SendAck n)).
      { unfold Receiver.seq_of in Hs.
        destruct (Receiver.header_of e) as [h|] eqn:Hh; [|discriminate].
        injection Hs as Hs.
        destruct (rrecv_iter_header e st h Hh Hok) as (d & _ & _ & E).
        rewrite E, Hs.
        destruct (n <=? _); [reflexivity|].
        destruct (lastPacket h =? TRUE); reflexivity. }
      destruct (Receiver.rrecv_iter e st) as [evs0 [st'| |code]].
      * destruct (Receiver.rrecv_loop env st') as [trace out].
        cbn in Hevs. injection Hevs as <-. exact Hd.
      * cbn in Hevs. injection Hevs as <-. exact Hd.
      * cbn in Hevs. injection Hevs as <-. exact Hd.
    + cbn [nth_error] in He.
      destruct (Receiver.rrecv_iter e0 st) as [evs0 [st'| |code]].
      * specialize (IH st' k e evs n He).
        destruct (Receiver.rrecv_loop env st') as [trace out].
        cbn in Hevs. now apply IH.
      * cbn in Hevs. destruct k; discriminate.
      * cbn in Hevs. destruct k; discriminate.
Qed.

(** C5 (amended): a datagram numbered [N] that arrives while the highest
    accepted number is below [N] is acknowledged and its payload written
    in that iteration; whatever arrives afterwards, and however often, no
    later iteration on a datagram numbered [N] writes again, so the run
    holds exactly one [fwrite] for [N]; and every iteration the loop runs
    on a non-empty datagram (first arrival or duplicate) begins with the
    data-ack of that datagram's sequence number, before the duplicate
    test. *)
Theorem duplicate_written_once (e : Receiver.recv_env)
  (env : list Receiver.recv_env) (st : Receiver.State) (N : Z) :
  Receiver.seq_of e = Some N ->
  Receiver.ack_sendto_ok e = true ->
  Receiver._latestSequenceNumber st < N ->
  Receiver.fwrites_of_seq N (e :: env)
    (fst (Receiver.rrecv_loop (e :: env) st)) = 1%nat
  /\ (exists d,
        Receiver.recvfrom e = Some d
        /\ hd_error (fst (Receiver.rrecv_loop (e :: env) st))
           = Some [Receiver.SendAck N;
                   Receiver.FWrite
                     (Receiver.packet_data_of
                        (Receiver.received (Receiver.stale e) d))])
  /\ (forall k e' evs n,
        nth_error (e :: env) k = Some e' ->
        nth_error (fst (Receiver.rrecv_loop (e :: env) st)) k = Some evs ->
        Receiver.seq_of e' = Some n ->
        Receiver.ack_sendto_ok e' = true ->
        hd_error evs = Some (Receiver.SendAck n)).
Proof.
  intros Hs Hok Hlt.
  split; [|split; [|intros k e' evs n; apply rrecv_loop_acks_first]].
  - cbn [Receiver.rrecv_loop Receiver.fwrites_of_seq]. rewrite Hs, Z.eqb_refl.
    unfold Receiver.seq_of in Hs.
    destruct (Receiver.header_of e) as [h|] eqn:Hh; [|discriminate].
    injection Hs as Hs.
    destruct (rrecv_iter_header e st h Hh Hok) as (d & _ & _ & E).
    rewrite E, Hs.
    destruct (Z.leb_spec N (Receiver._latestSequenceNumber st)); [lia|].
    destruct (lastPacket h =? TRUE).
    + cbn. now destruct env.
    + pose proof (rrecv_loop_no_rewrite N env
                    {| Receiver._latestSequenceNumber := N;
                       Receiver.bytesWritten :=
                         u64 (Receiver.bytesWritten st
                              + Receiver.bytesReceived_of d) |}) as Hno.
      destruct (Receiver.rrecv_loop env _) as [trace out].
      cbn [fst Receiver.fwrites] in *. cbn [filter length].
      rewrite Hno; [reflexivity | cbn; lia].
  - unfold Receiver.seq_of in Hs.
    destruct (Receiver.header_of e) as [h|] eqn:Hh; [|discriminate].
    injection Hs as Hs.
    destruct (rrecv_iter_header e st h Hh Hok) as (d & Hd & _ & E).
    exists d. split; [exact Hd|].
    cbn [Receiver.rrecv_loop]. rewrite E, Hs.
    destruct (Z.leb_spec N (Receiver._latestSequenceNumber st)); [lia|].
    destruct (lastPacket h =? TRUE).
    + reflexivity.
    + now destruct (Receiver.rrecv_loop env _).
Qed.

(** [duplicate_written_once] for packet 5 arriving three times at a fresh
    receiver. *)
Lemma duplicate_written_once_witness :
  Receiver.fwrites_of_seq 5 (Scenario.packet_five :: Scenario.twice_more)
    (fst (Receiver.rrecv_loop (Scenario.packet_five :: Scenario.twice_more)
            Receiver.init)) = 1%nat
  /\ (exists d,
        Receiver.recvfrom Scenario.packet_five = Some d
        /\ hd_error
             (fst (Receiver.rrecv_loop
                     (Scenario.packet_five :: Scenario.twice_more)
                     Receiver.init))
           = Some [Receiver.SendAck 5;
                   Receiver.FWrite
                     (Receiver.packet_data_of
                        (Receiver.received
                           (Receiver.stale Scenario.packet_five) d))])
  /\ (forall k e' evs n,
        nth_error (Scenario.packet_five :: Scenario.twice_more) k = Some e' ->
        nth_error
          (fst (Receiver.rrecv_loop
                  (Scenario.packet_five :: Scenario.twice_more)
                  Receiver.init)) k = Some evs ->
        Receiver.seq_of e' = Some n ->
        Receiver.ack_sendto_ok e' = true ->
        hd_error evs = Some (Receiver.SendAck n)).
Proof.
  apply (duplicate_written_once Scenario.packet_five Scenario.twice_more
           Receiver.init 5).
  - vm_compute. reflexivity.
  - reflexivity.
  - vm_compute. reflexivity.
Defined.

(** C5 as stated fails: the receiver has accepted packet 5 when a packet
    numbered 3 arrives, twice.  Both arrivals are acknowledged with 3 and
    neither is written: the duplicate test discards every packet that is
    not above the highest accepted number, so this payload is written
    zero times, not once. *)
Lemma stale_packet_never_written :
  Receiver.seq_of Scenario.packet_three = Some 3
  /\ Receiver.rrecv_loop Scenario.five_then_three_twice Receiver.init
     = ([[Receiver.SendAck 5;
          Receiver.FWrite (repeat x61 (Z.to_nat MAX_BUFFER_SIZE))];
         [Receiver.SendAck 3]; [Receiver.SendAck 3]],
        Receiver.Pending (Receiver.mkState 5 8204))
  /\ Receiver.fwrites_of_seq 3 Scenario.five_then_three_twice
       (fst (Receiver.rrecv_loop Scenario.five_then_three_twice Receiver.init))
     <> 1%nat.
Proof.
  repeat split; try (vm_compute; reflexivity).
  vm_compute. discriminate.
Qed.

Lemma rrecv_loop_latest_mono (env : list Receiver.recv_env) :
  forall st st',
    snd (Receiver.rrecv_loop env st) = Receiver.Pending st' ->
    Receiver._latestSequenceNumber st <= Receiver._latestSequenceNumber st'.
Proof.
  induction env as [|e env IH]; intros st st' H; cbn [Receiver.rrecv_loop] in H.
  - injection H as <-. lia.
  - pose proof (rrecv_iter_latest_mono e st) as Hmono.
    destruct (Receiver.rrecv_iter e st) as [evs [st1| |code]].
    + specialize (Hmono st1 evs eq_refl). specialize (IH st1 st').
      destruct (Receiver.rrecv_loop env st1) as [trace out].
      cbn [snd] in *. specialize (IH H). lia.
    + discriminate.
    + discriminate.
Qed.

Lemma fwrites_of_seq_nil (N : Z) (env : list Receiver.recv_env) :
  Receiver.fwrites_of_seq N env [] = O.
Proof. now destruct env. Qed.

(** C10: whatever the handshake exchanged (any Syn sequence number, any
    [rand()]), the data loop of [rrecv] starts from [init], whose
    [_latestSequenceNumber] is the constant 0; a sender whose [rand()]
    returned 0 leaves its handshake with [_sequenceNumber = 0]; no
    iteration of the receiver on a datagram numbered 0 ever writes; and
    while the loop runs, a datagram numbered 0 is answered with the
    data-ack 0, its payload is not written and the state does not change. *)
Theorem sequence_zero_never_written (listen : list Receiver.listen_env)
  (rand : Z) (acks : list Receiver.hs_recv) (env : list Receiver.recv_env)
  (hsent : list Receiver.hs_sent) (trace : list (list Receiver.event))
  (out : Receiver.outcome) :
  Receiver.rrecv listen rand acks env = (hsent, trace, out) ->
  Receiver._latestSequenceNumber Receiver.init = 0
  /\ (Receiver.establish_connection listen rand acks
      = (hsent, Receiver.Established) ->
      Receiver.rrecv_loop env Receiver.init = (trace, out))
  /\ (forall R A,
        snd (Sender.establish_connection
               [Sender.mkHsEnv true 0 (Sender.HsData 8 R A)])
        = Sender.Established 0)
  /\ Receiver.fwrites_of_seq 0 env trace = O
  /\ (forall st e,
        out = Receiver.Pending st ->
        Receiver.seq_of e = Some 0 ->
        Receiver.ack_sendto_ok e = true ->
        Receiver.rrecv_iter e st
        = ([Receiver.SendAck 0], Receiver.Continue st)).
Proof.
  unfold Receiver.rrecv. intros H.
  split; [reflexivity|].
  assert (Hsender : forall R A,
             snd (Sender.establish_connection
                    [Sender.mkHsEnv true 0 (Sender.HsData 8 R A)])
             = Sender.Established 0) by reflexivity.
  destruct (Receiver.establish_connection listen rand acks) as [hs [|code|t]].
  - pose proof (rrecv_loop_no_rewrite 0 env Receiver.init (Z.le_refl 0)) as Hno.
    pose proof (rrecv_loop_latest_mono env Receiver.init) as Hmono.
    destruct (Receiver.rrecv_loop env Receiver.init) as [trace0 out0].
    injection H as <- <- <-. cbn [fst snd] in *.
    split; [reflexivity|]. split; [exact Hsender|]. split; [exact Hno|].
    intros st e -> Hs Hok.
    specialize (Hmono st eq_refl). cbn in Hmono.
    unfold Receiver.seq_of in Hs.
    destruct (Receiver.header_of e) as [h|] eqn:Hh; [|discriminate].
    injection Hs as Hs.
    destruct (rrecv_iter_header e st h Hh Hok) as (d & _ & _ & E).
    rewrite E, Hs.
    destruct (Z.leb_spec 0 (Receiver._latestSequenceNumber st)); [reflexivity|lia].
  - injection H as <- <- <-.
    split; [discriminate|]. split; [exact Hsender|].
    split; [apply fwrites_of_seq_nil|]. discriminate.
  - injection H as <- <- <-.
    split; [discriminate|]. split; [exact Hsender|].
    split; [apply fwrites_of_seq_nil|]. discriminate.
Qed.

(** [sequence_zero_never_written] for a receiver that completed its
    handshake on Syn 41 and has accepted packet 5. *)
Lemma sequence_zero_never_written_witness :
  Receiver._latestSequenceNumber Receiver.init = 0
  /\ (Receiver.establish_connection Scenario.heard_syn_41 41
        [Receiver.HsData 4 42]
      = ([Receiver.SentSynAck 41 42], Receiver.Established) ->
      Receiver.rrecv_loop [Scenario.packet_five] Receiver.init
      = ([[Receiver.SendAck 5;
           Receiver.FWrite (repeat x61 (Z.to_nat MAX_BUFFER_SIZE))]],
         Receiver.Pending (Receiver.mkState 5 8204)))
  /\ (forall R A,
        snd (Sender.establish_connection
               [Sender.mkHsEnv true 0 (Sender.HsData 8 R A)])
        = Sender.Established 0)
  /\ Receiver.fwrites_of_seq 0 [Scenario.packet_five]
       [[Receiver.SendAck 5;
         Receiver.FWrite (repeat x61 (Z.to_nat MAX_BUFFER_SIZE))]] = O
  /\ (forall st e,
        Receiver.Pending (Receiver.mkState 5 8204) = Receiver.Pending st ->
        Receiver.seq_of e = Some 0 ->
        Receiver.ack_sendto_ok e = true ->
        Receiver.rrecv_iter e st
        = ([Receiver.SendAck 0], Receiver.Continue st)).
Proof.
  apply (sequence_zero_never_written Scenario.heard_syn_41 41
           [Receiver.HsData 4 42] [Scenario.packet_five]).
  vm_compute. reflexivity.
Defined.

(** The bytes of [packet] that a datagram does not reach keep their old
    value. *)
Lemma received_nth_stale (stale d : list byte) (i : nat) :
  (length d <= i < Z.to_nat Receiver.packetSize)%nat ->
  nth i (Receiver.received stale d) x00 = nth i stale x00.
Proof.
  intros [Hlo Hhi]. unfold Receiver.received.
  rewrite nth_firstn. destruct (Nat.ltb_spec i (Z.to_nat Receiver.packetSize)); [|lia].
  rewrite app_nth2 by lia. rewrite nth_skipn. f_equal. lia.
Qed.

(** C8 (amended): the loop of [rrecv] has no length check.  An empty
    datagram is skipped.  Any other datagram shorter than [HEADER_SIZE]
    has its header read from the first bytes of [packet], of which those
    past the datagram's end are whatever the array held before; when the
    [messageLength] so read is at most [MAX_BUFFER_SIZE], so that the
    copy of lines 268-269 stays inside [packet], the iteration does not
    end in [exit] (as long as the ack's own [sendto] works) and
    acknowledges the sequence number so read.  (A larger [messageLength]
    makes line 269 read past the end of [packet], which C leaves
    undefined; nothing is claimed for it.) *)
Theorem short_datagram_not_rejected (e : Receiver.recv_env)
  (st : Receiver.State) (d : list byte) :
  Receiver.recvfrom e = Some d ->
  len d < HEADER_SIZE ->
  Receiver.ack_sendto_ok e = true ->
  (d = [] -> Receiver.rrecv_iter e st = ([], Receiver.Continue st))
  /\ (d <> [] ->
      messageLength (decode_header (Receiver.received (Receiver.stale e) d))
      <= MAX_BUFFER_SIZE ->
      (forall code, snd (Receiver.rrecv_iter e st) <> Receiver.Exit code)
      /\ hd_error (fst (Receiver.rrecv_iter e st))
         = Some (Receiver.SendAck
                   (sequenceNumber
                      (decode_header
                         (Receiver.received (Receiver.stale e) d)))))
  /\ (forall i,
        (length d <= i < Z.to_nat HEADER_SIZE)%nat ->
        nth i (Receiver.received (Receiver.stale e) d) x00
        = nth i (Receiver.stale e) x00).
Proof.
  intros Hd Hshort Hok.
  assert (Hcases : d = [] /\ Receiver.rrecv_iter e st = ([], Receiver.Continue st)
                   \/ d <> [] /\ Receiver.header_of e
                      = Some (decode_header
                                (Receiver.received (Receiver.stale e) d))).
  { destruct d as [|b d'].
    - left. split; [reflexivity|].
      unfold Receiver.rrecv_iter. now rewrite Hd.
    - right. split; [discriminate|].
      unfold Receiver.header_of. rewrite Hd.
      destruct (Z.eqb_spec (Receiver.bytesReceived_of (b :: d')) 0) as [E|];
        [|reflexivity].
      unfold Receiver.bytesReceived_of, Receiver.packetSize, len,
        MAX_BUFFER_SIZE, HEADER_SIZE in E.
      cbn [length] in E. lia. }
  split; [|split].
  - intros ->. destruct Hcases as [[_ E]|[Hne _]]; [exact E | now elim Hne].
  - intros Hne _. destruct Hcases as [[-> _]|[_ Hh]]; [now elim Hne|].
    destruct (rrecv_iter_header e st _ Hh Hok) as (d' & _ & _ & E).
    rewrite E. split.
    + intros code. destruct (_ <=? _); [discriminate|].
      destruct (_ =? TRUE); discriminate.
    + destruct (_ <=? _); [reflexivity|].
      destruct (_ =? TRUE); reflexivity.
  - intros i Hi. apply received_nth_stale.
    unfold Receiver.packetSize, MAX_BUFFER_SIZE, HEADER_SIZE in *. lia.
Qed.

(** [short_datagram_not_rejected] for a one-byte datagram arriving in an
    array that still holds an earlier packet, whose [messageLength] of 2
    is the one read. *)
Lemma short_datagram_not_rejected_witness :
  ([x07] = [] ->
   Receiver.rrecv_iter Scenario.one_byte Receiver.init
   = ([], Receiver.Continue Receiver.init))
  /\ ([x07] <> [] ->
      messageLength
        (decode_header
           (Receiver.received (Receiver.stale Scenario.one_byte) [x07]))
      <= MAX_BUFFER_SIZE ->
      (forall code,
          snd (Receiver.rrecv_iter Scenario.one_byte Receiver.init)
          <> Receiver.Exit code)
      /\ hd_error (fst (Receiver.rrecv_iter Scenario.one_byte Receiver.init))
         = Some (Receiver.SendAck
                   (sequenceNumber
                      (decode_header
                         (Receiver.received
                            (Receiver.stale Scenario.one_byte) [x07])))))
  /\ (forall i,
        (length [x07] <= i < Z.to_nat HEADER_SIZE)%nat ->
        nth i (Receiver.received (Receiver.stale Scenario.one_byte) [x07]) x00
        = nth i (Receiver.stale Scenario.one_byte) x00).
Proof.
  apply (short_datagram_not_rejected Scenario.one_byte Receiver.init [x07]).
  - reflexivity.
  - vm_compute. reflexivity.
  - reflexivity.
Defined.

(** C8 as stated fails: a one-byte datagram is not rejected.  Its byte
    becomes the low byte of the sequence number, the rest of the header
    and the payload are the array's old contents; the receiver
    acknowledges 7, writes the two stale payload bytes and goes on. *)
Lemma short_datagram_taken_as_header :
  len [x07] < HEADER_SIZE
  /\ Receiver.rrecv_iter Scenario.one_byte Receiver.init
     = ([Receiver.SendAck 7; Receiver.FWrite [x68; x69]],
        Receiver.Continue (Receiver.mkState 7 1)).
Proof.
  split; vm_compute; reflexivity.
Qed.

(** *** The handshake *)

Lemma sender_backoff_default :
  Sender.backoff SYN_ACK_DEFAULT_TIMEOUT_MILLISEC = SYN_ACK_DEFAULT_TIMEOUT_MILLISEC.
Proof. reflexivity. Qed.

Lemma receiver_backoff_default :
  Receiver.backoff SYN_ACK_DEFAULT_TIMEOUT_MILLISEC = SYN_ACK_DEFAULT_TIMEOUT_MILLISEC.
Proof. reflexivity. Qed.

Lemma sender_handshake_timeouts (rands : list Z) :
  Sender.establish_connection_loop
    (map (fun r => Sender.mkHsEnv true r Sender.HsTimeout) rands)
    SYN_ACK_DEFAULT_TIMEOUT_MILLISEC
  = (map (fun r => Sender.SentSyn (u32 r)) rands,
     Sender.HsPending SYN_ACK_DEFAULT_TIMEOUT_MILLISEC).
Proof.
  induction rands as [|r rands IH]; [reflexivity|].
  cbn [map Sender.establish_connection_loop Sender.hs_setsockopt_ok
       Sender.hs_recvfrom Sender.hs_rand negb].
  rewrite sender_backoff_default, IH. reflexivity.
Qed.

Lemma receiver_listen_timeouts (n : nat) (rand : Z) (acks : list Receiver.hs_recv) :
  Receiver.establish_connection_loop
    (repeat (Receiver.mkListenEnv true Receiver.HsTimeout) n) rand acks
    SYN_ACK_DEFAULT_TIMEOUT_MILLISEC
  = ([], Receiver.HsPending SYN_ACK_DEFAULT_TIMEOUT_MILLISEC).
Proof.
  induction n as [|n IH]; [reflexivity|].
  cbn [repeat Receiver.establish_connection_loop Receiver.ls_setsockopt_ok
       Receiver.ls_recvfrom negb].
  rewrite receiver_backoff_default. exact IH.
Qed.

Lemma receiver_await_timeouts (n : nat) (sn an : Z) :
  Receiver.await_ack sn an (repeat Receiver.HsTimeout n)
    SYN_ACK_DEFAULT_TIMEOUT_MILLISEC
  = (repeat (Receiver.SentSynAck sn an) (S n),
     Receiver.HsPending SYN_ACK_DEFAULT_TIMEOUT_MILLISEC).
Proof.
  induction n as [|n IH]; [reflexivity|].
  change (repeat Receiver.HsTimeout (S n))
    with (Receiver.HsTimeout :: repeat Receiver.HsTimeout n).
  cbn [Receiver.await_ack].
  rewrite receiver_backoff_default, IH. reflexivity.
Qed.

(** C7, what the code does: the handshake timeout starts at
    [SYN_ACK_DEFAULT_TIMEOUT_MILLISEC] = 100000, which is already above
    the ceiling [SYN_ACK_MAX_TIMEOUT_MILLISEC] = 1600, so the guard
    [timeout < SYN_ACK_MAX_TIMEOUT_MILLISEC] is false and a receive
    timeout leaves it at 100000 instead of [min (2 * 100000) 1600]; after
    any number of consecutive timeouts, in the sender's loop and in both
    loops of the receiver, it is still 100000. *)
Theorem handshake_timeout_stays_at_default :
  Sender.backoff SYN_ACK_DEFAULT_TIMEOUT_MILLISEC = 100000
  /\ Receiver.backoff SYN_ACK_DEFAULT_TIMEOUT_MILLISEC = 100000
  /\ Z.min (SYN_ACK_DEFAULT_TIMEOUT_MILLISEC * 2) SYN_ACK_MAX_TIMEOUT_MILLISEC
     = 1600
  /\ (forall rands,
        snd (Sender.establish_connection
               (map (fun r => Sender.mkHsEnv true r Sender.HsTimeout) rands))
        = Sender.HsPending 100000)
  /\ (forall n rand acks,
        snd (Receiver.establish_connection
               (repeat (Receiver.mkListenEnv true Receiver.HsTimeout) n)
               rand acks)
        = Receiver.HsPending 100000)
  /\ (forall n sn an,
        snd (Receiver.await_ack sn an (repeat Receiver.HsTimeout n)
               SYN_ACK_DEFAULT_TIMEOUT_MILLISEC)
        = Receiver.HsPending 100000).
Proof.
  split; [reflexivity|]. split; [reflexivity|]. split; [reflexivity|].
  split; [|split].
  - intros rands. unfold Sender.establish_connection.
    now rewrite sender_handshake_timeouts.
  - intros n rand acks. unfold Receiver.establish_connection.
    now rewrite receiver_listen_timeouts.
  - intros n sn an. now rewrite receiver_await_timeouts.
Qed.

(** The responder's test of line 134 on the Ack the initiator builds at
    line 127. *)
Lemma await_ack_rejects (sn an a : Z) (n : nat) (timeout : Z) :
  a <> an ->
  Receiver.await_ack sn an (repeat (Receiver.HsData 4 a) n) timeout
  = (repeat (Receiver.SentSynAck sn an) (S n), Receiver.HsPending timeout).
Proof.
  intros Hne. induction n as [|n IH]; [reflexivity|].
  change (repeat (Receiver.HsData 4 a) (S n))
    with (Receiver.HsData 4 a :: repeat (Receiver.HsData 4 a) n).
  cbn [Receiver.await_ack]. rewrite IH.
  destruct (Z.eqb_spec a an); [contradiction|].
  now rewrite andb_false_r.
Qed.

Lemma await_ack_accepts (sn an : Z) (env : list Receiver.hs_recv) (timeout : Z) :
  Receiver.await_ack sn an (Receiver.HsData 4 an :: env) timeout
  = ([Receiver.SentSynAck sn an], Receiver.Established).
Proof.
  cbn [Receiver.await_ack]. now rewrite Z.eqb_refl.
Qed.

(** X4: when the responder happens to draw the number the initiator drew, the
    initiator's Ack passes the test of line 134 and both sides return. *)
Theorem handshake_completes_on_equal_numbers (S : Z) :
  Sender.establish_connection
    [Sender.mkHsEnv true S (Sender.HsData 8 (u32 S) (u32 (u32 S + 1)))]
  = ([Sender.SentSyn (u32 S); Sender.SentAck (u32 (u32 S + 1))],
     Sender.Established (s32 (u32 S)))
  /\ Receiver.establish_connection
       [Receiver.mkListenEnv true (Receiver.HsData 4 (u32 S))] S
       [Receiver.HsData 4 (u32 (u32 S + 1))]
     = ([Receiver.SentSynAck (u32 S) (u32 (u32 S + 1))], Receiver.Established).
Proof.
  split; [reflexivity|].
  unfold Receiver.establish_connection.
  cbn [Receiver.establish_connection_loop Receiver.ls_setsockopt_ok
       Receiver.ls_recvfrom negb].
  change (0 <? Z.of_nat 4) with true. cbv iota.
  apply await_ack_accepts.
Qed.

(** C2, what the code does: the initiator picks [S], the responder picks
    [R], and no datagram is lost.  The initiator answers the SynAck with
    [ackNumber = R + 1] and returns; the responder compares that Ack with
    its own [syn_ack.ackNumber = S + 1].  Unless both picked the same
    number, the responder rejects the Ack every time it arrives and stays
    in its resend loop: after [n] arrivals of that Ack it has sent its
    SynAck [n + 1] times and waits for the next. *)
Theorem handshake_ack_rejected (S R : Z) (n : nat) :
  u32 (u32 R + 1) <> u32 (u32 S + 1) ->
  Sender.establish_connection
    [Sender.mkHsEnv true S (Sender.HsData 8 (u32 R) (u32 (u32 S + 1)))]
  = ([Sender.SentSyn (u32 S); Sender.SentAck (u32 (u32 R + 1))],
     Sender.Established (s32 (u32 S)))
  /\ Receiver.establish_connection
       [Receiver.mkListenEnv true (Receiver.HsData 4 (u32 S))] R
       (repeat (Receiver.HsData 4 (u32 (u32 R + 1))) n)
     = (repeat (Receiver.SentSynAck (u32 R) (u32 (u32 S + 1)))
          (Datatypes.S n),
        Receiver.HsPending SYN_ACK_DEFAULT_TIMEOUT_MILLISEC).
Proof.
  intros Hne. split; [reflexivity|].
  unfold Receiver.establish_connection.
  cbn [Receiver.establish_connection_loop Receiver.ls_setsockopt_ok
       Receiver.ls_recvfrom negb].
  change (0 <? Z.of_nat 4) with true. cbv iota.
  now apply await_ack_rejects.
Qed.

(** [handshake_ack_rejected] for an initiator that drew 1 and a responder
    that drew 2, the Ack arriving three times: the responder has sent its
    SynAck four times and waits. *)
Lemma handshake_ack_rejected_witness :
  Sender.establish_connection
    [Sender.mkHsEnv true 1 (Sender.HsData 8 (u32 2) (u32 (u32 1 + 1)))]
  = ([Sender.SentSyn (u32 1); Sender.SentAck (u32 (u32 2 + 1))],
     Sender.Established (s32 (u32 1)))
  /\ Receiver.establish_connection
       [Receiver.mkListenEnv true (Receiver.HsData 4 (u32 1))] 2
       (repeat (Receiver.HsData 4 (u32 (u32 2 + 1))) 3)
     = (repeat (Receiver.SentSynAck (u32 2) (u32 (u32 1 + 1))) 4,
        Receiver.HsPending SYN_ACK_DEFAULT_TIMEOUT_MILLISEC).
Proof.
  apply (handshake_ack_rejected 1 2 3).
  vm_compute. discriminate.
Defined.

(** *** Retries in the data phase *)

Lemma prepare_counters (bytesToTransfer : Z) (st : Sender.State) :
  Sender._sequenceNumber (Sender.prepare bytesToTransfer st)
  = Sender._sequenceNumber st
  /\ Sender.totalBytesSent (Sender.prepare bytesToTransfer st)
     = Sender.totalBytesSent st
  /\ Sender.retries (Sender.prepare bytesToTransfer st) = Sender.retries st
  /\ Sender.timeout (Sender.prepare bytesToTransfer st) = Sender.timeout st.
Proof.
  unfold Sender.prepare. destruct (Sender.retries st =? 0); repeat split.
Qed.

Lemma rsend_iter_mismatch (bytesToTransfer v : Z) (st : Sender.State) :
  v <> u32 (Sender._sequenceNumber st) ->
  Sender.rsend_iter bytesToTransfer (Sender.acked_with v) st
  = ([Sender.datagram_of (Sender.prepare bytesToTransfer st)],
     Sender.Next (Sender.retry (Sender.prepare bytesToTransfer st))).
Proof.
  intros Hne. unfold Sender.rsend_iter, Sender.acked_with.
  cbn [Sender.setsockopt_ok Sender.sendto_ret Sender.ack_recvfrom negb].
  change (HEADER_SIZE + MAX_BUFFER_SIZE <? 0) with false. cbv iota.
  unfold Sender.checkAck.
  destruct (prepare_counters bytesToTransfer st) as (-> & _).
  destruct (Z.eqb_spec v (u32 (Sender._sequenceNumber st))); [contradiction|].
  reflexivity.
Qed.

Lemma s32_small (z : Z) : - 2 ^ 31 <= z < 2 ^ 31 -> s32 z = z.
Proof.
  intros Hz. unfold s32. rewrite Z.mod_small; lia.
Qed.

Lemma rsend_iter_timed_out (bytesToTransfer : Z) (st : Sender.State) :
  Sender.rsend_iter bytesToTransfer Sender.timed_out st
  = ([Sender.datagram_of (Sender.prepare bytesToTransfer st)],
     if Sender.retries st <? MAX_RETRIES
     then Sender.Next (Sender.retry (Sender.prepare bytesToTransfer st))
     else Sender.Exit 1).
Proof.
  unfold Sender.rsend_iter, Sender.timed_out.
  cbn [Sender.setsockopt_ok Sender.sendto_ret Sender.ack_recvfrom negb].
  change (HEADER_SIZE + MAX_BUFFER_SIZE <? 0) with false. cbv iota.
  unfold Sender.checkAck.
  destruct (prepare_counters bytesToTransfer st) as (_ & _ & -> & _).
  reflexivity.
Qed.

Lemma timeouts_below_ceiling (bytesToTransfer : Z) (env : list Sender.iter_env)
  (n : nat) :
  forall st,
    Sender.totalBytesSent st < bytesToTransfer ->
    0 <= Sender.retries st ->
    Sender.retries st + Z.of_nat n <= MAX_RETRIES ->
    exists sent st',
      Sender.rsend_loop bytesToTransfer (repeat Sender.timed_out n ++ env) st
      = (sent ++ fst (Sender.rsend_loop bytesToTransfer env st'),
         snd (Sender.rsend_loop bytesToTransfer env st'))
      /\ length sent = n
      /\ Sender.retries st' = Sender.retries st + Z.of_nat n
      /\ Sender.totalBytesSent st' = Sender.totalBytesSent st.
Proof.
  induction n as [|n IH]; intros st Hlt Hr0 Hr.
  - exists [], st. cbn [repeat app].
    destruct (Sender.rsend_loop bytesToTransfer env st).
    repeat split. lia.
  - cbn [repeat app Sender.rsend_loop].
    destruct (Z.ltb_spec (Sender.totalBytesSent st) bytesToTransfer); [|lia].
    rewrite rsend_iter_timed_out.
    destruct (Z.ltb_spec (Sender.retries st) MAX_RETRIES); [|lia].
    destruct (prepare_counters bytesToTransfer st) as (_ & Htot & Hret & _).
    set (st1 := Sender.retry (Sender.prepare bytesToTransfer st)).
    assert (Hret1 : Sender.retries st1 = Sender.retries st + 1).
    { unfold st1, Sender.retry. cbn [Sender.retries].
      rewrite Hret. apply s32_small. unfold MAX_RETRIES in *. lia. }
    assert (Htot1 : Sender.totalBytesSent st1 = Sender.totalBytesSent st).
    { unfold st1, Sender.retry. cbn [Sender.totalBytesSent]. exact Htot. }
    destruct (IH st1) as (sent & st' & E & Hlen & Hretn & Htotn); try lia.
    rewrite E. eexists (_ :: sent), st'. split; [reflexivity|].
    cbn [length]. repeat split; lia.
Qed.

(** X1: [MAX_RETRIES + 1] timeouts in a row do end the transfer: the fourth
    finds [retries = MAX_RETRIES] and calls [exit(1)]; four datagrams
    were sent and the rest of the environment is never consulted. *)
Theorem four_timeouts_abort (bytesToTransfer : Z) (st : Sender.State)
  (env : list Sender.iter_env) :
  Sender.totalBytesSent st < bytesToTransfer ->
  Sender.retries st = 0 ->
  exists sent,
    Sender.rsend_loop bytesToTransfer
      (repeat Sender.timed_out (Z.to_nat (MAX_RETRIES + 1)) ++ env) st
    = (sent, Sender.Exited 1)
    /\ length sent = Z.to_nat (MAX_RETRIES + 1).
Proof.
  intros Hlt Hr.
  destruct (timeouts_below_ceiling bytesToTransfer (Sender.timed_out :: env) 3 st)
    as (sent & st' & E & Hlen & Hret & Htot); try (unfold MAX_RETRIES; lia).
  change (repeat Sender.timed_out (Z.to_nat (MAX_RETRIES + 1)) ++ env)
    with (repeat Sender.timed_out 3 ++ Sender.timed_out :: env).
  rewrite E. cbn [Sender.rsend_loop].
  destruct (Z.ltb_spec (Sender.totalBytesSent st') bytesToTransfer); [|lia].
  rewrite rsend_iter_timed_out.
  destruct (Z.ltb_spec (Sender.retries st') MAX_RETRIES);
    [unfold MAX_RETRIES in *; lia|].
  cbn [fst snd]. eexists. split; [reflexivity|].
  rewrite length_app, Hlen. reflexivity.
Qed.

(** [four_timeouts_abort] for a fresh sender of the three-byte file; the
    ack that would have come fifth is never read. *)
Lemma four_timeouts_abort_witness :
  exists sent,
    Sender.rsend_loop 3
      (repeat Sender.timed_out (Z.to_nat (MAX_RETRIES + 1))
       ++ [Sender.acked_with 1]) Scenario.three_byte_sender
    = (sent, Sender.Exited 1)
    /\ length sent = Z.to_nat (MAX_RETRIES + 1).
Proof.
  apply (four_timeouts_abort 3 Scenario.three_byte_sender [Sender.acked_with 1]).
  - vm_compute. reflexivity.
  - reflexivity.
Defined.

(** X2: what [checkAck] does to the retry state when it returns: after a
    timeout or a mismatching ack the timeout is doubled (with no ceiling
    of its own) and [retries] grows by one, the sequence number and the
    byte count stay; after the matching ack the timeout is back at
    [DEFAULT_TIMEOUT], [retries] is 0, the sequence number has advanced by
    one and the byte count by what [sendto] reported less the header. *)
Theorem checkAck_backoff (r : Sender.recv_result) (ret : Z)
  (st st' : Sender.State) :
  Sender.checkAck r ret st = Sender.Next st' ->
  (r <> Sender.RecvAck (u32 (Sender._sequenceNumber st))
   /\ Sender.timeout st' = s32 (Sender.timeout st * 2)
   /\ Sender.retries st' = s32 (Sender.retries st + 1)
   /\ Sender._sequenceNumber st' = Sender._sequenceNumber st
   /\ Sender.totalBytesSent st' = Sender.totalBytesSent st)
  \/ (r = Sender.RecvAck (u32 (Sender._sequenceNumber st))
      /\ Sender.timeout st' = DEFAULT_TIMEOUT
      /\ Sender.retries st' = 0
      /\ Sender._sequenceNumber st' = s32 (Sender._sequenceNumber st + 1)
      /\ Sender.totalBytesSent st'
         = u64 (Sender.totalBytesSent st + u64 (ret - HEADER_SIZE))).
Proof.
  unfold Sender.checkAck. intros H. destruct r as [| |v].
  - destruct (Sender.retries st <? MAX_RETRIES); [|discriminate].
    injection H as <-. left. repeat split. discriminate.
  - discriminate.
  - destruct (Z.eqb_spec v (u32 (Sender._sequenceNumber st))) as [->|Hne];
      injection H as <-.
    + right. repeat split.
    + left. repeat split. intros E. injection E as E. contradiction.
Qed.

(** [checkAck_backoff] for the first timeout of a fresh sender. *)
Lemma checkAck_backoff_witness :
  (Sender.RecvTimeout
   <> Sender.RecvAck (u32 (Sender._sequenceNumber Scenario.three_byte_sender))
   /\ Sender.timeout (Sender.retry Scenario.three_byte_sender)
      = s32 (Sender.timeout Scenario.three_byte_sender * 2)
   /\ Sender.retries (Sender.retry Scenario.three_byte_sender)
      = s32 (Sender.retries Scenario.three_byte_sender + 1)
   /\ Sender._sequenceNumber (Sender.retry Scenario.three_byte_sender)
      = Sender._sequenceNumber Scenario.three_byte_sender
   /\ Sender.totalBytesSent (Sender.retry Scenario.three_byte_sender)
      = Sender.totalBytesSent Scenario.three_byte_sender)
  \/ (Sender.RecvTimeout
      = Sender.RecvAck (u32 (Sender._sequenceNumber Scenario.three_byte_sender))
      /\ Sender.timeout (Sender.retry Scenario.three_byte_sender)
         = DEFAULT_TIMEOUT
      /\ Sender.retries (Sender.retry Scenario.three_byte_sender) = 0
      /\ Sender._sequenceNumber (Sender.retry Scenario.three_byte_sender)
         = s32 (Sender._sequenceNumber Scenario.three_byte_sender + 1)
      /\ Sender.totalBytesSent (Sender.retry Scenario.three_byte_sender)
         = u64 (Sender.totalBytesSent Scenario.three_byte_sender
                + u64 (8204 - HEADER_SIZE))).
Proof.
  apply (checkAck_backoff Sender.RecvTimeout 8204 Scenario.three_byte_sender
           (Sender.retry Scenario.three_byte_sender)).
  reflexivity.
Defined.

(** The timeouts the loop hands to [setsockopt] while [retries] is at most
    [MAX_RETRIES], 100000, 200000, 400000 and 800000 microseconds, are
    accepted. *)
Lemma timeout_after_accepted (r : Z) :
  0 <= r <= MAX_RETRIES ->
  Sender.setsockopt_accepts (Sender.timeout_after r) = true.
Proof.
  unfold MAX_RETRIES. intros Hr.
  assert (E : r = 0 \/ r = 1 \/ r = 2 \/ r = 3) by lia.
  destruct E as [-> | [-> | [-> | ->]]]; reflexivity.
Qed.

Lemma timeout_after_succ (r : Z) :
  0 <= r < MAX_RETRIES + 1 ->
  s32 (Sender.timeout_after r * 2) = Sender.timeout_after (r + 1).
Proof.
  unfold MAX_RETRIES. intros Hr.
  assert (E : r = 0 \/ r = 1 \/ r = 2 \/ r = 3) by lia.
  destruct E as [-> | [-> | [-> | ->]]]; reflexivity.
Qed.

(** An iteration that meets a transient failure while [retries] is below
    [MAX_RETRIES]: the datagram goes out and [checkAck] returns through
    one of its two retry branches. *)
Lemma rsend_iter_transient (bytesToTransfer : Z) (e : Sender.iter_env)
  (st : Sender.State) :
  Sender.transient_failure (u32 (Sender._sequenceNumber st)) e = true ->
  Sender.retries st < MAX_RETRIES ->
  Sender.rsend_iter bytesToTransfer e st
  = ([Sender.datagram_of (Sender.prepare bytesToTransfer st)],
     Sender.Next (Sender.retry (Sender.prepare bytesToTransfer st))).
Proof.
  unfold Sender.transient_failure. intros Hf Hr.
  apply andb_true_iff in Hf as [Hf Hrecv].
  apply andb_true_iff in Hf as [Hok Hsent].
  unfold Sender.rsend_iter. rewrite Hok. cbn [negb].
  destruct (Z.ltb_spec (Sender.sendto_ret e) 0) as [Hneg|_];
    [apply Z.leb_le in Hsent; lia|].
  f_equal. unfold Sender.checkAck.
  destruct (prepare_counters bytesToTransfer st) as (-> & _ & -> & _).
  destruct (Sender.ack_recvfrom e) as [| |v]; [|discriminate|].
  - destruct (Z.ltb_spec (Sender.retries st) MAX_RETRIES); [reflexivity | lia].
  - now rewrite Hrecv.
Qed.

(** The last transient failure a packet can meet, at [retries =
    MAX_RETRIES]: a timeout ends the process inside [checkAck]; a
    mismatching ack lets [checkAck] return with the timeout doubled once
    more. *)
Lemma rsend_iter_transient_last (bytesToTransfer : Z) (e : Sender.iter_env)
  (st : Sender.State) :
  Sender.transient_failure (u32 (Sender._sequenceNumber st)) e = true ->
  Sender.retries st = MAX_RETRIES ->
  Sender.rsend_iter bytesToTransfer e st
  = ([Sender.datagram_of (Sender.prepare bytesToTransfer st)], Sender.Exit 1)
  \/ Sender.rsend_iter bytesToTransfer e st
     = ([Sender.datagram_of (Sender.prepare bytesToTransfer st)],
        Sender.Next (Sender.retry (Sender.prepare bytesToTransfer st))).
Proof.
  unfold Sender.transient_failure. intros Hf Hr.
  apply andb_true_iff in Hf as [Hf Hrecv].
  apply andb_true_iff in Hf as [Hok Hsent].
  unfold Sender.rsend_iter. rewrite Hok. cbn [negb].
  destruct (Z.ltb_spec (Sender.sendto_ret e) 0) as [Hneg|_];
    [apply Z.leb_le in Hsent; lia|].
  unfold Sender.checkAck.
  destruct (prepare_counters bytesToTransfer st) as (-> & _ & -> & _).
  destruct (Sender.ack_recvfrom e) as [| |v]; [|discriminate|].
  - left. rewrite Hr. reflexivity.
  - right. now rewrite Hrecv.
Qed.

(** Up to [MAX_RETRIES] transient failures of the outstanding packet: one
    datagram goes out for each, every timeout in force is one the system
    accepts, and the loop goes on with what follows. *)
Lemma transient_failures_run (bytesToTransfer : Z)
  (failures : list Sender.iter_env) :
  forall (rest : list Sender.iter_env) (st : Sender.State),
    Sender.totalBytesSent st < bytesToTransfer ->
    0 <= Sender.retries st ->
    Sender.timeout st = Sender.timeout_after (Sender.retries st) ->
    Sender.retries st + Z.of_nat (length failures) <= MAX_RETRIES ->
    forallb (Sender.transient_failure (u32 (Sender._sequenceNumber st)))
      failures = true ->
    exists sent st',
      Sender.rsend_loop_os bytesToTransfer (failures ++ rest) st
      = (sent ++ fst (Sender.rsend_loop_os bytesToTransfer rest st'),
         snd (Sender.rsend_loop_os bytesToTransfer rest st'))
      /\ length sent = length failures
      /\ Sender.retries st' = Sender.retries st + Z.of_nat (length failures)
      /\ Sender.timeout st' = Sender.timeout_after (Sender.retries st')
      /\ Sender._sequenceNumber st' = Sender._sequenceNumber st
      /\ Sender.totalBytesSent st' = Sender.totalBytesSent st.
Proof.
  induction failures as [|e failures IH]; intros rest st Hlt Hr0 Ht Hr Hf.
  - exists [], st. cbn [app length].
    destruct (Sender.rsend_loop_os bytesToTransfer rest st).
    cbn [fst snd]. split; [reflexivity|]. split; [reflexivity|].
    split; [cbn; lia|]. split; [exact Ht|]. split; reflexivity.
  - cbn [forallb] in Hf. apply andb_true_iff in Hf as [He Hf].
    cbn [length] in Hr. rewrite Nat2Z.inj_succ in Hr.
    cbn [app Sender.rsend_loop_os].
    destruct (Z.ltb_spec (Sender.totalBytesSent st) bytesToTransfer); [|lia].
    rewrite Ht, timeout_after_accepted by lia. cbn [negb].
    rewrite (rsend_iter_transient bytesToTransfer e st He) by lia.
    destruct (prepare_counters bytesToTransfer st) as (Hseq & Htot & Hret & Htim).
    set (st1 := Sender.retry (Sender.prepare bytesToTransfer st)).
    assert (Hret1 : Sender.retries st1 = Sender.retries st + 1).
    { unfold st1, Sender.retry. cbn [Sender.retries]. rewrite Hret.
      apply s32_small. unfold MAX_RETRIES in *. lia. }
    assert (Htim1 : Sender.timeout st1 = Sender.timeout_after (Sender.retries st1)).
    { rewrite Hret1. unfold st1, Sender.retry. cbn [Sender.timeout].
      rewrite Htim, Ht. apply timeout_after_succ. lia. }
    assert (Hseq1 : Sender._sequenceNumber st1 = Sender._sequenceNumber st)
      by exact Hseq.
    assert (Htot1 : Sender.totalBytesSent st1 = Sender.totalBytesSent st)
      by exact Htot.
    destruct (IH rest st1) as (sent & st' & E & Hlen & Hretn & Htimn & Hseqn & Htotn).
    + lia.
    + lia.
    + exact Htim1.
    + lia.
    + now rewrite Hseq1.
    + rewrite E. cbn [fst snd].
      exists (Sender.datagram_of (Sender.prepare bytesToTransfer st) :: sent), st'.
      split; [reflexivity|]. cbn [length]. rewrite Nat2Z.inj_succ.
      split; [now rewrite Hlen|]. split; [lia|]. split; [exact Htimn|].
      split; [congruence | congruence].
Qed.

(** C4: the retry ceiling, on a system that takes [SO_RCVTIMEO] values
    below one second only.  A packet is outstanding for the first time
    ([retries = 0], the timeout at [DEFAULT_TIMEOUT]) and meets transient
    failures, timeouts and mismatching acks in any order.  Up to
    [MAX_RETRIES] of them leave the sender in its loop, one datagram sent
    for each.  The failure number [MAX_RETRIES + 1] ends the process with
    [exit(1)] after exactly that many sends, whatever the network would
    have delivered afterwards: when it is a timeout, [checkAck] finds
    [retries = MAX_RETRIES]; when it is a mismatching ack, [checkAck]
    returns with [retries = MAX_RETRIES + 1] and the timeout doubled to
    1600000 microseconds, which the next [setsockopt] refuses, before
    anything is sent. *)
Theorem retry_ceiling_enforced (bytesToTransfer : Z) (st : Sender.State)
  (failures rest : list Sender.iter_env) :
  Sender.totalBytesSent st < bytesToTransfer ->
  Sender.retries st = 0 ->
  Sender.timeout st = DEFAULT_TIMEOUT ->
  forallb (Sender.transient_failure (u32 (Sender._sequenceNumber st)))
    failures = true ->
  (Z.of_nat (length failures) <= MAX_RETRIES ->
   exists sent st',
     Sender.rsend_loop_os bytesToTransfer failures st
     = (sent, Sender.Pending st')
     /\ length sent = length failures
     /\ Sender.retries st' = Z.of_nat (length failures))
  /\ (Z.of_nat (length failures) = MAX_RETRIES + 1 ->
      exists sent,
        Sender.rsend_loop_os bytesToTransfer (failures ++ rest) st
        = (sent, Sender.Exited 1)
        /\ length sent = length failures).
Proof.
  intros Hlt Hr0 Ht Hf. split.
  - intros Hn.
    destruct (transient_failures_run bytesToTransfer failures [] st)
      as (sent & st' & E & Hlen & Hret & Htim & _ & Htot); try lia; try assumption.
    { rewrite Hr0. exact Ht. }
    rewrite app_nil_r in E. rewrite E. cbn [Sender.rsend_loop_os].
    destruct (Z.ltb_spec (Sender.totalBytesSent st') bytesToTransfer); [|lia].
    rewrite Htim, timeout_after_accepted by lia. cbn [negb fst snd].
    exists sent, st'. rewrite app_nil_r. split; [reflexivity|].
    split; [exact Hlen | lia].
  - intros Hn.
    destruct (exists_last (l := failures)) as (pre & e & ->).
    { intros ->. cbn in Hn. unfold MAX_RETRIES in Hn. lia. }
    rewrite length_app in Hn. cbn [length] in Hn.
    rewrite forallb_app in Hf. apply andb_true_iff in Hf as [Hpre He].
    cbn [forallb] in He. rewrite andb_true_r in He.
    rewrite <- app_assoc. cbn [app].
    destruct (transient_failures_run bytesToTransfer pre (e :: rest) st)
      as (sent & st' & E & Hlen & Hret & Htim & Hseq & Htot);
      try lia; try assumption.
    { rewrite Hr0. exact Ht. }
    rewrite E. cbn [Sender.rsend_loop_os].
    destruct (Z.ltb_spec (Sender.totalBytesSent st') bytesToTransfer); [|lia].
    rewrite Htim, timeout_after_accepted by lia. cbn [negb].
    rewrite <- Hseq in He.
    assert (Hlast : Sender.retries st' = MAX_RETRIES) by lia.
    destruct (rsend_iter_transient_last bytesToTransfer e st' He Hlast)
      as [-> | ->].
    + cbn [fst snd]. eexists. split; [reflexivity|].
      rewrite !length_app, Hlen. reflexivity.
    + destruct (prepare_counters bytesToTransfer st')
        as (_ & Htot' & Hret' & Htim').
      assert (Hgo : (Sender.totalBytesSent
                       (Sender.retry (Sender.prepare bytesToTransfer st'))
                     <? bytesToTransfer) = true).
      { apply Z.ltb_lt. unfold Sender.retry. cbn [Sender.totalBytesSent]. lia. }
      assert (Href : Sender.setsockopt_accepts
                       (Sender.timeout
                          (Sender.retry (Sender.prepare bytesToTransfer st')))
                     = false).
      { unfold Sender.retry. cbn [Sender.timeout].
        rewrite Htim', Htim, Hlast. reflexivity. }
      destruct rest as [|e' rest']; cbn [Sender.rsend_loop_os];
        rewrite Hgo, Href; cbn [negb fst snd];
        (eexists; split; [reflexivity|]);
        rewrite !length_app, Hlen; reflexivity.
Qed.

(** [retry_ceiling_enforced] for a fresh sender of the three-byte file
    whose first packet, numbered 1, meets a timeout, the ack 9, a timeout
    and the ack 9; the ack 1 that would have come fifth is never read. *)
Lemma retry_ceiling_enforced_witness :
  (Z.of_nat (length Scenario.four_failures) <= MAX_RETRIES ->
   exists sent st',
     Sender.rsend_loop_os 3 Scenario.four_failures Scenario.three_byte_sender
     = (sent, Sender.Pending st')
     /\ length sent = length Scenario.four_failures
     /\ Sender.retries st' = Z.of_nat (length Scenario.four_failures))
  /\ (Z.of_nat (length Scenario.four_failures) = MAX_RETRIES + 1 ->
      exists sent,
        Sender.rsend_loop_os 3 (Scenario.four_failures ++ [Sender.acked_with 1])
          Scenario.three_byte_sender
        = (sent, Sender.Exited 1)
        /\ length sent = length Scenario.four_failures).
Proof.
  apply (retry_ceiling_enforced 3 Scenario.three_byte_sender
           Scenario.four_failures [Sender.acked_with 1]).
  - vm_compute. reflexivity.
  - reflexivity.
  - reflexivity.
  - vm_compute. reflexivity.
Defined.

(** That run, executed: four datagrams, then [exit(1)] at the [setsockopt]
    that is handed 1600000 microseconds. *)
Lemma four_failures_run :
  length (fst (Sender.rsend_loop_os 3
                 (Scenario.four_failures ++ [Sender.acked_with 1])
                 Scenario.three_byte_sender)) = 4%nat
  /\ snd (Sender.rsend_loop_os 3
            (Scenario.four_failures ++ [Sender.acked_with 1])
            Scenario.three_byte_sender) = Sender.Exited 1
  /\ Sender.setsockopt_accepts (DEFAULT_TIMEOUT * 2 ^ MAX_RETRIES) = true
  /\ Sender.setsockopt_accepts (DEFAULT_TIMEOUT * 2 ^ (MAX_RETRIES + 1)) = false.
Proof.
  repeat split; vm_compute; reflexivity.
Qed.

(** *** The [lastPacket] flag *)

Lemma checkAck_total (r : Sender.recv_result) (ret : Z) (st st' : Sender.State) :
  Sender.checkAck r ret st = Sender.Next st' ->
  Sender.totalBytesSent st' = Sender.totalBytesSent st
  \/ Sender.totalBytesSent st'
     = u64 (Sender.totalBytesSent st + u64 (ret - HEADER_SIZE)).
Proof.
  unfold Sender.checkAck. intros H. destruct r as [| |v].
  - destruct (Sender.retries st <? MAX_RETRIES); [|discriminate].
    injection H as <-. now left.
  - discriminate.
  - destruct (negb (v =? u32 (Sender._sequenceNumber st)));
      injection H as <-; [now left | now right].
Qed.

(** With [totalBytesSent] a multiple of [MAX_BUFFER_SIZE] strictly below a
    target that is one too, line 316 compares [totalBytesSent +
    MAX_BUFFER_SIZE > bytesToTransfer] and finds it false. *)
Lemma prepare_flag_clear (k j : Z) (st : Sender.State) :
  len (Sender.packet st) = HEADER_SIZE + MAX_BUFFER_SIZE ->
  MAX_BUFFER_SIZE * k < 2 ^ 64 ->
  0 <= j < k ->
  Sender.totalBytesSent st = MAX_BUFFER_SIZE * j ->
  Sender.retries st = 0
  \/ lastPacket (decode_header (Sender.packet st)) = FALSE ->
  lastPacket
    (decode_header (Sender.packet (Sender.prepare (MAX_BUFFER_SIZE * k) st)))
  = FALSE.
Proof.
  intros Hl Hk Hj Htot Hinv. unfold Sender.prepare.
  destruct (Z.eqb_spec (Sender.retries st) 0) as [Hr|Hr].
  - destruct (read_chunk_packet (MAX_BUFFER_SIZE * k) st Hl)
      as (h & _ & _ & Hlast & ->).
    rewrite decode_encode_header. cbn [lastPacket]. rewrite Hlast, Htot.
    replace (u64 (MAX_BUFFER_SIZE * j + MAX_BUFFER_SIZE))
      with (MAX_BUFFER_SIZE * (j + 1))
      by (unfold u64; rewrite Z.mod_small; unfold MAX_BUFFER_SIZE in *; lia).
    destruct (Z.gtb_spec (MAX_BUFFER_SIZE * (j + 1)) (MAX_BUFFER_SIZE * k));
      [unfold MAX_BUFFER_SIZE in *; lia | reflexivity].
  - destruct Hinv as [Hinv|Hinv]; [contradiction | exact Hinv].
Qed.

Lemma rsend_loop_flag_clear (k : Z) (env : list Sender.iter_env) :
  MAX_BUFFER_SIZE * k < 2 ^ 64 ->
  Forall (fun e => Sender.sendto_ret e < 0
                   \/ Sender.sendto_ret e = HEADER_SIZE + MAX_BUFFER_SIZE) env ->
  forall st j,
    len (Sender.packet st) = HEADER_SIZE + MAX_BUFFER_SIZE ->
    0 <= j ->
    Sender.totalBytesSent st = MAX_BUFFER_SIZE * j ->
    Sender.retries st = 0
    \/ lastPacket (decode_header (Sender.packet st)) = FALSE ->
    Forall (fun d => lastPacket (decode_header d) = FALSE)
           (fst (Sender.rsend_loop (MAX_BUFFER_SIZE * k) env st)).
Proof.
  intros Hk Henv. induction Henv as [|e env He Henv IH];
    intros st j Hl Hj Htot Hinv; cbn [Sender.rsend_loop];
    destruct (Z.ltb_spec (Sender.totalBytesSent st) (MAX_BUFFER_SIZE * k))
      as [Hlt|Hge]; try constructor.
  assert (Hjk : 0 <= j < k) by (unfold MAX_BUFFER_SIZE in *; lia).
  pose proof (prepare_flag_clear k j st Hl Hk Hjk Htot Hinv) as Hflag.
  pose proof (prepare_packet_length (MAX_BUFFER_SIZE * k) st) as Hlen.
  destruct (prepare_counters (MAX_BUFFER_SIZE * k) st) as (_ & Hptot & _).
  assert (Hpl : len (Sender.packet (Sender.prepare (MAX_BUFFER_SIZE * k) st))
                = HEADER_SIZE + MAX_BUFFER_SIZE)
    by (unfold len in *; now rewrite Hlen).
  destruct (rsend_iter_cases_sent (MAX_BUFFER_SIZE * k) e st) as [E|[Hret E]];
    rewrite E; [constructor|].
  destruct (Sender.checkAck _ _ _) as [st'|code] eqn:Hc.
  - pose proof (checkAck_packet _ _ _ _ Hc) as [Hp' _].
    pose proof (checkAck_total _ _ _ _ Hc) as Ht'.
    assert (Hstep : exists j', 0 <= j' /\
                      Sender.totalBytesSent st' = MAX_BUFFER_SIZE * j').
    { destruct Ht' as [Ht'|Ht'].
      - exists j. split; [lia|]. now rewrite Ht', Hptot.
      - exists (j + 1). split; [lia|]. rewrite Ht', Hptot, Htot.
        destruct He as [He|He]; [lia|]. rewrite He.
        unfold u64, HEADER_SIZE, MAX_BUFFER_SIZE in *.
        rewrite (Z.mod_small (12 + 8192 - 12)) by lia.
        rewrite Z.mod_small; lia. }
    destruct Hstep as (j' & Hj' & Htot').
    specialize (IH st' j').
    destruct (Sender.rsend_loop (MAX_BUFFER_SIZE * k) env st') as [sent' out].
    cbn [fst app]. constructor.
    + now rewrite datagram_of_full.
    + apply IH; try assumption.
      * now rewrite Hp'.
      * right. now rewrite Hp'.
  - cbn [fst]. constructor; [now rewrite datagram_of_full | constructor].
Qed.

(** C3, what the code does: when the target is a multiple of
    [MAX_BUFFER_SIZE] (and [sendto], when it succeeds, reports the whole
    datagram), no datagram the sender ever hands to the transport has
    [lastPacket] set, whatever acks, timeouts or errors it meets. *)
Theorem exact_multiple_has_no_last_packet (k isn : Z) (packet0 source : list byte)
  (env : list Sender.iter_env) :
  len packet0 = HEADER_SIZE + MAX_BUFFER_SIZE ->
  0 <= k ->
  MAX_BUFFER_SIZE * k < 2 ^ 64 ->
  Forall (fun e => Sender.sendto_ret e < 0
                   \/ Sender.sendto_ret e = HEADER_SIZE + MAX_BUFFER_SIZE) env ->
  Forall (fun d => lastPacket (decode_header d) = FALSE)
         (fst (Sender.rsend_loop (MAX_BUFFER_SIZE * k) env
                 (Sender.init isn packet0 source))).
Proof.
  intros Hl Hk0 Hk Henv.
  apply (rsend_loop_flag_clear k env Hk Henv _ 0).
  - exact Hl.
  - lia.
  - cbn. lia.
  - now left.
Qed.

(** *** Whole transfers *)

Lemma run_no_rounds_trace (bytesToTransfer : Z) (ss : Sender.State)
  (rs : Receiver.outcome) (in_flight : list Z) :
  Transfer.trace (Transfer.run bytesToTransfer [] ss rs in_flight) = [].
Proof.
  cbn [Transfer.run]. now destruct (Sender.totalBytesSent ss <? bytesToTransfer).
Qed.

(** The first datagram of a file that fits one chunk: header, the whole
    file, then what the buffer held. *)
Lemma single_chunk_datagram (bytesToTransfer isn : Z) (packet0 source : list byte) :
  len packet0 = HEADER_SIZE + MAX_BUFFER_SIZE ->
  len source <= MAX_BUFFER_SIZE ->
  exists h,
    sequenceNumber h = u32 isn
    /\ messageLength h = len source
    /\ Sender.datagram_of
         (Sender.prepare bytesToTransfer (Sender.init isn packet0 source))
       = encode_header h ++ source
         ++ skipn (Z.to_nat HEADER_SIZE + length source) packet0.
Proof.
  intros Hl Hs.
  assert (Hchunk : firstn (Z.to_nat MAX_BUFFER_SIZE) source = source)
    by (apply firstn_all2; unfold len in Hs; lia).
  destruct (read_chunk_packet bytesToTransfer (Sender.init isn packet0 source) Hl)
    as (h & Hlen & Hseq & _ & Hpk).
  cbn [Sender.init Sender.file Sender._sequenceNumber Sender.packet] in *.
  rewrite Hchunk in *. exists h. split; [exact Hseq|]. split; [exact Hlen|].
  rewrite datagram_of_full
    by (unfold len; rewrite prepare_packet_length; exact Hl).
  unfold Sender.prepare. cbn [Sender.init Sender.retries]. cbn [Z.eqb].
  fold (Sender.init isn packet0 source). rewrite Hpk.
  rewrite memcpy_fits
    by (unfold len, HEADER_SIZE, MAX_BUFFER_SIZE in *; lia).
  rewrite skipn_app, length_firstn.
  replace (Z.to_nat HEADER_SIZE - Nat.min (Z.to_nat HEADER_SIZE) (length packet0))%nat
    with O by (unfold len, HEADER_SIZE, MAX_BUFFER_SIZE in *; lia).
  rewrite skipn_all2
    by (rewrite length_firstn; unfold len, HEADER_SIZE, MAX_BUFFER_SIZE in *; lia).
  reflexivity.
Qed.

(** A full-size datagram overwrites the whole array [packet]. *)
Lemma received_full (stale d : list byte) :
  len d = Receiver.packetSize -> Receiver.received stale d = d.
Proof.
  intros Hd. unfold Receiver.received.
  rewrite firstn_app.
  replace (Z.to_nat Receiver.packetSize - length d)%nat with O
    by (unfold len in Hd; lia).
  rewrite firstn_O, app_nil_r. apply firstn_all2. unfold len in Hd. lia.
Qed.

Lemma run_single_round_trace (bytesToTransfer : Z) (r : Transfer.round)
  (ss : Sender.State) (rs : Receiver.outcome) (in_flight : list Z) :
  (Sender.totalBytesSent ss <? bytesToTransfer) = true ->
  Transfer.trace (Transfer.run bytesToTransfer [r] ss rs in_flight)
  = fst (Transfer.arrive (Transfer.copies r)
           (Sender.datagram_of (Sender.prepare bytesToTransfer ss)) rs).
Proof.
  intros Hgo. cbn [Transfer.run]. rewrite Hgo.
  destruct (Transfer.arrive _ _ rs) as [evs rs'].
  destruct (Sender.rsend_iter _ _ ss) as [out [ss'|code]]; cbn [Transfer.trace fst].
  - destruct (Sender.totalBytesSent ss' <? bytesToTransfer);
      cbn [Transfer.trace]; apply app_nil_r.
  - reflexivity.
Qed.

(** A fresh receiver that is handed one full-size datagram with a sequence
    number above 0 writes [messageLength] bytes of its payload. *)
Lemma fresh_receiver_writes (d : list byte) :
  len d = Receiver.packetSize ->
  0 < sequenceNumber (decode_header d) ->
  Receiver.written
    (fst (Transfer.arrive 1 d (Receiver.Pending Receiver.init)))
  = Receiver.packet_data_of d.
Proof.
  intros Hd Hseq. unfold Transfer.arrive. cbn [repeat Receiver.rrecv_loop].
  set (e := Receiver.mkRecvEnv [] (Some d) true).
  assert (Hh : Receiver.header_of e = Some (decode_header d)).
  { unfold Receiver.header_of, e. cbn [Receiver.recvfrom Receiver.stale].
    rewrite (received_full [] d Hd).
    unfold Receiver.bytesReceived_of. rewrite Hd, Z.min_id. reflexivity. }
  destruct (rrecv_iter_header e Receiver.init _ Hh eq_refl) as (d' & Hd' & _ & E).
  cbn [e Receiver.recvfrom Receiver.stale] in Hd', E. injection Hd' as <-.
  rewrite E, (received_full [] d Hd).
  cbn [Receiver.init Receiver._latestSequenceNumber].
  destruct (Z.leb_spec (sequenceNumber (decode_header d)) 0); [lia|].
  destruct (lastPacket (decode_header d) =? TRUE);
    cbn [fst Receiver.written Receiver.written_by flat_map];
    now rewrite !app_nil_r.
Qed.

(** C1, what the code does: [fread] always asks for [MAX_BUFFER_SIZE]
    bytes, whatever is left of the target.  For a source that fits one
    chunk, any target [t > 0] and a network that loses nothing (initial
    sequence number not 0), the receiver writes the whole source; so for
    [t] below the source's length its output is not the first [t] bytes. *)
Theorem single_chunk_written_whole (source packet0 : list byte) (t isn : Z) :
  len packet0 = HEADER_SIZE + MAX_BUFFER_SIZE ->
  len source <= MAX_BUFFER_SIZE ->
  0 < t ->
  0 < u32 isn ->
  Receiver.written
    (Transfer.trace
       (Transfer.transfer source t isn packet0 (Transfer.ideal 1)))
  = source
  /\ (t < len source ->
      Receiver.written
        (Transfer.trace
           (Transfer.transfer source t isn packet0 (Transfer.ideal 1)))
      <> firstn (Z.to_nat t) source).
Proof.
  intros Hl Hs Ht Hisn.
  assert (Hw : Receiver.written
                 (Transfer.trace
                    (Transfer.transfer source t isn packet0 (Transfer.ideal 1)))
               = source).
  2:{ split; [exact Hw|]. intros Hlt. rewrite Hw. intros Heq.
      apply (f_equal (@length byte)) in Heq. rewrite length_firstn in Heq.
      unfold len in Hlt. lia. }
  unfold Transfer.transfer, Transfer.ideal. cbn [repeat].
  destruct (Sender.totalBytesSent (Sender.init isn packet0 source)
            <? Sender.cap source t) eqn:Hgo.
  2:{ cbn [Transfer.run]. rewrite Hgo. cbn [Transfer.trace].
      apply Z.ltb_ge in Hgo.
      cbn [Sender.init Sender.totalBytesSent] in Hgo. unfold Sender.cap in Hgo.
      destruct (Z.ltb_spec (len source) t); [|lia].
      destruct source as [|b source']; [reflexivity|].
      unfold len in Hgo. cbn [length] in Hgo. lia. }
  rewrite run_single_round_trace by exact Hgo. cbn [Transfer.copies].
  destruct (single_chunk_datagram (Sender.cap source t) isn packet0 source Hl Hs)
    as (h & Hseq & Hlen & Hd).
  pose proof (datagram_length (Sender.cap source t)
                (Sender.init isn packet0 source) Hl) as Hdl.
  set (d := Sender.datagram_of _) in *.
  assert (Hdec : decode_header d
                 = {| sequenceNumber := u32 (sequenceNumber h);
                      messageLength := u32 (messageLength h);
                      lastPacket := lastPacket h mod 256 |})
    by (rewrite Hd; apply decode_encode_header).
  rewrite fresh_receiver_writes.
  - unfold Receiver.packet_data_of. rewrite Hdec. cbn [messageLength].
    rewrite Hlen. unfold u32. rewrite Z.mod_small
      by (unfold len, MAX_BUFFER_SIZE in *; lia).
    rewrite Hd, skipn_app, encode_header_length, Nat.sub_diag.
    rewrite skipn_all2 by (rewrite encode_header_length; lia).
    cbn [skipn app]. unfold len. rewrite Nat2Z.id.
    rewrite firstn_app, Nat.sub_diag, firstn_O, app_nil_r.
    apply firstn_all.
  - exact Hdl.
  - rewrite Hdec. cbn [sequenceNumber]. rewrite Hseq.
    unfold u32 in *. rewrite Z.mod_mod by lia. exact Hisn.
Qed.

(** [single_chunk_written_whole] for a ten-byte source and target 5. *)
Lemma single_chunk_written_whole_witness :
  Receiver.written
    (Transfer.trace
       (Transfer.transfer Scenario.ten_bytes Scenario.five 1
          Scenario.zero_buffer (Transfer.ideal 1)))
  = Scenario.ten_bytes
  /\ (Scenario.five < len Scenario.ten_bytes ->
      Receiver.written
        (Transfer.trace
           (Transfer.transfer Scenario.ten_bytes Scenario.five 1
              Scenario.zero_buffer (Transfer.ideal 1)))
      <> firstn (Z.to_nat Scenario.five) Scenario.ten_bytes).
Proof.
  apply (single_chunk_written_whole Scenario.ten_bytes Scenario.zero_buffer
           Scenario.five 1).
  - vm_compute. reflexivity.
  - vm_compute. discriminate.
  - reflexivity.
  - reflexivity.
Defined.

(** The same transfer, run: one datagram with [messageLength = 10] and
    [lastPacket = 1]; both programs finish normally. *)
Lemma over_target_run :
  map decode_header
    (Transfer.sent
       (Transfer.transfer Scenario.ten_bytes Scenario.five 1
          Scenario.zero_buffer (Transfer.ideal 1)))
  = [mkHeader 1 10 1]
  /\ Transfer.trace
       (Transfer.transfer Scenario.ten_bytes Scenario.five 1
          Scenario.zero_buffer (Transfer.ideal 1))
     = [[Receiver.SendAck 1; Receiver.FWrite Scenario.ten_bytes]]
  /\ Transfer.receiver_outcome
       (Transfer.transfer Scenario.ten_bytes Scenario.five 1
          Scenario.zero_buffer (Transfer.ideal 1))
     = Receiver.Finished
  /\ (exists st,
        Transfer.sender_outcome
          (Transfer.transfer Scenario.ten_bytes Scenario.five 1
             Scenario.zero_buffer (Transfer.ideal 1))
        = Sender.Finished st).
Proof.
  repeat split; try (vm_compute; reflexivity).
  eexists. vm_compute. reflexivity.
Qed.

(** [exact_multiple_has_no_last_packet] for a source and target of exactly
    8192 bytes whose one packet is acknowledged. *)
Lemma exact_multiple_has_no_last_packet_witness :
  Forall (fun d => lastPacket (decode_header d) = FALSE)
         (fst (Sender.rsend_loop (MAX_BUFFER_SIZE * 1) Scenario.one_chunk_acked
                 (Sender.init 1 Scenario.zero_buffer Scenario.one_chunk))).
Proof.
  apply (exact_multiple_has_no_last_packet 1 1 Scenario.zero_buffer
           Scenario.one_chunk Scenario.one_chunk_acked).
  - vm_compute. reflexivity.
  - vm_compute. discriminate.
  - vm_compute. reflexivity.
  - constructor; [right; reflexivity | constructor].
Defined.

(** The same transfer, run over a network that loses nothing: the sender
    sends one datagram, with [lastPacket = 0], and finishes; the receiver
    has written the 8192 bytes and is still waiting for a last packet. *)
Lemma exact_multiple_run :
  map decode_header
    (Transfer.sent
       (Transfer.transfer Scenario.one_chunk MAX_BUFFER_SIZE 1
          Scenario.zero_buffer (Transfer.ideal 2)))
  = [mkHeader 1 MAX_BUFFER_SIZE 0]
  /\ (exists st,
        Transfer.sender_outcome
          (Transfer.transfer Scenario.one_chunk MAX_BUFFER_SIZE 1
             Scenario.zero_buffer (Transfer.ideal 2))
        = Sender.Finished st)
  /\ Transfer.receiver_outcome
       (Transfer.transfer Scenario.one_chunk MAX_BUFFER_SIZE 1
          Scenario.zero_buffer (Transfer.ideal 2))
     = Receiver.Pending (Receiver.mkState 1 8204).
Proof.
  split; [vm_compute; reflexivity|]. split; [|vm_compute; reflexivity].
  eexists. vm_compute. reflexivity.
Qed.

Lemma cap_zero (source : list byte) : Sender.cap source 0 = 0.
Proof.
  unfold Sender.cap, len. destruct (Z.ltb_spec (Z.of_nat (length source)) 0); lia.
Qed.

(** The example of the specification, executed: 10000 bytes, target 10000, a
    network that loses nothing.  The sender emits two packets, of 8192 and 1808
    payload bytes, the second flagged [lastPacket]; the receiver's file is
    the source, and both programs finish. *)
Theorem example_ten_thousand_bytes :
  map decode_header
    (Transfer.sent
       (Transfer.transfer Scenario.ten_thousand 10000 1 Scenario.zero_buffer
          (Transfer.ideal 2)))
  = [mkHeader 1 8192 0; mkHeader 2 1808 1]
  /\ Receiver.written
       (Transfer.trace
          (Transfer.transfer Scenario.ten_thousand 10000 1 Scenario.zero_buffer
             (Transfer.ideal 2)))
     = Scenario.ten_thousand
  /\ Transfer.receiver_outcome
       (Transfer.transfer Scenario.ten_thousand 10000 1 Scenario.zero_buffer
          (Transfer.ideal 2))
     = Receiver.Finished
  /\ (exists st,
        Transfer.sender_outcome
          (Transfer.transfer Scenario.ten_thousand 10000 1 Scenario.zero_buffer
             (Transfer.ideal 2))
        = Sender.Finished st).
Proof.
  split; [vm_compute; reflexivity|].
  split; [vm_compute; reflexivity|].
  split; [vm_compute; reflexivity|].
  eexists. vm_compute. reflexivity.
Qed.

(** The same file sent by a sender whose [rand()] returned 0 and cut to a
    single three-byte packet: the packet is acknowledged, the sender
    finishes, and the receiver has written nothing. *)
Lemma isn_zero_run :
  Receiver.rrecv_iter Scenario.packet_zero Receiver.init
  = ([Receiver.SendAck 0], Receiver.Continue Receiver.init)
  /\ Transfer.trace
       (Transfer.transfer Scenario.abc 3 0 Scenario.zero_buffer
          (Transfer.ideal 1))
     = [[Receiver.SendAck 0]]
  /\ (exists st,
        Transfer.sender_outcome
          (Transfer.transfer Scenario.abc 3 0 Scenario.zero_buffer
             (Transfer.ideal 1))
        = Sender.Finished st).
Proof.
  split; [vm_compute; reflexivity|].
  split; [vm_compute; reflexivity|].
  eexists. vm_compute. reflexivity.
Qed.

(** *** Stop-and-wait over a lossy network *)

(** The payload the receiver takes out of a datagram laid out as header,
    chunk, rest. *)
Lemma packet_data_of_layout (h : Header) (chunk rest : list byte) :
  messageLength h = len chunk ->
  len chunk <= MAX_BUFFER_SIZE ->
  Receiver.packet_data_of (encode_header h ++ chunk ++ rest) = chunk.
Proof.
  intros Hm Hc. unfold Receiver.packet_data_of.
  rewrite decode_encode_header. cbn [messageLength]. rewrite Hm.
  unfold u32. rewrite Z.mod_small by (unfold len, MAX_BUFFER_SIZE in *; lia).
  rewrite skipn_app, encode_header_length, Nat.sub_diag.
  rewrite skipn_all2 by (rewrite encode_header_length; lia).
  cbn [skipn app]. unfold len. rewrite Nat2Z.id.
  rewrite firstn_app, Nat.sub_diag, firstn_O, app_nil_r.
  apply firstn_all.
Qed.

(** The buffer after [read_chunk], laid out. *)
Lemma read_chunk_layout (bytesToTransfer : Z) (st : Sender.State) :
  len (Sender.packet st) = HEADER_SIZE + MAX_BUFFER_SIZE ->
  exists h,
    messageLength h = len (firstn (Z.to_nat MAX_BUFFER_SIZE) (Sender.file st))
    /\ sequenceNumber h = u32 (Sender._sequenceNumber st)
    /\ lastPacket h
       = (if u64 (Sender.totalBytesSent st + MAX_BUFFER_SIZE) >? bytesToTransfer
          then TRUE else FALSE)
    /\ Sender.packet (Sender.read_chunk bytesToTransfer st)
       = encode_header h
         ++ firstn (Z.to_nat MAX_BUFFER_SIZE) (Sender.file st)
         ++ skipn (Z.to_nat HEADER_SIZE
                   + length (firstn (Z.to_nat MAX_BUFFER_SIZE) (Sender.file st)))
              (Sender.packet st).
Proof.
  intros Hl.
  pose proof (chunk_length (Sender.file st)) as Hc.
  destruct (read_chunk_packet bytesToTransfer st Hl)
    as (h & Hlen & Hseq & Hlast & Hpk).
  exists h. repeat split; try assumption.
  rewrite Hpk. f_equal.
  rewrite memcpy_fits
    by (unfold len, HEADER_SIZE, MAX_BUFFER_SIZE in *; lia).
  rewrite skipn_app, length_firstn.
  replace (Z.to_nat HEADER_SIZE
           - Nat.min (Z.to_nat HEADER_SIZE) (length (Sender.packet st)))%nat
    with O by (unfold len, HEADER_SIZE, MAX_BUFFER_SIZE in *; lia).
  rewrite skipn_all2
    by (rewrite length_firstn; unfold len, HEADER_SIZE, MAX_BUFFER_SIZE in *; lia).
  reflexivity.
Qed.

(** One iteration of the receiver on a full-size datagram whose ack goes
    out. *)
Lemma arrival_iter (d : list byte) (st : Receiver.State) :
  len d = Receiver.packetSize ->
  Receiver.rrecv_iter (Receiver.mkRecvEnv [] (Some d) true) st
  = if sequenceNumber (decode_header d) <=? Receiver._latestSequenceNumber st
    then ([Receiver.SendAck (sequenceNumber (decode_header d))],
          Receiver.Continue st)
    else if lastPacket (decode_header d) =? TRUE
    then ([Receiver.SendAck (sequenceNumber (decode_header d));
           Receiver.FWrite (Receiver.packet_data_of d)], Receiver.Break)
    else ([Receiver.SendAck (sequenceNumber (decode_header d));
           Receiver.FWrite (Receiver.packet_data_of d)],
          Receiver.Continue
            {| Receiver._latestSequenceNumber := sequenceNumber (decode_header d);
               Receiver.bytesWritten :=
                 u64 (Receiver.bytesWritten st + Receiver.packetSize) |}).
Proof.
  intros Hd. set (e := Receiver.mkRecvEnv [] (Some d) true).
  assert (Hh : Receiver.header_of e = Some (decode_header d)).
  { unfold Receiver.header_of, e. cbn [Receiver.recvfrom Receiver.stale].
    rewrite (received_full [] d Hd).
    unfold Receiver.bytesReceived_of. rewrite Hd, Z.min_id. reflexivity. }
  destruct (rrecv_iter_header e st _ Hh eq_refl) as (d' & Hd' & _ & E).
  cbn [e Receiver.recvfrom Receiver.stale] in Hd', E. injection Hd' as <-.
  rewrite E, (received_full [] d Hd).
  unfold Receiver.bytesReceived_of. rewrite Hd, Z.min_id. reflexivity.
Qed.

(** Copies of a datagram that is not above the highest accepted number
    are acknowledged, one by one, and change nothing. *)
Lemma arrive_duplicates (n : nat) (d : list byte) (st : Receiver.State) :
  len d = Receiver.packetSize ->
  sequenceNumber (decode_header d) <= Receiver._latestSequenceNumber st ->
  Transfer.arrive n d (Receiver.Pending st)
  = (repeat [Receiver.SendAck (sequenceNumber (decode_header d))] n,
     Receiver.Pending st).
Proof.
  intros Hd Hle. unfold Transfer.arrive.
  induction n as [|n IH]; [reflexivity|].
  cbn [repeat Receiver.rrecv_loop]. rewrite (arrival_iter d st Hd).
  destruct (Z.leb_spec (sequenceNumber (decode_header d))
              (Receiver._latestSequenceNumber st)); [|lia].
  now rewrite IH.
Qed.

(** Copies of a datagram above the highest accepted number: the first is
    written, and either ends the loop (last packet) or makes the others
    duplicates. *)
Lemma arrive_new (n : nat) (d : list byte) (st : Receiver.State) :
  len d = Receiver.packetSize ->
  Receiver._latestSequenceNumber st < sequenceNumber (decode_header d) ->
  Transfer.arrive (S n) d (Receiver.Pending st)
  = if lastPacket (decode_header d) =? TRUE
    then ([[Receiver.SendAck (sequenceNumber (decode_header d));
            Receiver.FWrite (Receiver.packet_data_of d)]],
          Receiver.Finished)
    else ([Receiver.SendAck (sequenceNumber (decode_header d));
           Receiver.FWrite (Receiver.packet_data_of d)]
          :: repeat [Receiver.SendAck (sequenceNumber (decode_header d))] n,
          Receiver.Pending
            {| Receiver._latestSequenceNumber := sequenceNumber (decode_header d);
               Receiver.bytesWritten :=
                 u64 (Receiver.bytesWritten st + Receiver.packetSize) |}).
Proof.
  intros Hd Hlt.
  pose proof (arrive_duplicates n d
                {| Receiver._latestSequenceNumber := sequenceNumber (decode_header d);
                   Receiver.bytesWritten :=
                     u64 (Receiver.bytesWritten st + Receiver.packetSize) |}
                Hd (Z.le_refl _)) as Hdup.
  unfold Transfer.arrive in *.
  cbn [repeat Receiver.rrecv_loop]. rewrite (arrival_iter d st Hd).
  destruct (Z.leb_spec (sequenceNumber (decode_header d))
              (Receiver._latestSequenceNumber st)); [lia|].
  destruct (lastPacket (decode_header d) =? TRUE); [reflexivity|].
  now rewrite Hdup.
Qed.

(** The three ways [run] goes on. *)
Lemma run_done (bytesToTransfer : Z) (net : list Transfer.round)
  (ss : Sender.State) (rs : Receiver.outcome) (in_flight : list Z) :
  (Sender.totalBytesSent ss <? bytesToTransfer) = false ->
  Transfer.run bytesToTransfer net ss rs in_flight
  = Transfer.mkResult [] [] (Sender.Finished ss) rs.
Proof.
  intros Hgo. destruct net; cbn [Transfer.run]; now rewrite Hgo.
Qed.

Lemma run_round (bytesToTransfer : Z) (r : Transfer.round)
  (net : list Transfer.round) (ss : Sender.State) (rs rs' : Receiver.outcome)
  (in_flight : list Z) (evs : list (list Receiver.event)) :
  (Sender.totalBytesSent ss <? bytesToTransfer) = true ->
  Transfer.arrive (Transfer.copies r)
    (Sender.datagram_of (Sender.prepare bytesToTransfer ss)) rs = (evs, rs') ->
  Transfer.run bytesToTransfer (r :: net) ss rs in_flight
  = match
      Sender.checkAck
        (Transfer.next_ack
           (skipn (Transfer.acks_lost r)
              (in_flight ++ flat_map Receiver.acks_of evs)))
        (len (Sender.datagram_of (Sender.prepare bytesToTransfer ss)))
        (Sender.prepare bytesToTransfer ss)
    with
    | Sender.Next ss' =>
        Transfer.mkResult
          ([Sender.datagram_of (Sender.prepare bytesToTransfer ss)]
           ++ Transfer.sent
                (Transfer.run bytesToTransfer net ss' rs'
                   (tl (skipn (Transfer.acks_lost r)
                          (in_flight ++ flat_map Receiver.acks_of evs)))))
          (evs
           ++ Transfer.trace
                (Transfer.run bytesToTransfer net ss' rs'
                   (tl (skipn (Transfer.acks_lost r)
                          (in_flight ++ flat_map Receiver.acks_of evs)))))
          (Transfer.sender_outcome
             (Transfer.run bytesToTransfer net ss' rs'
                (tl (skipn (Transfer.acks_lost r)
                       (in_flight ++ flat_map Receiver.acks_of evs)))))
          (Transfer.receiver_outcome
             (Transfer.run bytesToTransfer net ss' rs'
                (tl (skipn (Transfer.acks_lost r)
                       (in_flight ++ flat_map Receiver.acks_of evs)))))
    | Sender.Exit code =>
        Transfer.mkResult
          [Sender.datagram_of (Sender.prepare bytesToTransfer ss)] evs
          (Sender.Exited code) rs'
    end.
Proof.
  intros Hgo Harr. cbn [Transfer.run]. rewrite Hgo, Harr.
  unfold Sender.rsend_iter.
  cbn [Sender.setsockopt_ok Sender.sendto_ret Sender.ack_recvfrom negb].
  destruct (Z.ltb_spec
              (len (Sender.datagram_of (Sender.prepare bytesToTransfer ss))) 0)
    as [Hneg|_]; [unfold len in Hneg; lia|].
  now destruct (Sender.checkAck _ _ _).
Qed.


Section StopAndWait.

Variables (source : list byte) (isn c : Z).
Hypothesis isn_pos : 0 < isn.
Hypothesis seq_fits : isn + c / MAX_BUFFER_SIZE + 2 < 2 ^ 31.
Hypothesis target_nonneg : 0 <= c.

Local Abbreviation chunk := (Integrity.chunk source).
Local Abbreviation is_packet := (Integrity.is_packet source isn c).
Local Abbreviation sender_inv := (Integrity.sender_inv source isn c).
Local Abbreviation receiver_inv := (Integrity.receiver_inv isn c).
Local Abbreviation acks_inv := (Integrity.acks_inv isn).

Lemma index_fits (j : nat) :
  MAX_BUFFER_SIZE * Z.of_nat j < c ->
  0 < isn + Z.of_nat j /\ isn + Z.of_nat j + 1 < 2 ^ 31
  /\ MAX_BUFFER_SIZE * (Z.of_nat j + 1) < 2 ^ 64.
Proof.
  intros Hj.
  assert (Z.of_nat j <= c / MAX_BUFFER_SIZE)
    by (apply Z.div_le_lower_bound; unfold MAX_BUFFER_SIZE in *; lia).
  unfold MAX_BUFFER_SIZE in *. lia.
Qed.

Lemma chunk_step (j : nat) :
  firstn (Z.to_nat MAX_BUFFER_SIZE * (j + 1)) source
  = firstn (Z.to_nat MAX_BUFFER_SIZE * j) source ++ chunk j.
Proof.
  unfold Integrity.chunk.
  rewrite <- (firstn_skipn (Z.to_nat MAX_BUFFER_SIZE * j) source) at 1.
  rewrite firstn_app, firstn_firstn.
  replace (Nat.min (Z.to_nat MAX_BUFFER_SIZE * (j + 1))
                   (Z.to_nat MAX_BUFFER_SIZE * j))
    with (Z.to_nat MAX_BUFFER_SIZE * j)%nat by lia.
  f_equal.
  destruct (Nat.le_gt_cases (Z.to_nat MAX_BUFFER_SIZE * j) (length source))
    as [Hle|Hgt].
  - rewrite length_firstn. f_equal. lia.
  - rewrite (skipn_all2 source) by lia. now rewrite !firstn_nil.
Qed.

Lemma prepare_is_packet (j : nat) (st : Sender.State) (rounds : nat) :
  sender_inv j st rounds ->
  MAX_BUFFER_SIZE * Z.of_nat j < c ->
  is_packet j (Sender.packet (Sender.prepare c st))
  /\ Sender.file (Sender.prepare c st)
     = skipn (Z.to_nat MAX_BUFFER_SIZE * (j + 1)) source.
Proof.
  intros (Hseq & Htot & Hlen & Hr0 & Hrb & Hj & Hbuf) Hlt.
  destruct (index_fits j Hlt) as (Hs0 & Hs1 & Ht1).
  unfold Sender.prepare.
  destruct (Z.eqb_spec (Sender.retries st) 0) as [Hz|Hnz].
  2:{ destruct Hbuf as [[Hz _]|(_ & Hp & Hf)]; [contradiction|now split]. }
  destruct Hbuf as [[_ Hf]|[Hnz _]]; [|contradiction].
  destruct (read_chunk_layout c st Hlen) as (h & Hml & Hsq & Hlast & Hpk).
  pose proof (chunk_length (Sender.file st)) as Hcl.
  split.
  - unfold Integrity.is_packet.
    rewrite Hpk, decode_encode_header. cbn [sequenceNumber lastPacket].
    repeat split.
    + rewrite <- Hpk. unfold len. rewrite read_chunk_packet_length. exact Hlen.
    + rewrite Hsq, Hseq. unfold u32.
      rewrite !Z.mod_small; try lia.
      rewrite Z.mod_small; lia.
    + rewrite packet_data_of_layout by (try exact Hml; apply Hcl).
      unfold Integrity.chunk. now rewrite Hf.
    + rewrite Hlast, Htot.
      replace (u64 (MAX_BUFFER_SIZE * Z.of_nat j + MAX_BUFFER_SIZE))
        with (MAX_BUFFER_SIZE * (Z.of_nat j + 1))
        by (unfold u64; rewrite Z.mod_small; unfold MAX_BUFFER_SIZE in *; lia).
      destruct (Z.gtb_spec (MAX_BUFFER_SIZE * (Z.of_nat j + 1)) c);
        destruct (Z.ltb_spec c (MAX_BUFFER_SIZE * (Z.of_nat j + 1)));
        try lia; reflexivity.
  - unfold Sender.read_chunk. cbn [Sender.file]. rewrite Hf, skipn_skipn.
    f_equal. lia.
Qed.


Lemma checkAck_match (j : nat) (st : Sender.State) (rounds : nat) :
  sender_inv j st (S rounds) ->
  MAX_BUFFER_SIZE * Z.of_nat j < c ->
  exists st',
    Sender.checkAck (Sender.RecvAck (isn + Z.of_nat j))
      (HEADER_SIZE + MAX_BUFFER_SIZE) (Sender.prepare c st)
    = Sender.Next st'
    /\ sender_inv (j + 1) st' rounds.
Proof.
  intros Hinv Hlt.
  destruct (prepare_is_packet j st _ Hinv Hlt) as [Hp Hf].
  destruct (prepare_counters c st) as (Hseq' & Htot' & Hret' & _).
  destruct (index_fits j Hlt) as (Hs0 & Hs1 & Ht1).
  destruct Hinv as (Hseq & Htot & Hlen & Hr0 & Hrb & Hj & _).
  eexists. unfold Sender.checkAck. rewrite Hseq', Hseq.
  unfold u32 at 1. rewrite (Z.mod_small (isn + Z.of_nat j)) by lia.
  rewrite Z.eqb_refl. cbn [negb]. split; [reflexivity|].
  unfold Integrity.sender_inv. cbn [Sender._sequenceNumber Sender.totalBytesSent
    Sender.retries Sender.packet Sender.file].
  rewrite Htot', Htot, s32_small by lia.
  repeat split; try lia.
  - change (u64 (HEADER_SIZE + MAX_BUFFER_SIZE - HEADER_SIZE))
      with MAX_BUFFER_SIZE.
    unfold u64. rewrite Z.mod_small by (unfold MAX_BUFFER_SIZE in *; lia).
    unfold MAX_BUFFER_SIZE. lia.
  - unfold len. rewrite prepare_packet_length. exact Hlen.
  - left. split; [reflexivity|]. exact Hf.
Qed.


Lemma written_acks_only (a : Z) (n : nat) :
  Receiver.written (repeat [Receiver.SendAck a] n) = [].
Proof. induction n as [|n IH]; [reflexivity|exact IH]. Qed.




End StopAndWait.

Lemma cap_nonneg (source : list byte) (t : Z) : 0 <= t -> 0 <= Sender.cap source t.
Proof.
  intros Ht. unfold Sender.cap, len.
  destruct (Z.of_nat (length source) <? t); lia.
Qed.



(** The same lossy run, executed: four datagrams leave the sender (packet
    1 twice, packet 2 twice), the receiver writes each chunk once, its
    file is the source, and both programs finish. *)
Lemma lossy_run :
  map (fun d => sequenceNumber (decode_header d))
    (Transfer.sent
       (Transfer.transfer Scenario.ten_thousand 10000 1
          Scenario.zero_buffer Scenario.lossy))
  = [1; 1; 2; 2]
  /\ map Receiver.fwrites
       (Transfer.trace
          (Transfer.transfer Scenario.ten_thousand 10000 1
             Scenario.zero_buffer Scenario.lossy))
     = [1%nat; O; O; 1%nat]
  /\ Receiver.written
       (Transfer.trace
          (Transfer.transfer Scenario.ten_thousand 10000 1
             Scenario.zero_buffer Scenario.lossy))
     = Scenario.ten_thousand
  /\ Transfer.receiver_outcome
       (Transfer.transfer Scenario.ten_thousand 10000 1
          Scenario.zero_buffer Scenario.lossy)
     = Receiver.Finished
  /\ (exists st,
        Transfer.sender_outcome
          (Transfer.transfer Scenario.ten_thousand 10000 1
             Scenario.zero_buffer Scenario.lossy)
        = Sender.Finished st).
Proof.
  split; [vm_compute; reflexivity|].
  split; [vm_compute; reflexivity|].
  split; [vm_compute; reflexivity|].
  split; [vm_compute; reflexivity|].
  eexists. vm_compute. reflexivity.
Qed.

(** *** A network that loses nothing *)

Lemma checkAck_match_fresh (v ret : Z) (st st' : Sender.State) :
  v = u32 (Sender._sequenceNumber st) ->
  Sender.checkAck (Sender.RecvAck v) ret st = Sender.Next st' ->
  Sender.retries st' = 0.
Proof.
  intros -> E. unfold Sender.checkAck in E. rewrite Z.eqb_refl in E.
  cbn [negb] in E. injection E as <-. reflexivity.
Qed.

Lemma sender_inv_rounds (source : list byte) (isn c : Z) (j : nat)
  (st : Sender.State) (rounds rounds' : nat) :
  Integrity.sender_inv source isn c j st rounds ->
  Sender.retries st = 0 ->
  Z.of_nat rounds' < 2 ^ 31 ->
  Integrity.sender_inv source isn c j st rounds'.
Proof.
  intros (Hseq & Htot & Hlen & Hr0 & Hrb & Hj & Hbuf) Hz Hr.
  unfold Integrity.sender_inv. rewrite Hz in *.
  split; [exact Hseq|]. split; [exact Htot|]. split; [exact Hlen|].
  split; [lia|]. split; [lia|]. split; [exact Hj|]. exact Hbuf.
Qed.

Section LossFree.

Variables (source : list byte) (isn c : Z).
Hypothesis isn_pos : 0 < isn.
Hypothesis seq_fits : isn + c / MAX_BUFFER_SIZE + 2 < 2 ^ 31.

(** From a sender that has had [j] chunks acknowledged and a receiver that
    has written them, [k] more rounds end the transfer when [k] more
    chunks cover the target. *)
Lemma ideal_run (n : nat) :
  forall (k j : nat) ss st,
    Integrity.sender_inv source isn c j ss 1 ->
    Sender.retries ss = 0 ->
    Receiver._latestSequenceNumber st
    = (if Nat.eqb j 0 then 0 else isn + Z.of_nat j - 1) ->
    MAX_BUFFER_SIZE * (Z.of_nat (j + k) - 1) < c
      <= MAX_BUFFER_SIZE * Z.of_nat (j + k) ->
    (k <= n)%nat ->
    let res := Transfer.run c (Transfer.ideal n) ss (Receiver.Pending st) [] in
    (exists ss',
        Transfer.sender_outcome res = Sender.Finished ss'
        /\ Sender.totalBytesSent ss' = MAX_BUFFER_SIZE * Z.of_nat (j + k))
    /\ map (fun d => sequenceNumber (decode_header d)) (Transfer.sent res)
       = map (fun i => isn + Z.of_nat (j + i)) (seq 0 k)
    /\ firstn (Z.to_nat MAX_BUFFER_SIZE * j) source
       ++ Receiver.written (Transfer.trace res)
       = firstn (Z.to_nat MAX_BUFFER_SIZE * (j + k)) source
    /\ (Transfer.receiver_outcome res = Receiver.Finished
        <-> (0 < k)%nat /\ c < MAX_BUFFER_SIZE * Z.of_nat (j + k)).
Proof.
  induction n as [|n IH]; intros k j ss st Hs Hz Hlatest Hk Hkn res;
    destruct (Sender.totalBytesSent ss <? c) eqn:Hgo.
  - (* no round left, but the loop wants one: impossible *)
    exfalso. apply Z.ltb_lt in Hgo.
    destruct Hs as (_ & Htot & _). rewrite Htot in Hgo.
    assert (k = O) by lia. subst k. rewrite Nat.add_0_r in Hk. lia.
  - apply Z.ltb_ge in Hgo. pose proof Hs as (_ & Htot & _).
    rewrite Htot in Hgo.
    assert (k = O) by (unfold MAX_BUFFER_SIZE in *; lia). subst k.
    subst res. rewrite run_done by (apply Z.ltb_ge; lia).
    cbn [Transfer.sender_outcome Transfer.sent Transfer.trace
         Transfer.receiver_outcome map seq].
    rewrite Nat.add_0_r, app_nil_r.
    split; [exists ss; split; [reflexivity | exact Htot]|].
    split; [reflexivity|]. split; [reflexivity|].
    split; [discriminate | intros [H _]; lia].
  - (* one round *)
    pose proof Hs as (Hseq & Htot & Hlen & _).
    assert (Hlt : MAX_BUFFER_SIZE * Z.of_nat j < c)
      by (apply Z.ltb_lt in Hgo; now rewrite <- Htot).
    destruct (index_fits isn c isn_pos seq_fits j Hlt) as (Hs0 & Hs1 & Ht1).
    destruct k as [|k]; [rewrite Nat.add_0_r in Hk; lia|].
    destruct (prepare_is_packet source isn c isn_pos seq_fits j ss _ Hs Hlt)
      as [Hp _].
    pose proof Hp as (Hplen & Hpseq & Hpdata & Hpflag).
    assert (Hsize : len (Sender.packet (Sender.prepare c ss))
                    = Receiver.packetSize)
      by (rewrite Hplen; unfold Receiver.packetSize; lia).
    assert (Hnew : Receiver._latestSequenceNumber st
                   < sequenceNumber
                       (decode_header (Sender.packet (Sender.prepare c ss))))
      by (rewrite Hpseq, Hlatest; destruct (Nat.eqb j 0); lia).
    pose proof (arrive_new 0 _ st Hsize Hnew) as Harr.
    rewrite Hpflag, Hpseq, Hpdata in Harr. cbn [repeat] in Harr.
    destruct (checkAck_match source isn c isn_pos seq_fits j ss 0 Hs Hlt)
      as (ss' & E & Hs').
    assert (Hz' : Sender.retries ss' = 0).
    { apply (checkAck_match_fresh _ _ _ _ (eq_refl) E) || idtac.
      refine (checkAck_match_fresh _ _ _ _ _ E).
      destruct (prepare_counters c ss) as (-> & _). rewrite Hseq.
      unfold u32. rewrite Z.mod_small; lia. }
    pose proof (sender_inv_rounds source isn c (j + 1) ss' 0 1 Hs' Hz'
                  ltac:(cbn; lia)) as Hs'1.
    pose proof Hs' as (_ & Htot' & _).
    subst res. cbn [Transfer.ideal repeat].
    fold (Transfer.ideal n).
    destruct (Z.ltb_spec c (MAX_BUFFER_SIZE * (Z.of_nat j + 1))) as [Hl|Hl].
    + (* the last packet *)
      assert (k = O) by (unfold MAX_BUFFER_SIZE in *; lia). subst k.
      rewrite (run_round c (Transfer.mkRound 1 0) (Transfer.ideal n) ss
                 (Receiver.Pending st) _ [] _ Hgo
                 ltac:(rewrite (datagram_of_full _ Hplen); exact Harr)).
      cbn [Transfer.acks_lost Transfer.copies app flat_map Receiver.acks_of
           skipn Transfer.next_ack tl].
      rewrite (datagram_of_full _ Hplen), Hplen, E.
      rewrite run_done by (apply Z.ltb_ge; rewrite Htot'; lia).
      cbn [Transfer.sender_outcome Transfer.sent Transfer.trace
           Transfer.receiver_outcome map seq app].
      split; [exists ss'; split; [reflexivity | rewrite Htot'; f_equal; lia]|].
      split; [rewrite Hpseq, Nat.add_0_r; reflexivity|].
      split.
      { cbn [Receiver.written Receiver.written_by flat_map].
        rewrite !app_nil_r. symmetry. apply chunk_step. }
      split; [intros _; split; [lia | lia] | reflexivity].
    + rewrite (run_round c (Transfer.mkRound 1 0) (Transfer.ideal n) ss
                 (Receiver.Pending st) _ [] _ Hgo
                 ltac:(rewrite (datagram_of_full _ Hplen); exact Harr)).
      cbn [Transfer.acks_lost Transfer.copies app flat_map Receiver.acks_of
           skipn Transfer.next_ack tl].
      rewrite (datagram_of_full _ Hplen), Hplen, E.
      cbn [Transfer.sender_outcome Transfer.sent Transfer.trace
           Transfer.receiver_outcome].
      specialize (IH k (j + 1)%nat ss'
                    {| Receiver._latestSequenceNumber := isn + Z.of_nat j;
                       Receiver.bytesWritten :=
                         u64 (Receiver.bytesWritten st + Receiver.packetSize) |}
                    Hs'1 Hz').
      cbn [Receiver._latestSequenceNumber] in IH.
      replace (Nat.eqb (j + 1) 0) with false in IH
        by (symmetry; apply Nat.eqb_neq; lia).
      replace (j + 1 + k)%nat with (j + S k)%nat in IH by lia.
      destruct (IH ltac:(lia) Hk ltac:(lia))
        as ((ss2 & Hfin & Htot2) & Hseqs & Hw & Hrecv).
      split; [exists ss2; split; assumption|].
      split.
      { cbn [map seq app]. rewrite Hpseq, Nat.add_0_r. f_equal.
        rewrite Hseqs, <- seq_shift, map_map. apply map_ext.
        intros i. f_equal. lia. }
      split.
      { change (Receiver.written (?x :: ?l))
          with (Receiver.written_by x ++ Receiver.written l).
        cbn [Receiver.written_by flat_map app]. rewrite app_nil_r.
        rewrite <- Hw, chunk_step, <- app_assoc. reflexivity. }
      rewrite Hrecv. unfold MAX_BUFFER_SIZE in *.
      split; intros [H1 H2]; split; lia.
  - (* the loop is over before the rounds are *)
    apply Z.ltb_ge in Hgo. pose proof Hs as (_ & Htot & _).
    rewrite Htot in Hgo.
    assert (k = O) by (unfold MAX_BUFFER_SIZE in *; lia). subst k.
    subst res. rewrite run_done by (apply Z.ltb_ge; lia).
    cbn [Transfer.sender_outcome Transfer.sent Transfer.trace
         Transfer.receiver_outcome map seq].
    rewrite Nat.add_0_r, app_nil_r.
    split; [exists ss; split; [reflexivity | exact Htot]|].
    split; [reflexivity|]. split; [reflexivity|].
    split; [discriminate | intros [H _]; lia].
Qed.




End LossFree.

Lemma initial_invariant (source packet0 : list byte) (isn c : Z) (rounds : nat) :
  len packet0 = HEADER_SIZE + MAX_BUFFER_SIZE ->
  Z.of_nat rounds < 2 ^ 31 ->
  0 <= c ->
  Integrity.sender_inv source isn c 0 (Sender.init isn packet0 source) rounds
  /\ Integrity.receiver_inv isn c 0 0 (Receiver.Pending Receiver.init)
  /\ Integrity.acks_inv isn 0 0 [].
Proof.
  intros Hl Hr Hc. split; [|split].
  - unfold Integrity.sender_inv. cbn [Sender.init Sender._sequenceNumber
      Sender.totalBytesSent Sender.packet Sender.retries Sender.file].
    rewrite Nat.mul_0_r. cbn [skipn].
    repeat split; try lia; try assumption. left. now split.
  - split; [lia|]. split; [lia|]. left. exists Receiver.init.
    split; [reflexivity|]. cbn. split; lia.
  - split; [constructor | intros []].
Qed.

(** X5: a network that loses nothing.  The handshake took one attempt
    and left the sender with an initial sequence number [isn > 0]; no
    datagram waits at the sender's socket when its loop starts, and the
    receiver's [recvfrom] waits for each packet.  When [k] chunks cover
    the capped target and the network delivers every datagram once for at
    least [k] rounds, the sender's loop finishes after exactly [k]
    datagrams, numbered [isn], [isn + 1], ..., each sent once; the
    receiver's file is the first [k] chunks of the source (the source
    itself when the target is all of it); and the receiver leaves its
    loop exactly when the target is not a multiple of [MAX_BUFFER_SIZE]. *)
Theorem loss_free_transfer_completes (source packet0 : list byte) (t isn : Z)
  (k n : nat) :
  len packet0 = HEADER_SIZE + MAX_BUFFER_SIZE ->
  0 <= t ->
  0 < isn ->
  isn + Sender.cap source t / MAX_BUFFER_SIZE + 2 < 2 ^ 31 ->
  MAX_BUFFER_SIZE * (Z.of_nat k - 1) < Sender.cap source t
    <= MAX_BUFFER_SIZE * Z.of_nat k ->
  (k <= n)%nat ->
  (exists st,
      Transfer.sender_outcome
        (Transfer.transfer source t isn packet0 (Transfer.ideal n))
      = Sender.Finished st
      /\ Sender.totalBytesSent st = MAX_BUFFER_SIZE * Z.of_nat k)
  /\ map (fun d => sequenceNumber (decode_header d))
       (Transfer.sent
          (Transfer.transfer source t isn packet0 (Transfer.ideal n)))
     = map (fun i => isn + Z.of_nat i) (seq 0 k)
  /\ Receiver.written
       (Transfer.trace
          (Transfer.transfer source t isn packet0 (Transfer.ideal n)))
     = firstn (Z.to_nat MAX_BUFFER_SIZE * k) source
  /\ (len source <= t ->
      Receiver.written
        (Transfer.trace
           (Transfer.transfer source t isn packet0 (Transfer.ideal n)))
      = source)
  /\ (Transfer.receiver_outcome
        (Transfer.transfer source t isn packet0 (Transfer.ideal n))
      = Receiver.Finished
      <-> Sender.cap source t < MAX_BUFFER_SIZE * Z.of_nat k).
Proof.
  intros Hl Ht Hisn Hseq Hk Hkn.
  pose proof (cap_nonneg source t Ht) as Hc.
  destruct (initial_invariant source packet0 isn (Sender.cap source t) 1 Hl
              ltac:(cbn; lia) Hc) as (Hs & _).
  destruct (ideal_run source isn (Sender.cap source t) Hisn Hseq n k O
              (Sender.init isn packet0 source) Receiver.init Hs eq_refl
              eq_refl Hk Hkn) as (Hfin & Hseqs & Hw & Hrecv).
  fold (Transfer.transfer source t isn packet0 (Transfer.ideal n))
    in Hfin, Hseqs, Hw, Hrecv.
  rewrite Nat.mul_0_r in Hw. cbn [firstn app Nat.add] in Hw, Hfin, Hrecv.
  split; [exact Hfin|]. split; [exact Hseqs|]. split; [exact Hw|]. split.
  - intros Hwhole. rewrite Hw. apply firstn_all2.
    assert (Sender.cap source t = len source)
      by (unfold Sender.cap; destruct (Z.ltb_spec (len source) t); lia).
    unfold len, MAX_BUFFER_SIZE in *. lia.
  - rewrite Hrecv. unfold MAX_BUFFER_SIZE in *. split; [tauto|].
    intros H. split; [lia | exact H].
Qed.

(** [loss_free_transfer_completes] for the 10000-byte source: two chunks,
    three rounds at hand. *)
Lemma loss_free_transfer_completes_witness :
  (exists st,
      Transfer.sender_outcome
        (Transfer.transfer Scenario.ten_thousand 10000 1 Scenario.zero_buffer
           (Transfer.ideal 3))
      = Sender.Finished st
      /\ Sender.totalBytesSent st = MAX_BUFFER_SIZE * Z.of_nat 2)
  /\ map (fun d => sequenceNumber (decode_header d))
       (Transfer.sent
          (Transfer.transfer Scenario.ten_thousand 10000 1
             Scenario.zero_buffer (Transfer.ideal 3)))
     = map (fun i => 1 + Z.of_nat i) (seq 0 2)
  /\ Receiver.written
       (Transfer.trace
          (Transfer.transfer Scenario.ten_thousand 10000 1
             Scenario.zero_buffer (Transfer.ideal 3)))
     = firstn (Z.to_nat MAX_BUFFER_SIZE * 2) Scenario.ten_thousand
  /\ (len Scenario.ten_thousand <= 10000 ->
      Receiver.written
        (Transfer.trace
           (Transfer.transfer Scenario.ten_thousand 10000 1
              Scenario.zero_buffer (Transfer.ideal 3)))
      = Scenario.ten_thousand)
  /\ (Transfer.receiver_outcome
        (Transfer.transfer Scenario.ten_thousand 10000 1 Scenario.zero_buffer
           (Transfer.ideal 3))
      = Receiver.Finished
      <-> Sender.cap Scenario.ten_thousand 10000
          < MAX_BUFFER_SIZE * Z.of_nat 2).
Proof.
  apply (loss_free_transfer_completes Scenario.ten_thousand
           Scenario.zero_buffer 10000 1 2 3).
  - vm_compute. reflexivity.
  - vm_compute. discriminate.
  - reflexivity.
  - vm_compute. reflexivity.
  - vm_compute. split; [reflexivity | discriminate].
  - lia.
Defined.



(** That run, executed: the sender sends the packet four times and exits
    with 1; the receiver wrote the file at the first arrival and left its
    loop. *)
Lemma last_ack_lost_run :
  Transfer.sender_outcome
    (Transfer.transfer Scenario.abc 3 1 Scenario.zero_buffer
       Scenario.last_ack_lost)
  = Sender.Exited 1
  /\ length
       (Transfer.sent
          (Transfer.transfer Scenario.abc 3 1 Scenario.zero_buffer
             Scenario.last_ack_lost))
     = 4%nat
  /\ Transfer.trace
       (Transfer.transfer Scenario.abc 3 1 Scenario.zero_buffer
          Scenario.last_ack_lost)
     = [[Receiver.SendAck 1; Receiver.FWrite Scenario.abc]]
  /\ Transfer.receiver_outcome
       (Transfer.transfer Scenario.abc 3 1 Scenario.zero_buffer
          Scenario.last_ack_lost)
     = Receiver.Finished.
Proof.
  split; [vm_compute; reflexivity|].
  split; [vm_compute; reflexivity|].
  split; vm_compute; reflexivity.
Qed.

(** Why nothing may wait at the sender's socket.  A responder that sent
    its SynAck twice leaves the second one there, and its first field is
    the number both sides drew, here 1.  When packet 1 is then lost,
    [checkAck] reads that SynAck as the ack of packet 1: the sender goes
    on to packet 2 and finishes, and the receiver leaves its loop with a
    file that lacks the first chunk. *)
Lemma queued_syn_ack_run :
  (exists st,
      Transfer.sender_outcome
        (Transfer.run 10000 [Transfer.packet_lost; Transfer.mkRound 1 0]
           Scenario.ten_thousand_sender (Receiver.Pending Receiver.init) [1])
      = Sender.Finished st)
  /\ Transfer.receiver_outcome
       (Transfer.run 10000 [Transfer.packet_lost; Transfer.mkRound 1 0]
          Scenario.ten_thousand_sender (Receiver.Pending Receiver.init) [1])
     = Receiver.Finished
  /\ Receiver.written
       (Transfer.trace
          (Transfer.run 10000 [Transfer.packet_lost; Transfer.mkRound 1 0]
             Scenario.ten_thousand_sender (Receiver.Pending Receiver.init)
             [1]))
     = skipn (Z.to_nat MAX_BUFFER_SIZE) Scenario.ten_thousand.
Proof.
  split; [eexists; vm_compute; reflexivity|].
  split; vm_compute; reflexivity.
Qed.

(** *** The ack of the last packet is lost *)

(** A receiver that has left its loop answers nothing: each round of the
    sender is a timeout, and the fourth in a row ends it. *)
Lemma abandoned_sender (c : Z) (net : list Transfer.round) :
  forall ss,
    len (Sender.packet ss) = HEADER_SIZE + MAX_BUFFER_SIZE ->
    Sender.totalBytesSent ss < c ->
    0 <= Sender.retries ss <= MAX_RETRIES ->
    MAX_RETRIES + 1 - Sender.retries ss <= Z.of_nat (length net) ->
    let res := Transfer.run c net ss Receiver.Finished [] in
    Transfer.sender_outcome res = Sender.Exited 1
    /\ Transfer.receiver_outcome res = Receiver.Finished
    /\ Transfer.trace res = []
    /\ Z.of_nat (length (Transfer.sent res))
       = MAX_RETRIES + 1 - Sender.retries ss.
Proof.
  induction net as [|r net IH]; intros ss Hl Htot Hr Hn res.
  - cbn [length] in Hn. unfold MAX_RETRIES in *. lia.
  - assert (Hgo : (Sender.totalBytesSent ss <? c) = true)
      by (apply Z.ltb_lt; exact Htot).
    subst res.
    rewrite (run_round c r net ss Receiver.Finished Receiver.Finished [] []
               Hgo eq_refl).
    cbn [app flat_map]. rewrite skipn_nil. cbn [Transfer.next_ack tl].
    destruct (prepare_counters c ss) as (_ & Htot' & Hrt' & _).
    unfold Sender.checkAck. rewrite Hrt'.
    destruct (Z.ltb_spec (Sender.retries ss) MAX_RETRIES) as [Hlt|Hge].
    + specialize (IH (Sender.retry (Sender.prepare c ss))).
      cbn [Sender.retry Sender.packet Sender.totalBytesSent Sender.retries] in IH.
      rewrite Htot', Hrt', s32_small in IH
        by (unfold MAX_RETRIES in *; lia).
      destruct IH as (Ho & Hro & Htr & Hlen).
      * unfold len. rewrite prepare_packet_length. exact Hl.
      * exact Htot.
      * lia.
      * cbn [length] in Hn. lia.
      * cbn [Transfer.sender_outcome Transfer.receiver_outcome Transfer.trace
             Transfer.sent app length].
        split; [exact Ho|]. split; [exact Hro|]. split; [exact Htr|].
        rewrite Nat2Z.inj_succ, Hlen. unfold MAX_RETRIES. lia.
    + cbn [Transfer.sender_outcome Transfer.receiver_outcome Transfer.trace
           Transfer.sent length].
      split; [reflexivity|]. split; [reflexivity|]. split; [reflexivity|].
      change (Z.of_nat 1) with 1. unfold MAX_RETRIES in *. lia.
Qed.

Section LastAck.

Variables (source : list byte) (isn c : Z).
Hypothesis isn_pos : 0 < isn.
Hypothesis seq_fits : isn + c / MAX_BUFFER_SIZE + 2 < 2 ^ 31.

(** [n] rounds without loss that do not reach the target. *)
Lemma ideal_prefix (n : nat) (rest : list Transfer.round) :
  forall (j : nat) ss st,
    Integrity.sender_inv source isn c j ss 1 ->
    Sender.retries ss = 0 ->
    Receiver._latestSequenceNumber st
    = (if Nat.eqb j 0 then 0 else isn + Z.of_nat j - 1) ->
    MAX_BUFFER_SIZE * Z.of_nat (j + n) < c ->
    exists ss' st' sent trace,
      Transfer.run c (Transfer.ideal n ++ rest) ss (Receiver.Pending st) []
      = Transfer.mkResult
          (sent ++ Transfer.sent
                     (Transfer.run c rest ss' (Receiver.Pending st') []))
          (trace ++ Transfer.trace
                      (Transfer.run c rest ss' (Receiver.Pending st') []))
          (Transfer.sender_outcome
             (Transfer.run c rest ss' (Receiver.Pending st') []))
          (Transfer.receiver_outcome
             (Transfer.run c rest ss' (Receiver.Pending st') []))
      /\ Integrity.sender_inv source isn c (j + n) ss' 1
      /\ Sender.retries ss' = 0
      /\ Receiver._latestSequenceNumber st'
         = (if Nat.eqb (j + n) 0 then 0 else isn + Z.of_nat (j + n) - 1)
      /\ length sent = n
      /\ firstn (Z.to_nat MAX_BUFFER_SIZE * j) source ++ Receiver.written trace
         = firstn (Z.to_nat MAX_BUFFER_SIZE * (j + n)) source.
Proof.
  induction n as [|n IH]; intros j ss st Hs Hz Hlatest Hn.
  - exists ss, st, [], []. rewrite Nat.add_0_r. cbn [Transfer.ideal repeat app].
    split; [now destruct (Transfer.run c rest ss (Receiver.Pending st) [])|].
    split; [exact Hs|]. split; [exact Hz|]. split; [exact Hlatest|].
    split; [reflexivity | apply app_nil_r].
  - pose proof Hs as (Hseq & Htot & Hlen & _).
    assert (Hlt : MAX_BUFFER_SIZE * Z.of_nat j < c)
      by (unfold MAX_BUFFER_SIZE in *; lia).
    assert (Hgo : (Sender.totalBytesSent ss <? c) = true)
      by (apply Z.ltb_lt; now rewrite Htot).
    destruct (index_fits isn c isn_pos seq_fits j Hlt) as (Hs0 & Hs1 & Ht1).
    destruct (prepare_is_packet source isn c isn_pos seq_fits j ss _ Hs Hlt)
      as [Hp _].
    pose proof Hp as (Hplen & Hpseq & Hpdata & Hpflag).
    assert (Hsize : len (Sender.packet (Sender.prepare c ss))
                    = Receiver.packetSize)
      by (rewrite Hplen; unfold Receiver.packetSize; lia).
    assert (Hnew : Receiver._latestSequenceNumber st
                   < sequenceNumber
                       (decode_header (Sender.packet (Sender.prepare c ss))))
      by (rewrite Hpseq, Hlatest; destruct (Nat.eqb j 0); lia).
    pose proof (arrive_new 0 _ st Hsize Hnew) as Harr.
    rewrite Hpflag, Hpseq, Hpdata in Harr. cbn [repeat] in Harr.
    destruct (Z.ltb_spec c (MAX_BUFFER_SIZE * (Z.of_nat j + 1))) as [Hl|Hl];
      [unfold MAX_BUFFER_SIZE in *; lia|].
    destruct (checkAck_match source isn c isn_pos seq_fits j ss 0 Hs Hlt)
      as (ss1 & E & Hsn0).
    assert (Hz1 : Sender.retries ss1 = 0).
    { refine (checkAck_match_fresh _ _ _ _ _ E).
      destruct (prepare_counters c ss) as (-> & _). rewrite Hseq.
      unfold u32. rewrite Z.mod_small; lia. }
    pose proof (sender_inv_rounds source isn c (j + 1) ss1 0 1 Hsn0 Hz1
                  ltac:(cbn; lia)) as Hsn1.
    cbn [Transfer.ideal repeat app]. fold (Transfer.ideal n).
    rewrite (run_round c (Transfer.mkRound 1 0) (Transfer.ideal n ++ rest) ss
               (Receiver.Pending st) _ [] _ Hgo
               ltac:(rewrite (datagram_of_full _ Hplen); exact Harr)).
    cbn [Transfer.acks_lost Transfer.copies app flat_map Receiver.acks_of
         skipn Transfer.next_ack tl].
    rewrite (datagram_of_full _ Hplen), Hplen, E.
    destruct (IH (j + 1)%nat ss1
                {| Receiver._latestSequenceNumber := isn + Z.of_nat j;
                   Receiver.bytesWritten :=
                     u64 (Receiver.bytesWritten st + Receiver.packetSize) |}
                Hsn1 Hz1)
      as (ss' & st' & sent & trace & Erun & Hs' & Hz' & Hlatest' & Hlen' & Hw).
    { cbn [Receiver._latestSequenceNumber].
      replace (Nat.eqb (j + 1) 0) with false
        by (symmetry; apply Nat.eqb_neq; lia). lia. }
    { replace (j + 1 + n)%nat with (j + S n)%nat by lia. exact Hn. }
    replace (j + 1 + n)%nat with (j + S n)%nat in * by lia.
    rewrite Erun.
    cbn [Transfer.sender_outcome Transfer.sent Transfer.trace
         Transfer.receiver_outcome].
    exists ss', st', (Sender.packet (Sender.prepare c ss) :: sent),
      ([Receiver.SendAck (isn + Z.of_nat j);
        Receiver.FWrite (Integrity.chunk source j)] :: trace).
    split; [reflexivity|]. split; [exact Hs'|]. split; [exact Hz'|].
    split; [exact Hlatest'|]. split; [cbn [length]; now rewrite Hlen'|].
    change (Receiver.written (?x :: ?l))
      with (Receiver.written_by x ++ Receiver.written l).
    cbn [Receiver.written_by flat_map app]. rewrite app_nil_r.
    rewrite <- Hw, chunk_step, <- app_assoc. reflexivity.
Qed.

End LastAck.

(** X17: the ack of the last packet is lost.  After [k] full packets went
    through without loss, the packet flagged [lastPacket] arrives (once or
    more) but its ack does not.  The receiver wrote it, has the whole
    target, and has left its loop: it acknowledges nothing more.  The
    sender sends the packet three more times, each time into a timeout,
    and ends with [exit(1)], although the transfer is complete. *)
Theorem lost_last_ack_sender_gives_up (source packet0 : list byte) (t isn : Z)
  (k copies lost : nat) (rest : list Transfer.round) :
  len packet0 = HEADER_SIZE + MAX_BUFFER_SIZE ->
  0 <= t ->
  0 < isn ->
  isn + Sender.cap source t / MAX_BUFFER_SIZE + 2 < 2 ^ 31 ->
  MAX_BUFFER_SIZE * Z.of_nat k < Sender.cap source t
    < MAX_BUFFER_SIZE * (Z.of_nat k + 1) ->
  (3 <= length rest)%nat ->
  Transfer.receiver_outcome
    (Transfer.transfer source t isn packet0
       (Transfer.ideal k ++ Transfer.mkRound (S copies) (S lost) :: rest))
  = Receiver.Finished
  /\ Receiver.written
       (Transfer.trace
          (Transfer.transfer source t isn packet0
             (Transfer.ideal k ++ Transfer.mkRound (S copies) (S lost) :: rest)))
     = firstn (Z.to_nat MAX_BUFFER_SIZE * (k + 1)) source
  /\ (len source <= t ->
      Receiver.written
        (Transfer.trace
           (Transfer.transfer source t isn packet0
              (Transfer.ideal k ++ Transfer.mkRound (S copies) (S lost) :: rest)))
      = source)
  /\ Transfer.sender_outcome
       (Transfer.transfer source t isn packet0
          (Transfer.ideal k ++ Transfer.mkRound (S copies) (S lost) :: rest))
     = Sender.Exited 1
  /\ length
       (Transfer.sent
          (Transfer.transfer source t isn packet0
             (Transfer.ideal k ++ Transfer.mkRound (S copies) (S lost) :: rest)))
     = (k + 4)%nat.
Proof.
  intros Hl Ht Hisn Hseq Hk Hrest.
  pose proof (cap_nonneg source t Ht) as Hc.
  set (c := Sender.cap source t) in *.
  destruct (initial_invariant source packet0 isn c 1 Hl ltac:(cbn; lia) Hc)
    as (Hs0 & _).
  destruct (ideal_prefix source isn c Hisn Hseq k
              (Transfer.mkRound (S copies) (S lost) :: rest) O
              (Sender.init isn packet0 source) Receiver.init Hs0 eq_refl
              eq_refl ltac:(cbn [Nat.add]; lia))
    as (ss & st & sent & trace & Erun & Hs & Hz & Hlatest & Hlen & Hw).
  cbn [Nat.add] in Hs, Hlatest, Hw.
  rewrite Nat.mul_0_r in Hw. cbn [firstn app] in Hw.
  unfold Transfer.transfer. fold c. rewrite Erun. clear Erun.
  pose proof Hs as (Hseq' & Htot & Hlen' & _).
  assert (Hlt : MAX_BUFFER_SIZE * Z.of_nat k < c) by lia.
  assert (Hgo : (Sender.totalBytesSent ss <? c) = true)
    by (apply Z.ltb_lt; now rewrite Htot).
  destruct (index_fits isn c Hisn Hseq k Hlt) as (Hi0 & Hi1 & Hi2).
  destruct (prepare_is_packet source isn c Hisn Hseq k ss _ Hs Hlt) as [Hp _].
  pose proof Hp as (Hplen & Hpseq & Hpdata & Hpflag).
  assert (Hsize : len (Sender.packet (Sender.prepare c ss))
                  = Receiver.packetSize)
    by (rewrite Hplen; unfold Receiver.packetSize; lia).
  assert (Hnew : Receiver._latestSequenceNumber st
                 < sequenceNumber
                     (decode_header (Sender.packet (Sender.prepare c ss))))
    by (rewrite Hpseq, Hlatest; destruct (Nat.eqb k 0); lia).
  pose proof (arrive_new copies _ st Hsize Hnew) as Harr.
  rewrite Hpflag, Hpseq, Hpdata in Harr.
  destruct (Z.ltb_spec c (MAX_BUFFER_SIZE * (Z.of_nat k + 1))) as [_|Hge];
    [|lia].
  rewrite (run_round c (Transfer.mkRound (S copies) (S lost)) rest ss
             (Receiver.Pending st) _ [] _ Hgo
             ltac:(rewrite (datagram_of_full _ Hplen); exact Harr)).
  cbn [Transfer.acks_lost Transfer.copies app flat_map Receiver.acks_of skipn].
  rewrite skipn_nil. cbn [Transfer.next_ack tl].
  destruct (prepare_counters c ss) as (_ & Htot' & Hrt' & _).
  unfold Sender.checkAck. rewrite Hrt', Hz.
  change (0 <? MAX_RETRIES) with true. cbv iota.
  destruct (abandoned_sender c rest (Sender.retry (Sender.prepare c ss)))
    as (Ho & Hro & Htr & Hsent).
  { cbn [Sender.retry Sender.packet]. exact Hplen. }
  { cbn [Sender.retry Sender.totalBytesSent]. rewrite Htot', Htot. exact Hlt. }
  { cbn [Sender.retry Sender.retries]. rewrite Hrt', Hz.
    change (s32 (0 + 1)) with 1. unfold MAX_RETRIES. lia. }
  { cbn [Sender.retry Sender.retries]. rewrite Hrt', Hz.
    change (s32 (0 + 1)) with 1. unfold MAX_RETRIES. lia. }
  cbn [Sender.retry Sender.retries] in Hsent. rewrite Hrt', Hz in Hsent.
  change (s32 (0 + 1)) with 1 in Hsent. unfold MAX_RETRIES in Hsent.
  cbn [Transfer.sender_outcome Transfer.sent Transfer.trace
       Transfer.receiver_outcome].
  rewrite Ho, Hro, Htr. cbn [app].
  assert (Hwritten :
            Receiver.written
              (trace
               ++ [[Receiver.SendAck (isn + Z.of_nat k);
                    Receiver.FWrite (Integrity.chunk source k)]])
            = firstn (Z.to_nat MAX_BUFFER_SIZE * (k + 1)) source).
  { unfold Receiver.written in *. rewrite flat_map_app, Hw.
    cbn [flat_map app Receiver.written_by]. rewrite !app_nil_r.
    symmetry. apply chunk_step. }
  split; [reflexivity|]. split; [exact Hwritten|]. split.
  - intros Hwhole. rewrite Hwritten. apply firstn_all2.
    assert (c = len source)
      by (unfold c, Sender.cap; destruct (Z.ltb_spec (len source) t); lia).
    unfold len, MAX_BUFFER_SIZE in *. lia.
  - split; [reflexivity|].
    rewrite length_app, Hlen. cbn [app length]. lia.
Qed.

(** [lost_last_ack_sender_gives_up] for the 10000-byte source: packet 1
    goes through, packet 2 arrives and its ack is lost, and the network
    would lose nothing afterwards. *)
Lemma lost_last_ack_sender_gives_up_witness :
  Transfer.receiver_outcome
    (Transfer.transfer Scenario.ten_thousand 10000 1 Scenario.zero_buffer
       (Transfer.ideal 1 ++ Transfer.mkRound 1 1 :: Transfer.ideal 3))
  = Receiver.Finished
  /\ Receiver.written
       (Transfer.trace
          (Transfer.transfer Scenario.ten_thousand 10000 1
             Scenario.zero_buffer
             (Transfer.ideal 1 ++ Transfer.mkRound 1 1 :: Transfer.ideal 3)))
     = firstn (Z.to_nat MAX_BUFFER_SIZE * (1 + 1)) Scenario.ten_thousand
  /\ (len Scenario.ten_thousand <= 10000 ->
      Receiver.written
        (Transfer.trace
           (Transfer.transfer Scenario.ten_thousand 10000 1
              Scenario.zero_buffer
              (Transfer.ideal 1 ++ Transfer.mkRound 1 1 :: Transfer.ideal 3)))
      = Scenario.ten_thousand)
  /\ Transfer.sender_outcome
       (Transfer.transfer Scenario.ten_thousand 10000 1 Scenario.zero_buffer
          (Transfer.ideal 1 ++ Transfer.mkRound 1 1 :: Transfer.ideal 3))
     = Sender.Exited 1
  /\ length
       (Transfer.sent
          (Transfer.transfer Scenario.ten_thousand 10000 1
             Scenario.zero_buffer
             (Transfer.ideal 1 ++ Transfer.mkRound 1 1 :: Transfer.ideal 3)))
     = (1 + 4)%nat.
Proof.
  apply (lost_last_ack_sender_gives_up Scenario.ten_thousand
           Scenario.zero_buffer 10000 1 1 0 0 (Transfer.ideal 3)).
  - vm_compute. reflexivity.
  - vm_compute. discriminate.
  - reflexivity.
  - vm_compute. reflexivity.
  - vm_compute. split; reflexivity.
  - vm_compute. lia.
Defined.

(** *** Failures the sender outlasts *)

(** The iteration in which the ack of the outstanding packet arrives. *)
Lemma rsend_iter_acked (bytesToTransfer : Z) (st : Sender.State) :
  - 2 ^ 31 <= Sender._sequenceNumber st + 1 < 2 ^ 31 ->
  0 <= Sender.totalBytesSent st ->
  Sender.totalBytesSent st + MAX_BUFFER_SIZE < 2 ^ 64 ->
  exists st',
    Sender.rsend_iter bytesToTransfer
      (Sender.acked_with (u32 (Sender._sequenceNumber st))) st
    = ([Sender.datagram_of (Sender.prepare bytesToTransfer st)],
       Sender.Next st')
    /\ Sender._sequenceNumber st' = Sender._sequenceNumber st + 1
    /\ Sender.totalBytesSent st' = Sender.totalBytesSent st + MAX_BUFFER_SIZE
    /\ Sender.retries st' = 0
    /\ Sender.timeout st' = DEFAULT_TIMEOUT.
Proof.
  intros Hseq Htot0 Htot.
  unfold Sender.rsend_iter, Sender.acked_with.
  cbn [Sender.setsockopt_ok Sender.sendto_ret Sender.ack_recvfrom negb].
  change (HEADER_SIZE + MAX_BUFFER_SIZE <? 0) with false. cbv iota.
  unfold Sender.checkAck.
  destruct (prepare_counters bytesToTransfer st) as (Es & Et & _ & _).
  rewrite Es, Et, Z.eqb_refl. cbn [negb].
  eexists. split; [reflexivity|].
  cbn [Sender._sequenceNumber Sender.totalBytesSent Sender.retries
       Sender.timeout].
  split; [apply s32_small; lia|]. split; [|split; reflexivity].
  change (HEADER_SIZE + MAX_BUFFER_SIZE - HEADER_SIZE) with MAX_BUFFER_SIZE.
  unfold u64, MAX_BUFFER_SIZE in *.
  rewrite (Z.mod_small 8192) by lia. apply Z.mod_small. lia.
Qed.

Lemma length_answered_after (bursts : list (list Sender.iter_env)) :
  forall n,
    length (Sender.answered_after n bursts)
    = (length (concat bursts) + length bursts)%nat.
Proof.
  induction bursts as [|failures bursts IH]; intros n; [reflexivity|].
  cbn [Sender.answered_after concat length].
  rewrite !length_app. cbn [length]. rewrite IH. lia.
Qed.

(** Packet by packet: the failures are waited out, the ack is taken, and
    the next packet starts from [retries = 0] and [DEFAULT_TIMEOUT]. *)
Lemma answered_after_run (bytesToTransfer : Z)
  (bursts : list (list Sender.iter_env)) :
  forall (n : Z) (rest : list Sender.iter_env) (st : Sender.State),
    Sender._sequenceNumber st = n ->
    0 <= n ->
    n + Z.of_nat (length bursts) < 2 ^ 31 ->
    Sender.retries st = 0 ->
    Sender.timeout st = DEFAULT_TIMEOUT ->
    0 <= Sender.totalBytesSent st ->
    Sender.totalBytesSent st + MAX_BUFFER_SIZE * Z.of_nat (length bursts)
    < 2 ^ 64 ->
    Sender.totalBytesSent st + MAX_BUFFER_SIZE * (Z.of_nat (length bursts) - 1)
    < bytesToTransfer ->
    Sender.outlastable n bursts = true ->
    exists sent st',
      Sender.rsend_loop_os bytesToTransfer
        (Sender.answered_after n bursts ++ rest) st
      = (sent ++ fst (Sender.rsend_loop_os bytesToTransfer rest st'),
         snd (Sender.rsend_loop_os bytesToTransfer rest st'))
      /\ length sent = length (Sender.answered_after n bursts)
      /\ Sender._sequenceNumber st' = n + Z.of_nat (length bursts)
      /\ Sender.totalBytesSent st'
         = Sender.totalBytesSent st
           + MAX_BUFFER_SIZE * Z.of_nat (length bursts)
      /\ Sender.retries st' = 0
      /\ Sender.timeout st' = DEFAULT_TIMEOUT.
Proof.
  induction bursts as [|failures bursts IH];
    intros n rest st Hseq Hn Hmax Hr Ht Htot0 Htot Hgo Hb.
  - exists [], st. cbn [Sender.answered_after app length].
    destruct (Sender.rsend_loop_os bytesToTransfer rest st).
    cbn [fst snd]. split; [reflexivity|]. split; [reflexivity|].
    split; [cbn; lia|]. split; [cbn; lia|]. now split.
  - cbn [Sender.outlastable] in Hb.
    apply andb_true_iff in Hb as [Hb Hrest].
    apply andb_true_iff in Hb as [Hlen Hfail].
    apply Z.leb_le in Hlen.
    cbn [length] in Hmax, Htot, Hgo. rewrite Nat2Z.inj_succ in Hmax, Htot, Hgo.
    assert (Hsmall : Sender.totalBytesSent st < bytesToTransfer)
      by (unfold MAX_BUFFER_SIZE in *; lia).
    cbn [Sender.answered_after]. rewrite <- app_assoc. cbn [app].
    destruct (transient_failures_run bytesToTransfer failures
                (Sender.acked_with (u32 n)
                 :: Sender.answered_after (n + 1) bursts ++ rest) st)
      as (sent1 & st1 & E1 & Hlen1 & Hret1 & Htim1 & Hseq1 & Htot1);
      try lia.
    { rewrite Hr. exact Ht. }
    { now rewrite Hseq. }
    rewrite E1. cbn [Sender.rsend_loop_os].
    destruct (Z.ltb_spec (Sender.totalBytesSent st1) bytesToTransfer); [|lia].
    rewrite Htim1, timeout_after_accepted by lia. cbn [negb].
    destruct (rsend_iter_acked bytesToTransfer st1)
      as (st2 & E2 & Hseq2 & Htot2 & Hret2 & Htim2).
    { rewrite Hseq1, Hseq. lia. }
    { lia. }
    { unfold MAX_BUFFER_SIZE in *. lia. }
    rewrite <- Hseq, <- Hseq1, E2.
    destruct (IH (n + 1) rest st2)
      as (sent3 & st3 & E3 & Hlen3 & Hseq3 & Htot3 & Hret3 & Htim3);
      try assumption; try (unfold MAX_BUFFER_SIZE in *; lia).
    rewrite Hseq1, Hseq, E3. cbn [fst snd].
    exists (sent1
            ++ [Sender.datagram_of (Sender.prepare bytesToTransfer st1)]
            ++ sent3), st3.
    split; [now rewrite <- !app_assoc|].
    split.
    { rewrite !length_app. cbn [length]. rewrite Hlen1, Hlen3. lia. }
    cbn [length]. rewrite Nat2Z.inj_succ.
    split; [lia|]. split; [unfold MAX_BUFFER_SIZE in *; lia|].
    now split.
Qed.

(** X18: failures the sender outlasts, on a system that takes
    [SO_RCVTIMEO] values below one second only.  The sender enters its
    loop with sequence number [isn]; each of its packets meets at most
    [MAX_RETRIES] transient failures (timeouts, or acks that carry another
    number) and then its ack, and every datagram is handed over whole.
    Then no [setsockopt] is refused and nothing ends the process: the
    loop sends one datagram per failure and one per ack, and once the
    packets cover the target it finishes, [totalBytesSent] at 8192 times
    their number and the sequence number advanced by it. *)
Theorem bounded_failures_are_outlasted (packet0 source : list byte)
  (bytesToTransfer isn : Z) (bursts : list (list Sender.iter_env)) :
  0 <= isn ->
  isn + Z.of_nat (length bursts) < 2 ^ 31 ->
  MAX_BUFFER_SIZE * (Z.of_nat (length bursts) - 1) < bytesToTransfer
  <= MAX_BUFFER_SIZE * Z.of_nat (length bursts) ->
  Sender.outlastable isn bursts = true ->
  exists sent st,
    Sender.rsend_loop_os bytesToTransfer (Sender.answered_after isn bursts)
      (Sender.init isn packet0 source)
    = (sent, Sender.Finished st)
    /\ length sent = (length (concat bursts) + length bursts)%nat
    /\ Sender.totalBytesSent st = MAX_BUFFER_SIZE * Z.of_nat (length bursts)
    /\ Sender._sequenceNumber st = isn + Z.of_nat (length bursts).
Proof.
  intros Hisn Hmax [Hlo Hhi] Hb.
  destruct (answered_after_run bytesToTransfer bursts isn []
              (Sender.init isn packet0 source))
    as (sent & st & E & Hlen & Hseq & Htot & Hret & Htim);
    try reflexivity; try assumption;
    cbn [Sender.init Sender.totalBytesSent]; try lia.
  { unfold MAX_BUFFER_SIZE. lia. }
  rewrite app_nil_r in E. rewrite E.
  cbn [Sender.init Sender.totalBytesSent] in Htot. rewrite Z.add_0_l in Htot.
  cbn [Sender.rsend_loop_os].
  destruct (Z.ltb_spec (Sender.totalBytesSent st) bytesToTransfer); [lia|].
  cbn [fst snd]. exists sent, st. rewrite app_nil_r.
  split; [reflexivity|]. split; [|now split].
  rewrite Hlen. apply length_answered_after.
Qed.

(** [bounded_failures_are_outlasted] for the 10000-byte source sent from
    sequence number 1: packet 1 meets a timeout, packet 2 a timeout, the
    ack 1 again and another timeout. *)
Lemma bounded_failures_are_outlasted_witness :
  exists sent st,
    Sender.rsend_loop_os 10000
      (Sender.answered_after 1 Scenario.failures_before_acks)
      (Sender.init 1 Scenario.zero_buffer Scenario.ten_thousand)
    = (sent, Sender.Finished st)
    /\ length sent
       = (length (concat Scenario.failures_before_acks)
          + length Scenario.failures_before_acks)%nat
    /\ Sender.totalBytesSent st
       = MAX_BUFFER_SIZE * Z.of_nat (length Scenario.failures_before_acks)
    /\ Sender._sequenceNumber st
       = 1 + Z.of_nat (length Scenario.failures_before_acks).
Proof.
  apply (bounded_failures_are_outlasted Scenario.zero_buffer
           Scenario.ten_thousand 10000 1 Scenario.failures_before_acks).
  - vm_compute. discriminate.
  - vm_compute. reflexivity.
  - split; vm_compute; [reflexivity | discriminate].
  - vm_compute. reflexivity.
Defined.

(** That run, executed: six datagrams, packet 1 twice and packet 2 four
    times, under the timeouts 100000, 200000, 100000, 200000, 400000 and
    800000 microseconds. *)
Lemma failures_before_acks_run :
  map (fun d => sequenceNumber (decode_header d))
    (fst (Sender.rsend_loop_os 10000
            (Sender.answered_after 1 Scenario.failures_before_acks)
            (Sender.init 1 Scenario.zero_buffer Scenario.ten_thousand)))
  = [1; 1; 2; 2; 2; 2].
Proof. vm_compute. reflexivity. Qed.

(** *** Datagrams as bytes *)

Lemma get_u32_put_u32 (v : Z) (rest : list byte) :
  get_u32 0 (put_u32 v ++ rest) = u32 v.
Proof.
  unfold get_u32, put_u32. cbn [app nth Nat.add].
  rewrite !Z_of_byte_of_Z. apply u32_split.
Qed.

Lemma get_u32_second (v w : Z) (rest : list byte) :
  get_u32 4 (put_u32 v ++ put_u32 w ++ rest) = u32 w.
Proof.
  unfold get_u32, put_u32. cbn [app nth Nat.add].
  rewrite !Z_of_byte_of_Z. apply u32_split.
Qed.

(** A datagram that fills the buffer leaves nothing of its old contents. *)
Lemma recv_into_full (size : nat) (stale d : list byte) :
  (size <= length d)%nat -> recv_into size stale d = firstn size d.
Proof.
  intros H. unfold recv_into. rewrite firstn_app.
  replace (size - length d)%nat with O by lia.
  now rewrite firstn_O, app_nil_r.
Qed.

Lemma get_u32_firstn (n off : nat) (d : list byte) :
  (off + 4 <= n)%nat -> get_u32 off (firstn n d) = get_u32 off d.
Proof.
  intros H. unfold get_u32. rewrite !nth_firstn.
  replace (off <? n)%nat with true by (symmetry; apply Nat.ltb_lt; lia).
  replace (off + 1 <? n)%nat with true by (symmetry; apply Nat.ltb_lt; lia).
  replace (off + 2 <? n)%nat with true by (symmetry; apply Nat.ltb_lt; lia).
  replace (off + 3 <? n)%nat with true by (symmetry; apply Nat.ltb_lt; lia).
  reflexivity.
Qed.

(** What the three [recvfrom]s that expect a small message make of a
    datagram that is at least as long as their buffer. *)
Lemma at_responder_long (stale d : list byte) :
  (4 <= length d)%nat ->
  Datagram.at_responder stale d = Receiver.HsData 4 (get_u32 0 d).
Proof.
  intros H. unfold Datagram.at_responder, recv_size.
  change (Z.to_nat SYN_SIZE) with 4%nat.
  rewrite recv_into_full, get_u32_firstn by lia.
  now rewrite Nat.min_r by lia.
Qed.

Lemma at_checkAck_long (stale d : list byte) :
  (4 <= length d)%nat ->
  Datagram.at_checkAck stale d = Sender.RecvAck (get_u32 0 d).
Proof.
  intros H. unfold Datagram.at_checkAck.
  change (Z.to_nat MAX_ACK_SIZE) with 4%nat.
  now rewrite recv_into_full, get_u32_firstn by lia.
Qed.

Lemma at_initiator_long (stale d : list byte) :
  (8 <= length d)%nat ->
  Datagram.at_initiator stale d
  = Sender.HsData 8 (get_u32 0 d) (get_u32 4 d).
Proof.
  intros H. unfold Datagram.at_initiator, recv_size.
  change (Z.to_nat SYNACK_SIZE) with 8%nat.
  rewrite recv_into_full, !get_u32_firstn by lia.
  now rewrite Nat.min_r by lia.
Qed.

(** X8: the small messages survive the wire.  A Syn or an Ack read by the
    responder, a SynAck read by the initiator and a data ack read by
    [checkAck] give back the numbers that were sent (as [uint32_t]),
    whatever the receiving struct or array held before. *)
Theorem small_messages_roundtrip (stale : list byte) (n sn an : Z) :
  Datagram.at_responder stale (Datagram.of_hs_sent (Sender.SentSyn n))
  = Receiver.HsData 4 (u32 n)
  /\ Datagram.at_responder stale (Datagram.of_hs_sent (Sender.SentAck n))
     = Receiver.HsData 4 (u32 n)
  /\ Datagram.at_initiator stale
       (Datagram.of_syn_ack (Receiver.SentSynAck sn an))
     = Sender.HsData 8 (u32 sn) (u32 an)
  /\ Datagram.at_checkAck stale (Datagram.of_packet_ack n)
     = Sender.RecvAck (u32 n).
Proof.
  split; [|split; [|split]].
  - rewrite at_responder_long by (cbn; lia).
    cbn [Datagram.of_hs_sent]. rewrite <- (app_nil_r (put_u32 n)).
    now rewrite get_u32_put_u32.
  - rewrite at_responder_long by (cbn; lia).
    cbn [Datagram.of_hs_sent]. rewrite <- (app_nil_r (put_u32 n)).
    now rewrite get_u32_put_u32.
  - rewrite at_initiator_long by (cbn; lia).
    cbn [Datagram.of_syn_ack].
    rewrite get_u32_put_u32.
    rewrite <- (app_nil_r (put_u32 an)), get_u32_second. reflexivity.
  - rewrite at_checkAck_long by (cbn; lia). unfold Datagram.of_packet_ack.
    rewrite <- (app_nil_r (put_u32 n)). now rewrite get_u32_put_u32.
Qed.

Lemma small_messages_roundtrip_parts (stale : list byte) (n sn an : Z) :
  Datagram.at_responder stale (Datagram.of_hs_sent (Sender.SentSyn n))
  = Receiver.HsData 4 (u32 n)
  /\ Datagram.at_initiator stale
       (Datagram.of_syn_ack (Receiver.SentSynAck sn an))
     = Sender.HsData 8 (u32 sn) (u32 an)
  /\ Datagram.at_checkAck stale
       (Datagram.of_syn_ack (Receiver.SentSynAck sn an))
     = Sender.RecvAck (u32 sn).
Proof.
  split; [|split].
  - rewrite at_responder_long by (cbn; lia).
    cbn [Datagram.of_hs_sent]. rewrite <- (app_nil_r (put_u32 n)).
    now rewrite get_u32_put_u32.
  - rewrite at_initiator_long by (cbn; lia).
    cbn [Datagram.of_syn_ack].
    rewrite get_u32_put_u32.
    rewrite <- (app_nil_r (put_u32 an)), get_u32_second. reflexivity.
  - rewrite at_checkAck_long by (cbn; lia).
    cbn [Datagram.of_syn_ack]. now rewrite get_u32_put_u32.
Qed.

Lemma u32_small (z : Z) : 0 <= z < 2 ^ 32 -> u32 z = z.
Proof. intros H. unfold u32. now rewrite Z.mod_small. Qed.

(** X9: the handshake's final Ack is lost.  Both sides drew [S].  The
    initiator, having read the SynAck, sends its Ack (lost) and its first
    data packet, numbered [S].  The responder still waits for the Ack: it
    reads the packet's first four bytes, [S], as a wrong Ack and sends its
    SynAck again; [checkAck] reads that SynAck's first field, [S], as the
    acknowledgement of packet [S], and the sender moves on to packet
    [S + 1]; the responder reads that one as the awaited Ack and enters its
    data loop; sent again, packet [S + 1] is the first the loop writes,
    and whatever copies of packet [S] arrive later are not written: the
    receiver's file lacks the first chunk of the source. *)
Theorem lost_handshake_ack_skips_first_chunk (source packet0 stale : list byte)
  (t S : Z) :
  len packet0 = HEADER_SIZE + MAX_BUFFER_SIZE ->
  0 < S ->
  S + Sender.cap source t / MAX_BUFFER_SIZE + 2 < 2 ^ 31 ->
  MAX_BUFFER_SIZE < Sender.cap source t ->
  Sender.establish_connection
    [Sender.mkHsEnv true S
       (Datagram.at_initiator stale
          (Datagram.of_syn_ack (Receiver.SentSynAck S (S + 1))))]
  = ([Sender.SentSyn S; Sender.SentAck (S + 1)], Sender.Established S)
  /\ exists st1,
      Sender.rsend_iter (Sender.cap source t)
        (Sender.mkIterEnv true (HEADER_SIZE + MAX_BUFFER_SIZE)
           (Datagram.at_checkAck stale
              (Datagram.of_syn_ack (Receiver.SentSynAck S (S + 1)))))
        (Sender.init S packet0 source)
      = ([Sender.datagram_of
            (Sender.prepare (Sender.cap source t)
               (Sender.init S packet0 source))],
         Sender.Next st1)
      /\ Sender._sequenceNumber st1 = S + 1
      /\ Sender.totalBytesSent st1 = MAX_BUFFER_SIZE
      /\ Sender.retries st1 = 0
      /\ Receiver.establish_connection
           [Receiver.mkListenEnv true
              (Datagram.at_responder stale
                 (Datagram.of_hs_sent (Sender.SentSyn S)))]
           S
           [Datagram.at_responder stale
              (Sender.datagram_of
                 (Sender.prepare (Sender.cap source t)
                    (Sender.init S packet0 source)));
            Datagram.at_responder stale
              (Sender.datagram_of (Sender.prepare (Sender.cap source t) st1))]
         = ([Receiver.SentSynAck S (S + 1); Receiver.SentSynAck S (S + 1)],
            Receiver.Established)
      /\ Receiver.written
           (fst (Transfer.arrive 1
                   (Sender.datagram_of
                      (Sender.prepare (Sender.cap source t) st1))
                   (Receiver.Pending Receiver.init)))
         = Integrity.chunk source 1
      /\ (forall n,
            Receiver.written
              (fst (Transfer.arrive n
                      (Sender.datagram_of
                         (Sender.prepare (Sender.cap source t)
                            (Sender.init S packet0 source)))
                      (snd (Transfer.arrive 1
                              (Sender.datagram_of
                                 (Sender.prepare (Sender.cap source t) st1))
                              (Receiver.Pending Receiver.init)))))
            = []).
Proof.
  intros Hl HS Hseq Htwo.
  set (c := Sender.cap source t) in *.
  assert (Hc : 0 <= c) by (unfold MAX_BUFFER_SIZE in *; lia).
  assert (Hdiv : 1 <= c / MAX_BUFFER_SIZE)
    by (apply Z.div_le_lower_bound; unfold MAX_BUFFER_SIZE in *; lia).
  assert (HuS : u32 S = S) by (apply u32_small; lia).
  assert (HuS1 : u32 (S + 1) = S + 1) by (apply u32_small; lia).
  assert (HsS : s32 S = S) by (apply s32_small; lia).
  destruct (small_messages_roundtrip_parts stale S S (S + 1))
    as (Hsyn & Hsynack & Hsynack_ack).
  rewrite HuS in Hsyn, Hsynack, Hsynack_ack. rewrite HuS1 in Hsynack.
  split.
  { unfold Sender.establish_connection. cbn [Sender.establish_connection_loop
      Sender.hs_setsockopt_ok Sender.hs_rand Sender.hs_recvfrom negb].
    rewrite Hsynack. change (0 <? Z.of_nat 8) with true.
    change (Z.of_nat 8 =? SYNACK_SIZE) with true. cbn [andb].
    now rewrite HuS, HuS1, HsS. }
  destruct (initial_invariant source packet0 S c 1 Hl ltac:(cbn; lia) Hc)
    as (Hs0 & _).
  assert (Hlt0 : MAX_BUFFER_SIZE * Z.of_nat 0 < c)
    by (unfold MAX_BUFFER_SIZE in *; lia).
  assert (Hlt1 : MAX_BUFFER_SIZE * Z.of_nat 1 < c)
    by (unfold MAX_BUFFER_SIZE in *; lia).
  destruct (prepare_is_packet source S c HS Hseq O _ _ Hs0 Hlt0) as [Hp0 _].
  destruct (checkAck_match source S c HS Hseq O _ O Hs0 Hlt0)
    as (st1 & E & Hs1).
  cbn [Z.of_nat] in E. rewrite Z.add_0_r in E.
  assert (Hz1 : Sender.retries st1 = 0).
  { refine (checkAck_match_fresh _ _ _ _ _ E).
    destruct (prepare_counters c (Sender.init S packet0 source)) as (-> & _).
    cbn [Sender.init Sender._sequenceNumber]. now rewrite HuS. }
  pose proof (sender_inv_rounds source S c 1 st1 0 1 Hs1 Hz1 ltac:(cbn; lia))
    as Hs1'.
  destruct (prepare_is_packet source S c HS Hseq 1%nat _ _ Hs1' Hlt1)
    as [Hp1 _].
  destruct Hp0 as (Hl0 & Hseq0 & _).
  destruct Hp1 as (Hl1 & Hseq1 & Hdata1 & _).
  pose proof (datagram_of_full _ Hl0) as Hd0.
  pose proof (datagram_of_full _ Hl1) as Hd1.
  rewrite <- Hd0 in Hl0, Hseq0. rewrite <- Hd1 in Hl1, Hseq1, Hdata1.
  cbn [Z.of_nat] in Hseq0, Hseq1. rewrite Z.add_0_r in Hseq0.
  exists st1. split.
  { unfold Sender.rsend_iter.
    cbn [Sender.setsockopt_ok Sender.sendto_ret Sender.ack_recvfrom negb].
    rewrite Hsynack_ack.
    change (HEADER_SIZE + MAX_BUFFER_SIZE <? 0) with false. cbv iota.
    now rewrite E. }
  destruct Hs1 as (Hsq1 & Htot1 & _).
  split; [exact Hsq1|]. split; [rewrite Htot1; reflexivity|].
  split; [exact Hz1|]. split.
  - rewrite Hsyn, !at_responder_long
      by (unfold len, HEADER_SIZE, MAX_BUFFER_SIZE in *; lia).
    change (get_u32 0 ?d) with (sequenceNumber (decode_header d)).
    rewrite Hseq0, Hseq1.
    unfold Receiver.establish_connection.
    cbn [Receiver.establish_connection_loop Receiver.ls_setsockopt_ok
         Receiver.ls_recvfrom negb Receiver.await_ack].
    rewrite HuS, HuS1. change (0 <? Z.of_nat 4) with true. cbv iota.
    cbn [andb]. rewrite Z.eqb_refl.
    destruct (Z.eqb_spec S (S + 1)); [lia | reflexivity].
  - assert (Hsize : len (Sender.datagram_of (Sender.prepare c st1))
                    = Receiver.packetSize)
      by (rewrite Hl1; unfold Receiver.packetSize; lia).
    assert (Hsize0 : len (Sender.datagram_of
                            (Sender.prepare c (Sender.init S packet0 source)))
                     = Receiver.packetSize)
      by (rewrite Hl0; unfold Receiver.packetSize; lia).
    rewrite (arrive_new 0 _ Receiver.init Hsize)
      by (rewrite Hseq1; cbn [Receiver.init Receiver._latestSequenceNumber]; lia).
    rewrite Hdata1, Hseq1.
    destruct (lastPacket _ =? TRUE); cbn [fst snd repeat].
    + split; [cbn [Receiver.written Receiver.written_by flat_map app];
              now rewrite !app_nil_r|].
      intros n. reflexivity.
    + split; [cbn [Receiver.written Receiver.written_by flat_map app];
              now rewrite !app_nil_r|].
      intros n. rewrite arrive_duplicates
        by (try exact Hsize0;
            rewrite Hseq0; cbn [Receiver._latestSequenceNumber]; lia).
      apply written_acks_only.
Qed.

(** [lost_handshake_ack_skips_first_chunk] for the 10000-byte source and
    [S = 1]. *)
Lemma lost_handshake_ack_skips_first_chunk_witness :
  Sender.establish_connection
    [Sender.mkHsEnv true 1
       (Datagram.at_initiator []
          (Datagram.of_syn_ack (Receiver.SentSynAck 1 (1 + 1))))]
  = ([Sender.SentSyn 1; Sender.SentAck (1 + 1)], Sender.Established 1)
  /\ exists st1,
      Sender.rsend_iter (Sender.cap Scenario.ten_thousand 10000)
        (Sender.mkIterEnv true (HEADER_SIZE + MAX_BUFFER_SIZE)
           (Datagram.at_checkAck []
              (Datagram.of_syn_ack (Receiver.SentSynAck 1 (1 + 1)))))
        (Sender.init 1 Scenario.zero_buffer Scenario.ten_thousand)
      = ([Sender.datagram_of
            (Sender.prepare (Sender.cap Scenario.ten_thousand 10000)
               (Sender.init 1 Scenario.zero_buffer Scenario.ten_thousand))],
         Sender.Next st1)
      /\ Sender._sequenceNumber st1 = 1 + 1
      /\ Sender.totalBytesSent st1 = MAX_BUFFER_SIZE
      /\ Sender.retries st1 = 0
      /\ Receiver.establish_connection
           [Receiver.mkListenEnv true
              (Datagram.at_responder []
                 (Datagram.of_hs_sent (Sender.SentSyn 1)))]
           1
           [Datagram.at_responder []
              (Sender.datagram_of
                 (Sender.prepare (Sender.cap Scenario.ten_thousand 10000)
                    (Sender.init 1 Scenario.zero_buffer
                       Scenario.ten_thousand)));
            Datagram.at_responder []
              (Sender.datagram_of
                 (Sender.prepare (Sender.cap Scenario.ten_thousand 10000)
                    st1))]
         = ([Receiver.SentSynAck 1 (1 + 1); Receiver.SentSynAck 1 (1 + 1)],
            Receiver.Established)
      /\ Receiver.written
           (fst (Transfer.arrive 1
                   (Sender.datagram_of
                      (Sender.prepare (Sender.cap Scenario.ten_thousand 10000)
                         st1))
                   (Receiver.Pending Receiver.init)))
         = Integrity.chunk Scenario.ten_thousand 1
      /\ (forall n,
            Receiver.written
              (fst (Transfer.arrive n
                      (Sender.datagram_of
                         (Sender.prepare
                            (Sender.cap Scenario.ten_thousand 10000)
                            (Sender.init 1 Scenario.zero_buffer
                               Scenario.ten_thousand)))
                      (snd (Transfer.arrive 1
                              (Sender.datagram_of
                                 (Sender.prepare
                                    (Sender.cap Scenario.ten_thousand 10000)
                                    st1))
                              (Receiver.Pending Receiver.init)))))
            = []).
Proof.
  apply (lost_handshake_ack_skips_first_chunk Scenario.ten_thousand
           Scenario.zero_buffer [] 10000 1).
  - vm_compute. reflexivity.
  - reflexivity.
  - vm_compute. reflexivity.
  - vm_compute. reflexivity.
Defined.

(** *** The handshake loops, in general *)

Lemma sender_handshake_no_reply (pre : list Sender.hs_env) :
  forall rest timeout,
    forallb Sender.no_reply pre = true ->
    exists timeout',
      Sender.establish_connection_loop (pre ++ rest) timeout
      = (map (fun e => Sender.SentSyn (u32 (Sender.hs_rand e))) pre
         ++ fst (Sender.establish_connection_loop rest timeout'),
         snd (Sender.establish_connection_loop rest timeout')).
Proof.
  induction pre as [|e pre IH]; intros rest timeout Hpre.
  - exists timeout. cbn [app map]. now destruct (Sender.establish_connection_loop _ _).
  - cbn [forallb] in Hpre. apply andb_true_iff in Hpre as [He Hpre].
    unfold Sender.no_reply in He. apply andb_true_iff in He as [Hok Hrecv].
    cbn [app map Sender.establish_connection_loop]. rewrite Hok. cbn [negb].
    destruct (Sender.hs_recvfrom e) as [| |recv_size sn an];
      [|discriminate|].
    + destruct (IH rest (Sender.backoff timeout) Hpre) as (t' & ->).
      now exists t'.
    + apply negb_true_iff in Hrecv. rewrite Hrecv, andb_false_r.
      destruct (IH rest timeout Hpre) as (t' & ->). now exists t'.
Qed.

(** X10: the initiator's handshake.  However many attempts time out or are
    answered by a datagram of another size, the loop goes on, sending one
    Syn per attempt, each with the number [rand()] gave in that attempt;
    it never gives up.  The first reply of [sizeof(struct SynAck)] bytes
    ends it, whatever its [ackNumber]: the Ack carries the reply's
    [sequenceNumber] plus one, and the sequence number the data phase
    starts from is the one drawn in that last attempt. *)
Theorem initiator_handshake (pre post : list Sender.hs_env)
  (e : Sender.hs_env) (sn an : Z) :
  forallb Sender.no_reply pre = true ->
  Sender.hs_setsockopt_ok e = true ->
  Sender.hs_recvfrom e = Sender.HsData 8 sn an ->
  (exists timeout,
      Sender.establish_connection pre
      = (map (fun e' => Sender.SentSyn (u32 (Sender.hs_rand e'))) pre,
         Sender.HsPending timeout))
  /\ Sender.establish_connection (pre ++ e :: post)
     = (map (fun e' => Sender.SentSyn (u32 (Sender.hs_rand e'))) pre
        ++ [Sender.SentSyn (u32 (Sender.hs_rand e));
            Sender.SentAck (u32 (sn + 1))],
        Sender.Established (s32 (u32 (Sender.hs_rand e)))).
Proof.
  intros Hpre Hok Hrecv. unfold Sender.establish_connection. split.
  - destruct (sender_handshake_no_reply pre [] SYN_ACK_DEFAULT_TIMEOUT_MILLISEC
                Hpre) as (t' & E).
    rewrite app_nil_r in E. rewrite E. cbn. rewrite app_nil_r. now exists t'.
  - destruct (sender_handshake_no_reply pre (e :: post)
                SYN_ACK_DEFAULT_TIMEOUT_MILLISEC Hpre) as (t' & ->).
    cbn [Sender.establish_connection_loop]. rewrite Hok, Hrecv. reflexivity.
Qed.

(** [initiator_handshake] for a timeout, a four-byte datagram and then an
    eight-byte one. *)
Lemma initiator_handshake_witness :
  (exists timeout,
      Sender.establish_connection Scenario.vain_attempts
      = (map (fun e' => Sender.SentSyn (u32 (Sender.hs_rand e')))
           Scenario.vain_attempts,
         Sender.HsPending timeout))
  /\ Sender.establish_connection
       (Scenario.vain_attempts ++ Scenario.answered :: [])
     = (map (fun e' => Sender.SentSyn (u32 (Sender.hs_rand e')))
          Scenario.vain_attempts
        ++ [Sender.SentSyn (u32 (Sender.hs_rand Scenario.answered));
            Sender.SentAck (u32 (5 + 1))],
        Sender.Established (s32 (u32 (Sender.hs_rand Scenario.answered)))).
Proof.
  apply (initiator_handshake Scenario.vain_attempts [] Scenario.answered 5 0);
    reflexivity.
Defined.

Lemma await_ack_unanswered (sn an : Z) (pre : list Receiver.hs_recv) :
  forall rest timeout,
    forallb (Receiver.unanswered an) pre = true ->
    exists timeout',
      Receiver.await_ack sn an (pre ++ rest) timeout
      = (repeat (Receiver.SentSynAck sn an) (length pre)
         ++ fst (Receiver.await_ack sn an rest timeout'),
         snd (Receiver.await_ack sn an rest timeout')).
Proof.
  induction pre as [|r pre IH]; intros rest timeout Hpre.
  - exists timeout. cbn [app repeat length].
    now destruct (Receiver.await_ack _ _ _ _).
  - cbn [forallb] in Hpre. apply andb_true_iff in Hpre as [Hr Hpre].
    cbn [app length repeat Receiver.await_ack].
    destruct r as [| |recv_size a]; [|discriminate|].
    + destruct (IH rest (Receiver.backoff timeout) Hpre) as (t' & ->).
      now exists t'.
    + cbn [Receiver.unanswered] in Hr. apply negb_true_iff in Hr. rewrite Hr.
      destruct (IH rest timeout Hpre) as (t' & ->). now exists t'.
Qed.

Lemma responder_listen_silent (pre : list Receiver.listen_env) :
  forall rest rand acks timeout,
    forallb Receiver.silent pre = true ->
    exists timeout',
      Receiver.establish_connection_loop (pre ++ rest) rand acks timeout
      = Receiver.establish_connection_loop rest rand acks timeout'.
Proof.
  induction pre as [|e pre IH]; intros rest rand acks timeout Hpre.
  - now exists timeout.
  - cbn [forallb] in Hpre. apply andb_true_iff in Hpre as [He Hpre].
    unfold Receiver.silent in He. apply andb_true_iff in He as [Hok Hrecv].
    cbn [app Receiver.establish_connection_loop]. rewrite Hok. cbn [negb].
    destruct (Receiver.ls_recvfrom e) as [| |n s]; [|discriminate|].
    + apply IH, Hpre.
    + apply negb_true_iff in Hrecv. rewrite Hrecv. apply IH, Hpre.
Qed.

(** X11: the responder's handshake.  Timeouts and empty datagrams are
    waited out; the first datagram of any positive size counts as the Syn,
    and from then on the responder never listens for a Syn again.  It
    sends the same SynAck, [rand()] and the Syn's number plus one, at the
    head of every attempt, before it listens; whatever arrives that is
    not the number [Syn + 1] (a timeout, an empty datagram, another Syn,
    any other number) makes it send the SynAck again, without limit; the
    first datagram that carries [Syn + 1] ends the handshake.  So after
    [n] unavailing arrivals the responder has sent [n + 1] SynAcks,
    whether it is still waiting or the awaited Ack comes next. *)
Theorem responder_handshake (pre post : list Receiver.listen_env)
  (e : Receiver.listen_env) (size size' : nat) (syn rand : Z)
  (waiting later : list Receiver.hs_recv) :
  forallb Receiver.silent pre = true ->
  Receiver.ls_setsockopt_ok e = true ->
  Receiver.ls_recvfrom e = Receiver.HsData (S size) syn ->
  forallb (Receiver.unanswered (u32 (syn + 1))) waiting = true ->
  (exists timeout,
      Receiver.establish_connection (pre ++ e :: post) rand waiting
      = (repeat (Receiver.SentSynAck (u32 rand) (u32 (syn + 1)))
           (S (length waiting)),
         Receiver.HsPending timeout))
  /\ Receiver.establish_connection (pre ++ e :: post) rand
       (waiting ++ Receiver.HsData (S size') (u32 (syn + 1)) :: later)
     = (repeat (Receiver.SentSynAck (u32 rand) (u32 (syn + 1)))
          (S (length waiting)),
        Receiver.Established).
Proof.
  intros Hpre Hok Hrecv Hwait. unfold Receiver.establish_connection.
  assert (Hsyn : forall acks timeout,
             Receiver.establish_connection_loop (e :: post) rand acks timeout
             = Receiver.await_ack (u32 rand) (u32 (syn + 1)) acks
                 SYN_ACK_DEFAULT_TIMEOUT_MILLISEC).
  { intros acks timeout. cbn [Receiver.establish_connection_loop].
    rewrite Hok, Hrecv. cbn [negb].
    replace (0 <? Z.of_nat (S size)) with true
      by (symmetry; apply Z.ltb_lt; lia).
    reflexivity. }
  split.
  - destruct (responder_listen_silent pre (e :: post) rand waiting
                SYN_ACK_DEFAULT_TIMEOUT_MILLISEC Hpre) as (t' & ->).
    rewrite Hsyn.
    destruct (await_ack_unanswered (u32 rand) (u32 (syn + 1)) waiting []
                SYN_ACK_DEFAULT_TIMEOUT_MILLISEC Hwait) as (t2 & E).
    rewrite app_nil_r in E. rewrite E. cbn [Receiver.await_ack fst snd].
    exists t2. f_equal. rewrite <- repeat_cons. reflexivity.
  - destruct (responder_listen_silent pre (e :: post) rand
                (waiting ++ Receiver.HsData (S size') (u32 (syn + 1)) :: later)
                SYN_ACK_DEFAULT_TIMEOUT_MILLISEC Hpre) as (t' & ->).
    rewrite Hsyn.
    destruct (await_ack_unanswered (u32 rand) (u32 (syn + 1)) waiting
                (Receiver.HsData (S size') (u32 (syn + 1)) :: later)
                SYN_ACK_DEFAULT_TIMEOUT_MILLISEC Hwait) as (t2 & ->).
    cbn [Receiver.await_ack].
    replace (0 <? Z.of_nat (S size')) with true
      by (symmetry; apply Z.ltb_lt; lia).
    rewrite Z.eqb_refl. cbn [andb fst snd].
    f_equal. rewrite <- repeat_cons. reflexivity.
Qed.

(** [responder_handshake] for a responder that hears the Syn 41 after a
    timeout, and then a timeout and the Syn again before the Ack 42. *)
Lemma responder_handshake_witness :
  (exists timeout,
      Receiver.establish_connection
        (Scenario.quiet_start ++ Scenario.syn_41 :: []) 41
        Scenario.before_the_ack
      = (repeat (Receiver.SentSynAck (u32 41) (u32 (41 + 1)))
           (S (length Scenario.before_the_ack)),
         Receiver.HsPending timeout))
  /\ Receiver.establish_connection
       (Scenario.quiet_start ++ Scenario.syn_41 :: []) 41
       (Scenario.before_the_ack
        ++ Receiver.HsData 4 (u32 (41 + 1)) :: [])
     = (repeat (Receiver.SentSynAck (u32 41) (u32 (41 + 1)))
          (S (length Scenario.before_the_ack)),
        Receiver.Established).
Proof.
  apply (responder_handshake Scenario.quiet_start [] Scenario.syn_41 3 3 41 41
           Scenario.before_the_ack []);
    reflexivity.
Defined.

(** *** The order of the receiver's writes *)

Lemma written_seqs_nil (env : list Receiver.recv_env) :
  Receiver.written_seqs env [] = [].
Proof. now destruct env. Qed.

Lemma rrecv_loop_written_seqs (env : list Receiver.recv_env) :
  forall st,
    StronglySorted Z.lt
      (Receiver._latestSequenceNumber st
       :: Receiver.written_seqs env (fst (Receiver.rrecv_loop env st))).
Proof.
  induction env as [|e env IH]; intros st.
  - cbn. repeat constructor.
  - cbn [Receiver.rrecv_loop].
    assert (Hquiet : forall r,
               Receiver.rrecv_iter e st = ([], r) ->
               (r = Receiver.Exit 1 \/ r = Receiver.Continue st) ->
               StronglySorted Z.lt
                 (Receiver._latestSequenceNumber st
                  :: Receiver.written_seqs (e :: env)
                       (fst (let (evs, r') := Receiver.rrecv_iter e st in
                             match r' with
                             | Receiver.Continue st' =>
                                 let (trace, out) :=
                                   Receiver.rrecv_loop env st' in
                                 (evs :: trace, out)
                             | Receiver.Break => ([evs], Receiver.Finished)
                             | Receiver.Exit code =>
                                 ([evs], Receiver.Exited code)
                             end)))).
    { intros r E [-> | ->]; rewrite E.
      - cbn [fst Receiver.written_seqs Receiver.fwrites filter length Nat.ltb
             Nat.leb].
        rewrite written_seqs_nil.
        destruct (Receiver.seq_of e); repeat constructor.
      - specialize (IH st).
        destruct (Receiver.rrecv_loop env st) as [trace out].
        cbn [fst Receiver.written_seqs Receiver.fwrites filter length Nat.ltb
             Nat.leb] in *.
        destruct (Receiver.seq_of e); exact IH. }
    destruct (Receiver.header_of e) as [h|] eqn:Hh.
    2:{ destruct (rrecv_iter_no_header e st Hh) as [E|E];
          apply (Hquiet _ E); auto. }
    destruct (Receiver.ack_sendto_ok e) eqn:Hok.
    2:{ destruct (rrecv_iter_ack_failed e st Hok) as [E|E];
          apply (Hquiet _ E); auto. }
    clear Hquiet.
    destruct (rrecv_iter_header e st h Hh Hok) as (d & Hd & Hhd & E).
    assert (Hseq : Receiver.seq_of e = Some (sequenceNumber h))
      by (unfold Receiver.seq_of; now rewrite Hh).
    rewrite E.
    destruct (Z.leb_spec (sequenceNumber h) (Receiver._latestSequenceNumber st))
      as [Hle|Hgt].
    + specialize (IH st).
      destruct (Receiver.rrecv_loop env st) as [trace out].
      cbn [fst Receiver.written_seqs] in *. rewrite Hseq.
      cbn [Receiver.fwrites filter length Nat.ltb Nat.leb app]. exact IH.
    + destruct (lastPacket h =? TRUE).
      * cbn [fst Receiver.written_seqs]. rewrite Hseq, written_seqs_nil.
        cbn [Receiver.fwrites filter length Nat.ltb Nat.leb app].
        repeat constructor. exact Hgt.
      * specialize (IH {| Receiver._latestSequenceNumber := sequenceNumber h;
                          Receiver.bytesWritten :=
                            u64 (Receiver.bytesWritten st
                                 + Receiver.bytesReceived_of d) |}).
        destruct (Receiver.rrecv_loop env _) as [trace out].
        cbn [fst Receiver.written_seqs Receiver._latestSequenceNumber] in *.
        rewrite Hseq.
        cbn [Receiver.fwrites filter length Nat.ltb Nat.leb app].
        constructor; [exact IH|].
        constructor; [exact Hgt|].
        apply StronglySorted_inv in IH as [_ Hall].
        eapply Forall_impl; [|exact Hall]. cbv beta. intros a Ha. lia.
Qed.

(** X12: the receiver writes in strictly increasing order of sequence
    number.  In any run of the loop, from any state, the sequence numbers
    of the iterations that wrote a payload are strictly increasing and all
    above the number the loop started with: no number is written twice,
    and none after a higher one. *)
Theorem writes_in_increasing_order (env : list Receiver.recv_env)
  (st : Receiver.State) :
  StronglySorted Z.lt
    (Receiver._latestSequenceNumber st
     :: Receiver.written_seqs env (fst (Receiver.rrecv_loop env st)))
  /\ NoDup (Receiver.written_seqs env (fst (Receiver.rrecv_loop env st))).
Proof.
  pose proof (rrecv_loop_written_seqs env st) as H.
  split; [exact H|].
  apply StronglySorted_inv in H as [H _].
  induction H as [|a l Hl IH Ha]; constructor; [|exact IH].
  intros Hin. pose proof (proj1 (Forall_forall _ _) Ha a Hin). lia.
Qed.

(** *** Retransmissions *)

Lemma u32_s32 (z : Z) : u32 (s32 z) = u32 z.
Proof.
  unfold u32, s32.
  rewrite <- Zminus_mod_idemp_l, Z.mod_mod by lia.
  rewrite Zminus_mod_idemp_l. f_equal. lia.
Qed.

Lemma u32_succ (z : Z) : u32 (u32 z + 1) = u32 (z + 1).
Proof. unfold u32. now rewrite Zplus_mod_idemp_l. Qed.

(** The header of the buffer an iteration sends carries the current
    sequence number, when a buffer kept for a retry does. *)
Lemma prepare_header_seq (bytesToTransfer : Z) (st : Sender.State) :
  len (Sender.packet st) = HEADER_SIZE + MAX_BUFFER_SIZE ->
  (Sender.retries st <> 0 ->
   sequenceNumber (decode_header (Sender.packet st))
   = u32 (Sender._sequenceNumber st)) ->
  sequenceNumber
    (decode_header (Sender.packet (Sender.prepare bytesToTransfer st)))
  = u32 (Sender._sequenceNumber st).
Proof.
  intros Hl Hkept. unfold Sender.prepare.
  destruct (Z.eqb_spec (Sender.retries st) 0) as [Hz|Hnz]; [|auto].
  destruct (read_chunk_layout bytesToTransfer st Hl) as (h & _ & Hsq & _ & ->).
  rewrite decode_encode_header. cbn [sequenceNumber]. rewrite Hsq.
  unfold u32. now rewrite Z.mod_mod.
Qed.

(** What one [checkAck] that returns does to the buffer, the retry counter
    and the sequence number. *)
Lemma checkAck_step (r : Sender.recv_result) (ret : Z) (st st' : Sender.State) :
  Sender.checkAck r ret st = Sender.Next st' ->
  Sender.packet st' = Sender.packet st
  /\ (Sender.retries st' = s32 (Sender.retries st + 1)
      /\ Sender._sequenceNumber st' = Sender._sequenceNumber st
      \/ Sender.retries st' = 0
         /\ Sender._sequenceNumber st' = s32 (Sender._sequenceNumber st + 1)).
Proof.
  unfold Sender.checkAck. intros Ec. destruct r as [| |v].
  - destruct (Sender.retries _ <? MAX_RETRIES); [|discriminate].
    injection Ec as <-. cbn. auto.
  - discriminate.
  - destruct (negb _); injection Ec as <-; cbn; auto.
Qed.

Lemma rsend_loop_steps (bytesToTransfer : Z) (env : list Sender.iter_env) :
  forall st,
    len (Sender.packet st) = HEADER_SIZE + MAX_BUFFER_SIZE ->
    0 <= Sender.retries st ->
    Sender.retries st + Z.of_nat (length env) < 2 ^ 31 ->
    (Sender.retries st <> 0 ->
     sequenceNumber (decode_header (Sender.packet st))
     = u32 (Sender._sequenceNumber st)) ->
    Forall (fun p =>
              snd p = fst p
              \/ sequenceNumber (decode_header (snd p))
                 = u32 (sequenceNumber (decode_header (fst p)) + 1))
           (combine (fst (Sender.rsend_loop bytesToTransfer env st))
                    (tl (fst (Sender.rsend_loop bytesToTransfer env st))))
    /\ (forall d,
          hd_error (fst (Sender.rsend_loop bytesToTransfer env st)) = Some d ->
          d = Sender.packet (Sender.prepare bytesToTransfer st)).
Proof.
  induction env as [|e env IH]; intros st Hl Hr0 Hrb Hkept.
  - cbn [Sender.rsend_loop].
    destruct (Sender.totalBytesSent st <? bytesToTransfer);
      cbn; split; (constructor || discriminate).
  - cbn [Sender.rsend_loop].
    destruct (Sender.totalBytesSent st <? bytesToTransfer);
      [|cbn; split; (constructor || discriminate)].
    pose proof (prepare_header_seq bytesToTransfer st Hl Hkept) as Hhdr.
    assert (Hpl : len (Sender.packet (Sender.prepare bytesToTransfer st))
                  = HEADER_SIZE + MAX_BUFFER_SIZE)
      by (unfold len; rewrite prepare_packet_length; exact Hl).
    destruct (prepare_counters bytesToTransfer st) as (Hsq & _ & Hrt & _).
    destruct (rsend_iter_cases bytesToTransfer e st) as [E|E]; rewrite E.
    { cbn. split; [constructor | discriminate]. }
    rewrite (datagram_of_full _ Hpl).
    destruct (Sender.checkAck (Sender.ack_recvfrom e) (Sender.sendto_ret e)
                (Sender.prepare bytesToTransfer st)) as [st'|code] eqn:Ec.
    2:{ cbn. split; [constructor|]. intros d Hd. now injection Hd as <-. }
    destruct (checkAck_step _ _ _ _ Ec) as (Hpk & Hcases).
    rewrite Hrt, Hsq in Hcases. cbn [length] in Hrb.
    rewrite s32_small in Hcases by lia.
    assert (Hl' : len (Sender.packet st') = HEADER_SIZE + MAX_BUFFER_SIZE)
      by (rewrite Hpk; exact Hpl).
    destruct (IH st' Hl') as (Hall & Hhd).
    { destruct Hcases as [[-> _]|[-> _]]; lia. }
    { destruct Hcases as [[-> _]|[-> _]]; lia. }
    { intros Hnz. destruct Hcases as [[_ ->]|[Hz _]]; [|contradiction].
      now rewrite Hpk. }
    destruct (Sender.rsend_loop bytesToTransfer env st') as [sent' out].
    cbn [fst app tl hd_error] in *.
    split; [|intros d Hd; now injection Hd as <-].
    destruct sent' as [|d2 rest]; [constructor|].
    cbn [combine tl] in *. constructor; [|exact Hall].
    cbn [fst snd]. specialize (Hhd d2 eq_refl). subst d2.
    destruct Hcases as [[Hr _]|[Hz Hs]].
    + left. unfold Sender.prepare.
      destruct (Z.eqb_spec (Sender.retries st') 0); [lia | exact Hpk].
    + right. rewrite Hhdr.
      rewrite (prepare_header_seq bytesToTransfer st' Hl')
        by (intros Hnz; contradiction).
      now rewrite Hs, u32_s32, u32_succ.
Qed.

(** X13: retransmission.  In a run of the sender's loop that starts with a
    fresh buffer, each datagram after the first is either the previous
    datagram again, byte for byte (for a retry the file is not read and
    the buffer is not rebuilt), or carries the previous datagram's
    sequence number plus one: no number is skipped, and no packet is
    altered between its transmissions. *)
Theorem retransmission_repeats_datagram (bytesToTransfer : Z)
  (env : list Sender.iter_env) (st : Sender.State) :
  len (Sender.packet st) = HEADER_SIZE + MAX_BUFFER_SIZE ->
  Sender.retries st = 0 ->
  Z.of_nat (length env) < 2 ^ 31 ->
  Forall (fun p =>
            snd p = fst p
            \/ sequenceNumber (decode_header (snd p))
               = u32 (sequenceNumber (decode_header (fst p)) + 1))
         (combine (fst (Sender.rsend_loop bytesToTransfer env st))
                  (tl (fst (Sender.rsend_loop bytesToTransfer env st)))).
Proof.
  intros Hl Hz Hn.
  apply (rsend_loop_steps bytesToTransfer env st Hl); lia.
Qed.

(** [retransmission_repeats_datagram] for the 10000-byte source, a timeout
    and then the acks 1 and 2. *)
Lemma retransmission_repeats_datagram_witness :
  Forall (fun p =>
            snd p = fst p
            \/ sequenceNumber (decode_header (snd p))
               = u32 (sequenceNumber (decode_header (fst p)) + 1))
         (combine
            (fst (Sender.rsend_loop 10000 Scenario.timeout_then_acks
                    Scenario.ten_thousand_sender))
            (tl (fst (Sender.rsend_loop 10000 Scenario.timeout_then_acks
                        Scenario.ten_thousand_sender)))).
Proof.
  apply (retransmission_repeats_datagram 10000 Scenario.timeout_then_acks
           Scenario.ten_thousand_sender).
  - vm_compute. reflexivity.
  - reflexivity.
  - vm_compute. reflexivity.
Defined.

(** That run, executed: packet 1 twice, then packet 2. *)
Lemma timeout_then_acks_run :
  map (fun d => sequenceNumber (decode_header d))
    (fst (Sender.rsend_loop 10000 Scenario.timeout_then_acks
            Scenario.ten_thousand_sender))
  = [1; 1; 2].
Proof. vm_compute. reflexivity. Qed.

(** *** The target, and how the programs end *)

(** X14: the number of bytes to transfer.  For a file of [size] bytes whose
    [stat] succeeds the effective target is the smaller of [size] and the
    requested count; it is the [cap] the data loop is verified with; a
    negative count on the command line, which [main] converts to
    [unsigned long long], asks for more than any file holds and so means
    the whole file; and when [stat] fails, [getFileSize]'s [-1] compares
    as the largest [unsigned long long] and the request stands. *)
Theorem effective_target (source : list byte) (size request : Z) :
  0 <= size < 2 ^ 63 ->
  0 <= request < 2 ^ 64 ->
  Sender.capped (Some size) (Some size) request = Z.min size request
  /\ (size = len source ->
      Sender.capped (Some size) (Some size) request
      = Sender.cap source request)
  /\ (forall n,
        - 2 ^ 63 <= n < 0 ->
        Sender.capped (Some size) (Some size) (u64 n) = size)
  /\ (forall second, Sender.capped None second request = request).
Proof.
  intros Hs Hr. unfold Sender.capped, Sender.getFileSize.
  assert (Hu : u64 size = size) by (unfold u64; rewrite Z.mod_small; lia).
  rewrite Hu. split; [|split; [|split]].
  - destruct (Z.ltb_spec size request); lia.
  - intros ->. reflexivity.
  - intros n Hn.
    assert (u64 n = n + 2 ^ 64).
    { unfold u64. rewrite <- (Z.mod_add n 1 (2 ^ 64)) by lia.
      rewrite Z.mod_small; lia. }
    destruct (Z.ltb_spec size (u64 n)); lia.
  - intros second. change (u64 (-1)) with (2 ^ 64 - 1).
    destruct (Z.ltb_spec (2 ^ 64 - 1) request); [lia | reflexivity].
Qed.

Lemma effective_target_witness :
  Sender.capped (Some 3) (Some 3) 10 = Z.min 3 10
  /\ (3 = len Scenario.abc ->
      Sender.capped (Some 3) (Some 3) 10 = Sender.cap Scenario.abc 10)
  /\ (forall n,
        - 2 ^ 63 <= n < 0 ->
        Sender.capped (Some 3) (Some 3) (u64 n) = 3)
  /\ (forall second, Sender.capped None second 10 = 10).
Proof.
  apply (effective_target Scenario.abc 3 10); lia.
Defined.

(** Every [exit] of the sender's loops carries 1, and a loop that finishes
    has reached its target. *)
Lemma sender_handshake_exit (env : list Sender.hs_env) :
  forall timeout code,
    snd (Sender.establish_connection_loop env timeout) = Sender.HsExited code ->
    code = 1.
Proof.
  induction env as [|e env IH]; intros timeout code; cbn [Sender.establish_connection_loop].
  - discriminate.
  - destruct (negb (Sender.hs_setsockopt_ok e)); [cbn; congruence|].
    destruct (Sender.hs_recvfrom e) as [| |n sn an].
    + specialize (IH (Sender.backoff timeout) code).
      destruct (Sender.establish_connection_loop env _). exact IH.
    + cbn. congruence.
    + destruct ((0 <? Z.of_nat n) && (Z.of_nat n =? SYNACK_SIZE));
        [discriminate|].
      specialize (IH timeout code).
      destruct (Sender.establish_connection_loop env _). exact IH.
Qed.

Lemma rsend_loop_end (bytesToTransfer : Z) (env : list Sender.iter_env) :
  forall st,
    match snd (Sender.rsend_loop bytesToTransfer env st) with
    | Sender.Finished st' => bytesToTransfer <= Sender.totalBytesSent st'
    | Sender.Exited code => code = 1
    | Sender.Pending st' => Sender.totalBytesSent st' < bytesToTransfer
    | Sender.Connecting _ => False
    end.
Proof.
  induction env as [|e env IH]; intros st; cbn [Sender.rsend_loop];
    destruct (Z.ltb_spec (Sender.totalBytesSent st) bytesToTransfer) as [Hlt|Hge];
    try (cbn; lia).
  destruct (rsend_iter_cases bytesToTransfer e st) as [E|E]; rewrite E;
    [reflexivity|].
  destruct (Sender.checkAck _ _ _) as [st'|code] eqn:Ec.
  - specialize (IH st'). now destruct (Sender.rsend_loop bytesToTransfer env st').
  - cbn. unfold Sender.checkAck in Ec.
    destruct (Sender.ack_recvfrom e) as [| |v].
    + destruct (_ <? _); congruence.
    + congruence.
    + destruct (negb _); discriminate.
Qed.

(** X15: how the sender process ends.  With anything but four arguments,
    or when [socket], [gethostbyname] or [fopen] fails, it calls [exit(1)]
    before a single datagram is sent; every other [exit] it makes also
    carries 1; and it returns from [main], with [EXIT_SUCCESS], only with
    four arguments, an opened file and a data loop that has counted as
    many bytes as the capped target. *)
Theorem sender_process_end (argc atoll_argv4 : Z) (su : Sender.setup_env)
  (hs : list Sender.hs_env) (env : list Sender.iter_env) (packet0 : list byte) :
  (argc <> 5 \/ Sender.socket_ret su < 0 \/ Sender.gethostbyname_ok su = false
   \/ Sender.fopen su = None ->
   Sender.main argc atoll_argv4 su hs env packet0 = ([], [], CalledExit 1))
  /\ (forall code,
        snd (Sender.main argc atoll_argv4 su hs env packet0) = CalledExit code ->
        code = 1)
  /\ (forall code,
        snd (Sender.main argc atoll_argv4 su hs env packet0) = Returned code ->
        code = EXIT_SUCCESS
        /\ argc = 5
        /\ exists source seq st,
            Sender.fopen su = Some source
            /\ snd (Sender.establish_connection hs) = Sender.Established seq
            /\ snd (Sender.rsend_loop
                      (Sender.capped (Sender.stat_first su)
                         (Sender.stat_second su) (u64 atoll_argv4))
                      env (Sender.init seq packet0 source))
               = Sender.Finished st
            /\ Sender.capped (Sender.stat_first su) (Sender.stat_second su)
                 (u64 atoll_argv4)
               <= Sender.totalBytesSent st).
Proof.
  unfold Sender.main, Sender.rsend_whole.
  destruct (Z.eqb_spec argc 5) as [Hargc|Hargc]; cbn [negb].
  2:{ split; [reflexivity|]. split; cbn; [congruence | discriminate]. }
  destruct (Z.ltb_spec (Sender.socket_ret su) 0) as [Hsock|Hsock].
  { split; [reflexivity|]. split; cbn; [congruence | discriminate]. }
  destruct (Sender.gethostbyname_ok su) eqn:Hhost; cbn [negb].
  2:{ split; [reflexivity|]. split; cbn; [congruence | discriminate]. }
  destruct (Sender.fopen su) as [source|] eqn:Hopen.
  2:{ split; [reflexivity|]. split; cbn; [congruence | discriminate]. }
  split; [intros [H|[H|[H|H]]]; (lia || discriminate)|].
  unfold Sender.establish_connection.
  pose proof (sender_handshake_exit hs SYN_ACK_DEFAULT_TIMEOUT_MILLISEC) as Hhs.
  destruct (Sender.establish_connection_loop hs _) as [hsent [seq|code|t]].
  - pose proof (rsend_loop_end
                  (Sender.capped (Sender.stat_first su) (Sender.stat_second su)
                     (u64 atoll_argv4))
                  env (Sender.init seq packet0 source)) as Hend.
    destruct (Sender.rsend_loop _ env _) as [sent [st|code|st|t]] eqn:Eloop;
      cbn [snd] in *.
    + split; [discriminate|]. intros code Hc. injection Hc as <-.
      split; [reflexivity|]. split; [exact Hargc|].
      exists source, seq, st.
      split; [reflexivity|]. split; [reflexivity|].
      rewrite Eloop. split; [reflexivity | exact Hend].
    + split; [congruence | discriminate].
    + split; discriminate.
    + destruct Hend.
  - cbn [snd] in *. split; [|discriminate].
    intros code' Hc. injection Hc as <-. now apply Hhs.
  - cbn. split; discriminate.
Qed.

Lemma await_ack_exit (sn an : Z) (env : list Receiver.hs_recv) :
  forall timeout code,
    snd (Receiver.await_ack sn an env timeout) = Receiver.HsExited code ->
    code = 1.
Proof.
  induction env as [|r env IH]; intros timeout code; cbn [Receiver.await_ack].
  - discriminate.
  - destruct r as [| |n a].
    + specialize (IH (Receiver.backoff timeout) code).
      destruct (Receiver.await_ack sn an env _). exact IH.
    + cbn. congruence.
    + destruct ((0 <? Z.of_nat n) && (a =? an)); [discriminate|].
      specialize (IH timeout code).
      destruct (Receiver.await_ack sn an env _). exact IH.
Qed.

Lemma responder_handshake_exit (listen : list Receiver.listen_env) (rand : Z)
  (acks : list Receiver.hs_recv) :
  forall timeout code,
    snd (Receiver.establish_connection_loop listen rand acks timeout)
    = Receiver.HsExited code ->
    code = 1.
Proof.
  induction listen as [|e listen IH]; intros timeout code;
    cbn [Receiver.establish_connection_loop].
  - discriminate.
  - destruct (negb (Receiver.ls_setsockopt_ok e)); [cbn; congruence|].
    destruct (Receiver.ls_recvfrom e) as [| |n s].
    + apply IH.
    + cbn. congruence.
    + destruct (0 <? Z.of_nat n); [apply await_ack_exit | apply IH].
Qed.

(** The one way out of the receiver's loop by [break]. *)
Lemma rrecv_iter_break (e : Receiver.recv_env) (st : Receiver.State)
  (evs : list Receiver.event) :
  Receiver.rrecv_iter e st = (evs, Receiver.Break) ->
  exists d,
    Receiver.recvfrom e = Some d
    /\ evs = [Receiver.SendAck
                (sequenceNumber
                   (decode_header (Receiver.received (Receiver.stale e) d)));
              Receiver.FWrite
                (Receiver.packet_data_of
                   (Receiver.received (Receiver.stale e) d))]
    /\ lastPacket (decode_header (Receiver.received (Receiver.stale e) d))
       = TRUE.
Proof.
  unfold Receiver.rrecv_iter, Receiver.send_packet_ack.
  destruct (Receiver.recvfrom e) as [d|]; [|discriminate].
  destruct (Receiver.bytesReceived_of d =? 0); [discriminate|].
  destruct (Receiver.ack_sendto_ok e); [|discriminate].
  destruct (_ <=? _); [discriminate|].
  destruct (Z.eqb_spec
              (lastPacket (decode_header (Receiver.received (Receiver.stale e) d)))
              TRUE) as [Hlast|_]; [|discriminate].
  intros H. injection H as <-. exists d. auto.
Qed.

Lemma rrecv_iter_exit (e : Receiver.recv_env) (st : Receiver.State)
  (evs : list Receiver.event) (code : Z) :
  Receiver.rrecv_iter e st = (evs, Receiver.Exit code) -> code = 1.
Proof.
  unfold Receiver.rrecv_iter, Receiver.send_packet_ack.
  destruct (Receiver.recvfrom e) as [d|]; [|congruence].
  destruct (Receiver.bytesReceived_of d =? 0); [discriminate|].
  destruct (Receiver.ack_sendto_ok e); [|congruence].
  destruct (_ <=? _); [discriminate|].
  destruct (_ =? TRUE); discriminate.
Qed.

(** How the receiver's loop ends: an [exit] carries 1, and the loop is
    left by [break] only in an iteration that acknowledged and wrote a
    packet flagged [lastPacket]. *)
Lemma rrecv_loop_end (env : list Receiver.recv_env) :
  forall st trace out,
    Receiver.rrecv_loop env st = (trace, out) ->
    (forall code, out = Receiver.Exited code -> code = 1)
    /\ (forall t, out <> Receiver.Connecting t)
    /\ (out = Receiver.Finished ->
        exists before e d,
          trace
          = before
            ++ [[Receiver.SendAck
                   (sequenceNumber
                      (decode_header (Receiver.received (Receiver.stale e) d)));
                 Receiver.FWrite
                   (Receiver.packet_data_of
                      (Receiver.received (Receiver.stale e) d))]]
          /\ In e env
          /\ Receiver.recvfrom e = Some d
          /\ lastPacket (decode_header (Receiver.received (Receiver.stale e) d))
             = TRUE).
Proof.
  induction env as [|e env IH]; intros st trace out H;
    cbn [Receiver.rrecv_loop] in H.
  - injection H as <- <-. repeat split; discriminate.
  - destruct (Receiver.rrecv_iter e st) as [evs [st'| |code]] eqn:E.
    + destruct (Receiver.rrecv_loop env st') as [trace' out'] eqn:E'.
      injection H as <- <-.
      destruct (IH st' trace' out' E') as (Hexit & Hconn & Hfin).
      split; [exact Hexit|]. split; [exact Hconn|].
      intros Hout. destruct (Hfin Hout) as (before & e0 & d & -> & Hin & Hd).
      exists (evs :: before), e0, d. split; [reflexivity|].
      split; [now right | exact Hd].
    + injection H as <- <-.
      destruct (rrecv_iter_break e st evs E) as (d & Hd & -> & Hlast).
      split; [discriminate|]. split; [discriminate|]. intros _.
      exists [], e, d. split; [reflexivity|]. split; [now left|]. now split.
    + injection H as <- <-. apply rrecv_iter_exit in E. subst code.
      split; [congruence|]. split; discriminate.
Qed.

(** X16: how the receiver process ends.  Called with no argument, [main]
    hands [atoi] a null pointer before it looks at [argc].  With one
    argument, or more than three, or when [socket], [bind] or [fopen]
    fails, it calls [exit(1)] before anything is received; every other
    [exit] it makes also carries 1; and it returns, with [EXIT_SUCCESS],
    only with two or three arguments and after an iteration that
    acknowledged and wrote a packet flagged [lastPacket]. *)
Theorem receiver_process_end (argc atoll_argv3 : Z) (su : Receiver.setup_env)
  (listen : list Receiver.listen_env) (rand : Z) (acks : list Receiver.hs_recv)
  (env : list Receiver.recv_env) :
  (Receiver.main argc atoll_argv3 su listen rand acks env = None <-> argc < 2)
  /\ (2 <= argc ->
      (argc <> 3 /\ argc <> 4) \/ Receiver.socket_ret su < 0
      \/ Receiver.bind_ret su < 0 \/ Receiver.fopen_ok su = false ->
      Receiver.main argc atoll_argv3 su listen rand acks env
      = Some ([], [], CalledExit 1))
  /\ (forall r code,
        Receiver.main argc atoll_argv3 su listen rand acks env = Some r ->
        snd r = CalledExit code ->
        code = 1)
  /\ (forall r code,
        Receiver.main argc atoll_argv3 su listen rand acks env = Some r ->
        snd r = Returned code ->
        code = EXIT_SUCCESS
        /\ (argc = 3 \/ argc = 4)
        /\ exists before e d,
            snd (fst r)
            = before
              ++ [[Receiver.SendAck
                     (sequenceNumber
                        (decode_header (Receiver.received (Receiver.stale e) d)));
                   Receiver.FWrite
                     (Receiver.packet_data_of
                        (Receiver.received (Receiver.stale e) d))]]
            /\ In e env
            /\ Receiver.recvfrom e = Some d
            /\ lastPacket
                 (decode_header (Receiver.received (Receiver.stale e) d))
               = TRUE).
Proof.
  assert (Hwhole : forall writeRate,
             (Receiver.socket_ret su < 0 \/ Receiver.bind_ret su < 0
              \/ Receiver.fopen_ok su = false ->
              Receiver.ended
                (Receiver.rrecv_whole su writeRate listen rand acks env)
              = ([], [], CalledExit 1))
             /\ (forall code,
                   snd (Receiver.ended
                          (Receiver.rrecv_whole su writeRate listen rand acks env))
                   = CalledExit code -> code = 1)
             /\ (forall code,
                   snd (Receiver.ended
                          (Receiver.rrecv_whole su writeRate listen rand acks env))
                   = Returned code ->
                   code = EXIT_SUCCESS
                   /\ exists before e d,
                       snd (fst (Receiver.ended
                                   (Receiver.rrecv_whole su writeRate listen
                                      rand acks env)))
                       = before
                         ++ [[Receiver.SendAck
                                (sequenceNumber
                                   (decode_header
                                      (Receiver.received (Receiver.stale e) d)));
                              Receiver.FWrite
                                (Receiver.packet_data_of
                                   (Receiver.received (Receiver.stale e) d))]]
                       /\ In e env
                       /\ Receiver.recvfrom e = Some d
                       /\ lastPacket
                            (decode_header
                               (Receiver.received (Receiver.stale e) d))
                          = TRUE)).
  { intros writeRate. unfold Receiver.rrecv_whole.
    destruct (Z.ltb_spec (Receiver.socket_ret su) 0) as [Hsock|Hsock].
    { split; [reflexivity|]. split; cbn; [congruence | discriminate]. }
    destruct (Z.ltb_spec (Receiver.bind_ret su) 0) as [Hbind|Hbind].
    { split; [reflexivity|]. split; cbn; [congruence | discriminate]. }
    destruct (Receiver.fopen_ok su) eqn:Hopen; cbn [negb].
    2:{ split; [reflexivity|]. split; cbn; [congruence | discriminate]. }
    split; [intros [H|[H|H]]; (lia || discriminate)|].
    unfold Receiver.rrecv, Receiver.establish_connection.
    pose proof (responder_handshake_exit listen rand acks
                  SYN_ACK_DEFAULT_TIMEOUT_MILLISEC) as Hhs.
    destruct (Receiver.establish_connection_loop listen rand acks _)
      as [hsent [|code|t]]; cbn [snd] in Hhs.
    - destruct (Receiver.rrecv_loop env Receiver.init) as [trace out] eqn:El.
      destruct (rrecv_loop_end env Receiver.init trace out El)
        as (Hexit & Hconn & Hfin).
      destruct out as [|code|st|t]; cbn [snd fst Receiver.ended] in *.
      + split; [discriminate|]. intros code Hc. injection Hc as <-.
        split; [reflexivity | now apply Hfin].
      + split; [|discriminate]. intros code' Hc. injection Hc as <-.
        now apply Hexit.
      + split; discriminate.
      + now elim (Hconn t).
    - cbn. split; [|discriminate].
      intros code' Hc. injection Hc as <-. now apply Hhs.
    - cbn. split; discriminate. }
  unfold Receiver.main.
  destruct (Z.ltb_spec argc 2) as [Hlow|Hlow].
  { split; [tauto|]. split; [lia|]. split; discriminate. }
  split; [split; [|lia]|].
  { destruct (argc =? 4); [discriminate|]. destruct (argc =? 3); discriminate. }
  destruct (Z.eqb_spec argc 4) as [H4|H4].
  { destruct (Hwhole (u64 atoll_argv3)) as (H1 & H2 & H3).
    split; [intros _ [[_ H]|H]; [contradiction | now rewrite H1]|].
    split.
    - intros r code Hr. injection Hr as <-. apply H2.
    - intros r code Hr. injection Hr as <-. intros Hc.
      destruct (H3 code Hc) as [Hcode Hlast]. auto. }
  destruct (Z.eqb_spec argc 3) as [H3|H3].
  { destruct (Hwhole 0) as (H1 & H2 & H3').
    split; [intros _ [[H _]|H]; [contradiction | now rewrite H1]|].
    split.
    - intros r code Hr. injection Hr as <-. apply H2.
    - intros r code Hr. injection Hr as <-. intros Hc.
      destruct (H3' code Hc) as [Hcode Hlast]. auto. }
  split; [reflexivity|]. split.
  - intros r code Hr. injection Hr as <-. cbn. congruence.
  - intros r code Hr. injection Hr as <-. discriminate.
Qed.

(** *** A target of zero bytes *)

(** C6, what the code does: with a target of 0 bytes the guard of the send
    loop, [totalBytesSent < bytesToTransfer], is false on entry.  Whatever
    its inputs, [rsend] hands no data datagram to the transport, and after
    a completed handshake it returns at once; no packet with
    [messageLength = 0] and [lastPacket = 1] exists.  The loop of [rrecv]
    is left only by the [break] behind a packet flagged [lastPacket]: a
    run that returns has received one, and a receiver whose [recvfrom]
    fails, as it does when nothing arrives within the receive timeout the
    handshake left on the socket, ends with [exit(1)], nothing
    acknowledged and nothing written. *)
Theorem zero_target_no_packet_no_return (source packet0 : list byte)
  (hs : list Sender.hs_env) (env : list Sender.iter_env) :
  snd (fst (Sender.rsend source 0 hs env packet0)) = []
  /\ (forall hsent seq,
        Sender.establish_connection hs = (hsent, Sender.Established seq) ->
        Sender.rsend source 0 hs env packet0
        = (hsent, [], Sender.Finished (Sender.init seq packet0 source)))
  /\ (forall renv st trace,
        Receiver.rrecv_loop renv st = (trace, Receiver.Finished) ->
        exists e d,
          In e renv
          /\ Receiver.recvfrom e = Some d
          /\ lastPacket (decode_header (Receiver.received (Receiver.stale e) d))
             = TRUE)
  /\ (forall e renv st,
        Receiver.recvfrom e = None ->
        Receiver.rrecv_loop (e :: renv) st = ([[]], Receiver.Exited 1)).
Proof.
  split; [|split; [|split]].
  - unfold Sender.rsend. rewrite cap_zero.
    destruct (Sender.establish_connection hs) as [hsent [seq|code|timeout]];
      [|reflexivity|reflexivity].
    now destruct env.
  - intros hsent seq E. unfold Sender.rsend. rewrite E, cap_zero.
    now destruct env.
  - intros renv st trace E.
    destruct (rrecv_loop_end renv st trace Receiver.Finished E)
      as (_ & _ & Hfin).
    destruct (Hfin eq_refl) as (before & e & d & _ & Hin & Hd & Hlast).
    now exists e, d.
  - intros e renv st He. cbn [Receiver.rrecv_loop].
    unfold Receiver.rrecv_iter. now rewrite He.
Qed.

(** The three-byte file with target 0, executed: the handshake's Syn and
    Ack are all the sender emits before it returns, and a receiver that
    then hears nothing ends with [exit(1)], its file empty. *)
Lemma zero_target_run :
  Sender.rsend Scenario.abc 0 [Scenario.answered] [] Scenario.zero_buffer
  = ([Sender.SentSyn 9; Sender.SentAck 6], [],
     Sender.Finished (Sender.init 9 Scenario.zero_buffer Scenario.abc))
  /\ Receiver.rrecv_loop [Receiver.mkRecvEnv Scenario.zero_buffer None true]
       Receiver.init
     = ([[]], Receiver.Exited 1)
  /\ Receiver.written
       (fst (Receiver.rrecv_loop
               [Receiver.mkRecvEnv Scenario.zero_buffer None true]
               Receiver.init))
     = [].
Proof.
  repeat split; vm_compute; reflexivity.
Qed.
